(** * BufferLayer: the buffer-latch and frame-synchronisation engine

    A shallow embedding of [services/surfaceflinger/BufferLayer.cpp]: the
    sync-point ledger scans, the per-refresh latch decision, the geometry
    invalidation test, the filtering test and the texture projection.

    [BufferLayer] is an abstract class.  Its pure virtual members live in
    subclasses outside the modelled source and are taken as an interface
    ([BufferLayerVirtuals]); values fixed by platform headers are taken as
    an interface too ([Platform]). *)

From Stdlib Require Import ZArith Bool Floats.SpecFloat Strings.String.
From stdpp Require Import base tactics option list sorting.

Open Scope Z_scope.

(** ** Machine integers *)

Definition uint32_t (z : Z) : Z := z mod 2 ^ 32.

(** Two's-complement reading of the low 32 bits. *)
Definition int32_t (z : Z) : Z := (z + 2 ^ 31) mod 2 ^ 32 - 2 ^ 31.

Definition nsecs_t := Z.
Definition status_t := Z.
Definition LayerId := Z.
Definition NativeHandle := Z.

(** ** Values fixed by platform headers

    None of these is defined under the modelled sources; the methods only
    name them. *)
Class Platform := {
  NO_ERROR : status_t;
  eLayerOpaque : Z;
  eTraversalNeeded : Z;
  eTransactionNeeded : Z;
  HAL_PIXEL_FORMAT_RGBA_8888 : Z;
  HAL_PIXEL_FORMAT_BGRA_8888 : Z;
  HAL_PIXEL_FORMAT_RGBA_FP16 : Z;
  HAL_PIXEL_FORMAT_RGBA_1010102 : Z;
  NATIVE_WINDOW_SCALING_MODE_FREEZE : Z
}.

(** ** Single-precision floats

    C++ [float] is IEEE binary32: 24 bits of precision, exponents below
    128, round to nearest even. *)
Module Float.
Definition prec : Z := 24.
Definition emax : Z := 128.
Definition float := spec_float.

Definition of_int (z : Z) : float := binary_normalize prec emax z 0 false.
Definition add : float → float → float := SFadd prec emax.
Definition sub : float → float → float := SFsub prec emax.
Definition mul : float → float → float := SFmul prec emax.
Definition div : float → float → float := SFdiv prec emax.

(** C++ [==] and [!=]: a NaN is unequal to everything. *)
Definition eqb (x y : float) : bool := SFeqb x y.
Definition neb (x y : float) : bool := negb (eqb x y).

Definition zero : float := S754_zero false.
Definition one : float := of_int 1.
Definition minus_one : float := of_int (-1).
Definition half : float := div one (of_int 2).
Definition minus_half : float := div minus_one (of_int 2).

Definition is_finite (x : float) : bool :=
  match x with
  | S754_zero _ | S754_finite _ _ _ => true
  | S754_infinity _ | S754_nan => false
  end.

Definition is_finite_nonzero (x : float) : bool :=
  match x with
  | S754_finite _ _ _ => true
  | S754_zero _ | S754_infinity _ | S754_nan => false
  end.
End Float.

(** ** Rectangles *)

(** [ui::Rect]: four [int32_t] edges. *)
Module Rect.
Record t := mk { left : Z; top : Z; right : Z; bottom : Z }.

(** [Rect(w, h)]. *)
Definition of_size (w h : Z) : t := mk 0 0 w h.

(** [Rect::INVALID_RECT]; the source describes it as [0, 0, -1, -1]. *)
Definition INVALID_RECT : t := mk 0 0 (-1) (-1).

Definition getWidth (r : t) : Z := int32_t (right r - left r).
Definition getHeight (r : t) : Z := int32_t (bottom r - top r).

(** Modelled from the spec: [Rect::isValid] is declared outside the
    modelled sources.  An inverted rectangle (negative extent), such as the
    buffer size [0, 0, -1, -1] the source mentions, is invalid; a zero-area
    one is not. *)
Definition isValid (r : t) : bool := (0 <=? getWidth r) && (0 <=? getHeight r).

(** [operator==] compares the four edges. *)
Definition eqb (a b : t) : bool :=
  (left a =? left b) && (top a =? top b) &&
  (right a =? right b) && (bottom a =? bottom b).
Definition neb (a b : t) : bool := negb (eqb a b).
End Rect.

(** [FloatRect]: four [float] edges. *)
Module FloatRect.
Record t := mk { left : Float.float; top : Float.float;
                 right : Float.float; bottom : Float.float }.
Definition getWidth (r : t) : Float.float := Float.sub (right r) (left r).
Definition getHeight (r : t) : Float.float := Float.sub (bottom r) (top r).
End FloatRect.

(** ** 4x4 matrices *)

(** Modelled from the spec: [vec4] and [mat4] come from the math library,
    outside the modelled sources.  The spec's "4x4 transform matrix" is
    taken column-major with the usual product; a matrix-vector product
    accumulates the scaled columns from left to right, starting from the
    zero vector. *)
Module Mat4.
Import Float.

Record vec4 := Vec4 { x : float; y : float; z : float; w : float }.
Record mat4 := Mat4 { c0 : vec4; c1 : vec4; c2 : vec4; c3 : vec4 }.

Definition vzero : vec4 := Vec4 zero zero zero zero.
Definition vadd (a b : vec4) : vec4 :=
  Vec4 (add (x a) (x b)) (add (y a) (y b)) (add (z a) (z b)) (add (w a) (w b)).
Definition vscale (a : vec4) (k : float) : vec4 :=
  Vec4 (mul (x a) k) (mul (y a) k) (mul (z a) k) (mul (w a) k).

Definition identity : mat4 :=
  Mat4 (Vec4 one zero zero zero) (Vec4 zero one zero zero)
       (Vec4 zero zero one zero) (Vec4 zero zero zero one).

(** [mat4::translate(t)]: the identity with its last column set to [t]. *)
Definition translate (t : vec4) : mat4 :=
  Mat4 (c0 identity) (c1 identity) (c2 identity) t.

(** [mat4::scale(s)]: the diagonal matrix of [s]. *)
Definition scale (s : vec4) : mat4 :=
  Mat4 (Vec4 (x s) zero zero zero) (Vec4 zero (y s) zero zero)
       (Vec4 zero zero (z s) zero) (Vec4 zero zero zero (w s)).

Definition mul_vec (m : mat4) (v : vec4) : vec4 :=
  vadd (vadd (vadd (vadd vzero (vscale (c0 m) (x v))) (vscale (c1 m) (y v)))
             (vscale (c2 m) (z v)))
       (vscale (c3 m) (w v)).

Definition mmul (a b : mat4) : mat4 :=
  Mat4 (mul_vec a (c0 b)) (mul_vec a (c1 b)) (mul_vec a (c2 b)) (mul_vec a (c3 b)).

Definition entries (m : mat4) : list float :=
  let col c := [x c; y c; z c; w c] in
  col (c0 m) ++ col (c1 m) ++ col (c2 m) ++ col (c3 m).

(** Every entry is an ordinary number: no infinity, no NaN. *)
Definition all_finite (m : mat4) : bool := forallb is_finite (entries m).
End Mat4.

(** ** Sync points *)

(** Modelled from the spec: [SyncPoint] is declared with the base layer
    class, outside the modelled sources: a target frame number, a
    frame-available flag, a transaction-applied flag and a weak reference
    to the requesting layer.  The weak reference is [None] once the
    requester is gone.  Accessors carry the names the source calls. *)
Module SyncPoint.
Record t := mk {
  mFrameNumber : Z;
  mFrameIsAvailable : bool;
  mTransactionIsApplied : bool;
  mRequestedSyncLayer : option LayerId
}.

Definition getFrameNumber (p : t) : Z := mFrameNumber p.
Definition frameIsAvailable (p : t) : bool := mFrameIsAvailable p.
Definition transactionIsApplied (p : t) : bool := mTransactionIsApplied p.
Definition getRequestedSyncLayer (p : t) : option LayerId := mRequestedSyncLayer p.

Definition setFrameAvailable (p : t) : t :=
  mk (mFrameNumber p) true (mTransactionIsApplied p) (mRequestedSyncLayer p).
Definition setTransactionApplied (p : t) : t :=
  mk (mFrameNumber p) (mFrameIsAvailable p) true (mRequestedSyncLayer p).
End SyncPoint.

(** ** Layer state *)

(** The part of a [GraphicBuffer] the layer reads: its [int] extent and its
    pixel format. *)
Record GraphicBuffer := {
  width : Z;
  height : Z;
  format : Z
}.

Definition GraphicBuffer_getWidth (b : GraphicBuffer) : Z := uint32_t (width b).
Definition GraphicBuffer_getHeight (b : GraphicBuffer) : Z := uint32_t (height b).

(** [mBufferInfo]: the latched snapshot.  A null [sp<GraphicBuffer>] is
    [None]; the unsigned members hold their value.  Fences, damage and HDR
    metadata are opaque handles that no modelled method inspects; they are
    left out. *)
Record BufferInfo := {
  mDesiredPresentTime : nsecs_t;
  mCrop : Rect.t;
  mTransform : Z;
  mScaleMode : Z;
  mDataspace : Z;
  mApi : Z;
  mPixelFormat : Z;
  mTransformToDisplayInverse : bool;
  mBuffer : option GraphicBuffer;
  mFrameLatencyNeeded : bool
}.

Definition BufferInfo_setBuffer (b : option GraphicBuffer) (i : BufferInfo) : BufferInfo :=
  {| mDesiredPresentTime := mDesiredPresentTime i; mCrop := mCrop i;
     mTransform := mTransform i; mScaleMode := mScaleMode i;
     mDataspace := mDataspace i; mApi := mApi i; mPixelFormat := mPixelFormat i;
     mTransformToDisplayInverse := mTransformToDisplayInverse i;
     mBuffer := b; mFrameLatencyNeeded := mFrameLatencyNeeded i |}.

Definition BufferInfo_setFrameLatencyNeeded (v : bool) (i : BufferInfo) : BufferInfo :=
  {| mDesiredPresentTime := mDesiredPresentTime i; mCrop := mCrop i;
     mTransform := mTransform i; mScaleMode := mScaleMode i;
     mDataspace := mDataspace i; mApi := mApi i; mPixelFormat := mPixelFormat i;
     mTransformToDisplayInverse := mTransformToDisplayInverse i;
     mBuffer := mBuffer i; mFrameLatencyNeeded := v |}.

(** The drawing state [s], as far as [isOpaque] reads it. *)
Record State := {
  flags : Z
}.

(** Calls that leave the layer: on [mFlinger], or on another layer reached
    through a sync point. *)
Inductive Call :=
| Flinger_signalLayerUpdate
| Flinger_setTransactionFlags (flags : Z)
| Layer_setTransactionFlags (layer : LayerId) (flags : Z).

(** The members of a [BufferLayer] the modelled methods touch.  [sub] is the
    state private to the concrete subclass; [calls] lists the outgoing
    calls made so far, oldest first.  Each element of [mLocalSyncPoints]
    stands for the sync point one [shared_ptr] of the list refers to. *)
Record Layer (Sub : Type) := {
  mBufferInfo : BufferInfo;
  mSidebandStream : option NativeHandle;
  mCurrentFrameNumber : Z;
  mPreviousFrameNumber : Z;
  mRefreshPending : bool;
  mOverrideScalingMode : Z;
  mLocalSyncPoints : list SyncPoint.t;
  mDrawingState : State;
  sub : Sub;
  calls : list Call
}.

Arguments mBufferInfo {Sub} _.
Arguments mSidebandStream {Sub} _.
Arguments mCurrentFrameNumber {Sub} _.
Arguments mPreviousFrameNumber {Sub} _.
Arguments mRefreshPending {Sub} _.
Arguments mOverrideScalingMode {Sub} _.
Arguments mLocalSyncPoints {Sub} _.
Arguments mDrawingState {Sub} _.
Arguments sub {Sub} _.
Arguments calls {Sub} _.

Section Setters.
Context {Sub : Type}.

Definition setBufferInfo (v : BufferInfo) (l : Layer Sub) : Layer Sub :=
  {| mBufferInfo := v; mSidebandStream := mSidebandStream l;
     mCurrentFrameNumber := mCurrentFrameNumber l;
     mPreviousFrameNumber := mPreviousFrameNumber l;
     mRefreshPending := mRefreshPending l;
     mOverrideScalingMode := mOverrideScalingMode l;
     mLocalSyncPoints := mLocalSyncPoints l; mDrawingState := mDrawingState l;
     sub := sub l; calls := calls l |}.

Definition setSidebandStream (v : option NativeHandle) (l : Layer Sub) : Layer Sub :=
  {| mBufferInfo := mBufferInfo l; mSidebandStream := v;
     mCurrentFrameNumber := mCurrentFrameNumber l;
     mPreviousFrameNumber := mPreviousFrameNumber l;
     mRefreshPending := mRefreshPending l;
     mOverrideScalingMode := mOverrideScalingMode l;
     mLocalSyncPoints := mLocalSyncPoints l; mDrawingState := mDrawingState l;
     sub := sub l; calls := calls l |}.

(** [mPreviousFrameNumber = mCurrentFrameNumber; mCurrentFrameNumber = n]. *)
Definition advanceFrameNumber (n : Z) (l : Layer Sub) : Layer Sub :=
  {| mBufferInfo := mBufferInfo l; mSidebandStream := mSidebandStream l;
     mCurrentFrameNumber := n;
     mPreviousFrameNumber := mCurrentFrameNumber l;
     mRefreshPending := mRefreshPending l;
     mOverrideScalingMode := mOverrideScalingMode l;
     mLocalSyncPoints := mLocalSyncPoints l; mDrawingState := mDrawingState l;
     sub := sub l; calls := calls l |}.

Definition setRefreshPending (v : bool) (l : Layer Sub) : Layer Sub :=
  {| mBufferInfo := mBufferInfo l; mSidebandStream := mSidebandStream l;
     mCurrentFrameNumber := mCurrentFrameNumber l;
     mPreviousFrameNumber := mPreviousFrameNumber l;
     mRefreshPending := v;
     mOverrideScalingMode := mOverrideScalingMode l;
     mLocalSyncPoints := mLocalSyncPoints l; mDrawingState := mDrawingState l;
     sub := sub l; calls := calls l |}.

Definition setLocalSyncPoints (v : list SyncPoint.t) (l : Layer Sub) : Layer Sub :=
  {| mBufferInfo := mBufferInfo l; mSidebandStream := mSidebandStream l;
     mCurrentFrameNumber := mCurrentFrameNumber l;
     mPreviousFrameNumber := mPreviousFrameNumber l;
     mRefreshPending := mRefreshPending l;
     mOverrideScalingMode := mOverrideScalingMode l;
     mLocalSyncPoints := v; mDrawingState := mDrawingState l;
     sub := sub l; calls := calls l |}.

Definition setSub (v : Sub) (l : Layer Sub) : Layer Sub :=
  {| mBufferInfo := mBufferInfo l; mSidebandStream := mSidebandStream l;
     mCurrentFrameNumber := mCurrentFrameNumber l;
     mPreviousFrameNumber := mPreviousFrameNumber l;
     mRefreshPending := mRefreshPending l;
     mOverrideScalingMode := mOverrideScalingMode l;
     mLocalSyncPoints := mLocalSyncPoints l; mDrawingState := mDrawingState l;
     sub := v; calls := calls l |}.

Definition setCalls (v : list Call) (l : Layer Sub) : Layer Sub :=
  {| mBufferInfo := mBufferInfo l; mSidebandStream := mSidebandStream l;
     mCurrentFrameNumber := mCurrentFrameNumber l;
     mPreviousFrameNumber := mPreviousFrameNumber l;
     mRefreshPending := mRefreshPending l;
     mOverrideScalingMode := mOverrideScalingMode l;
     mLocalSyncPoints := mLocalSyncPoints l; mDrawingState := mDrawingState l;
     sub := sub l; calls := v |}.

(** Record one outgoing call. *)
Definition call (c : Call) (l : Layer Sub) : Layer Sub :=
  setCalls (calls l ++ [c]) l.

End Setters.

(** ** The virtual interface

    The members [BufferLayer] declares but leaves to its subclasses.  A
    [const] member reads the layer; the others hand back the layer they
    leave behind, after the value they return and, where they take
    [bool& recomputeVisibleRegions], the flag as they leave it. *)
Class BufferLayerVirtuals (Sub : Type) := {
  fenceHasSignaled : Layer Sub → bool;
  framePresentTimeIsCurrent : nsecs_t → Layer Sub → bool;
  getAutoRefresh : Layer Sub → bool;
  getSidebandStreamChanged : Layer Sub → bool;
  hasFrameUpdate : Layer Sub → bool;
  getFrameNumber : nsecs_t → Layer Sub → Z;
  latchSidebandStream : bool → Layer Sub → bool * bool * Layer Sub;
  updateTexImage : bool → nsecs_t → nsecs_t → Layer Sub → status_t * bool * Layer Sub;
  updateActiveBuffer : Layer Sub → status_t * Layer Sub;
  updateFrameNumber : nsecs_t → Layer Sub → status_t * Layer Sub;
  gatherBufferInfo : Layer Sub → Layer Sub
}.

(** ** A state monad with faults

    A method runs on the layer and hands back a value and the layer it
    leaves; [None] stands for a null dereference, where C++ defines no
    outcome. *)
Definition M (Sub A : Type) : Type := Layer Sub → option (A * Layer Sub).

Definition ret {Sub A} (a : A) : M Sub A := λ l, Some (a, l).
Definition bind {Sub A B} (m : M Sub A) (f : A → M Sub B) : M Sub B :=
  λ l, match m l with Some (a, l') => f a l' | None => None end.

Notation "'let*' x := m 'in' k" := (bind m (λ x, k))
  (at level 10, x pattern, m at level 100, k at level 200).
Notation "m >> k" := (bind m (λ _, k))
  (at level 100, k at level 200, right associativity).

Definition gets {Sub A} (f : Layer Sub → A) : M Sub A := λ l, Some (f l, l).
Definition modify {Sub} (f : Layer Sub → Layer Sub) : M Sub unit := λ l, Some (tt, f l).
Definition run {Sub A} (f : Layer Sub → A * Layer Sub) : M Sub A := λ l, Some (f l).
Definition fault {Sub A} : M Sub A := λ _, None.

(** ** The methods of [BufferLayer] *)

Section BufferLayer.
Context `{Platform} {Sub : Type} `{!BufferLayerVirtuals Sub}.
Implicit Types (l : Layer Sub) (s : State) (point : SyncPoint.t).

(** Formats in the range 0x100 - 0x1FF are specific to the HAL
    implementation and have no alpha channel. *)
Definition HARDWARE_IS_DEVICE_FORMAT (f : Z) : bool := (0x100 <=? f) && (f <=? 0x1FF).

Definition getOpacityForFormat (format : Z) : bool :=
  let format := uint32_t format in
  if HARDWARE_IS_DEVICE_FORMAT format then true
  else if (format =? uint32_t HAL_PIXEL_FORMAT_RGBA_8888)
          || (format =? uint32_t HAL_PIXEL_FORMAT_BGRA_8888)
          || (format =? uint32_t HAL_PIXEL_FORMAT_RGBA_FP16)
          || (format =? uint32_t HAL_PIXEL_FORMAT_RGBA_1010102)
  then false
  else true.

Definition getPixelFormat l : Z := mPixelFormat (mBufferInfo l).

Definition getTransformToDisplayInverse l : bool :=
  mTransformToDisplayInverse (mBufferInfo l).

Definition isOpaque s l : bool :=
  if bool_decide (mSidebandStream l = None) && bool_decide (mBuffer (mBufferInfo l) = None)
  then false
  else negb (Z.land (flags s) eLayerOpaque =? 0) || getOpacityForFormat (getPixelFormat l).

Definition getEffectiveScalingMode l : Z :=
  if 0 <=? mOverrideScalingMode l then mOverrideScalingMode l
  else mScaleMode (mBufferInfo l).

Definition isFixedSize l : bool :=
  negb (getEffectiveScalingMode l =? NATIVE_WINDOW_SCALING_MODE_FREEZE).

Definition hasReadyFrame l : bool :=
  hasFrameUpdate l || getSidebandStreamChanged l || getAutoRefresh l.

Definition getHeadFrameNumber (expectedPresentTime : nsecs_t) l : Z :=
  if hasFrameUpdate l then getFrameNumber expectedPresentTime l
  else mCurrentFrameNumber l.

(** The loop of [notifyAvailableFrames], one sync point per step. *)
Fixpoint notifyAvailableFrames_loop (headFrameNumber : Z)
    (headFenceSignaled presentTimeIsCurrent : bool)
    (points : list SyncPoint.t) l : list SyncPoint.t * Layer Sub :=
  match points with
  | [] => ([], l)
  | point :: rest =>
    if (headFrameNumber >=? SyncPoint.getFrameNumber point)
       && headFenceSignaled && presentTimeIsCurrent
    then
      let point := SyncPoint.setFrameAvailable point in
      let l :=
        match SyncPoint.getRequestedSyncLayer point with
        | Some requestedSyncLayer =>
          call (Layer_setTransactionFlags requestedSyncLayer eTransactionNeeded) l
        | None => l
        end in
      let '(rest, l) :=
        notifyAvailableFrames_loop headFrameNumber headFenceSignaled
          presentTimeIsCurrent rest l in
      (point :: rest, l)
    else
      let '(rest, l) :=
        notifyAvailableFrames_loop headFrameNumber headFenceSignaled
          presentTimeIsCurrent rest l in
      (point :: rest, l)
  end.

Definition notifyAvailableFrames (expectedPresentTime : nsecs_t) l : Layer Sub :=
  let headFrameNumber := getHeadFrameNumber expectedPresentTime l in
  let headFenceSignaled := fenceHasSignaled l in
  let presentTimeIsCurrent := framePresentTimeIsCurrent expectedPresentTime l in
  let '(points, l) :=
    notifyAvailableFrames_loop headFrameNumber headFenceSignaled
      presentTimeIsCurrent (mLocalSyncPoints l) l in
  setLocalSyncPoints points l.

(** The loop of [allTransactionsSignaled].  It hands back the list as the
    loop leaves it and the two locals [matchingFramesFound] and
    [allTransactionsApplied]. *)
Fixpoint allTransactionsSignaled_loop (headFrameNumber : Z)
    (points : list SyncPoint.t) (matchingFramesFound allTransactionsApplied : bool)
    : list SyncPoint.t * bool * bool :=
  match points with
  | [] => ([], matchingFramesFound, allTransactionsApplied)
  | point :: rest =>
    if SyncPoint.getFrameNumber point >? headFrameNumber
    then (point :: rest, matchingFramesFound, allTransactionsApplied)
    else if negb (SyncPoint.frameIsAvailable point)
    then (SyncPoint.setFrameAvailable point :: rest, true, false)
    else
      let '(rest, matchingFramesFound, allTransactionsApplied) :=
        allTransactionsSignaled_loop headFrameNumber rest true
          (allTransactionsApplied && SyncPoint.transactionIsApplied point) in
      (point :: rest, matchingFramesFound, allTransactionsApplied)
  end.

Definition allTransactionsSignaled (expectedPresentTime : nsecs_t) l : bool * Layer Sub :=
  let headFrameNumber := getHeadFrameNumber expectedPresentTime l in
  let '(points, matchingFramesFound, allTransactionsApplied) :=
    allTransactionsSignaled_loop headFrameNumber (mLocalSyncPoints l) false true in
  (negb matchingFramesFound || allTransactionsApplied, setLocalSyncPoints points l).

(** The loop at the end of [latchBuffer]: erase the sync points of the
    buffer that was just latched. *)
Fixpoint dropLatchedSyncPoints (currentFrameNumber : Z) (points : list SyncPoint.t)
    : list SyncPoint.t :=
  match points with
  | [] => []
  | point :: rest =>
    if negb (SyncPoint.frameIsAvailable point) || negb (SyncPoint.transactionIsApplied point)
    then point :: dropLatchedSyncPoints currentFrameNumber rest
    else if SyncPoint.getFrameNumber point <=? currentFrameNumber
    then dropLatchedSyncPoints currentFrameNumber rest
    else point :: dropLatchedSyncPoints currentFrameNumber rest
  end.

(** The comparison of the new and the old buffer's extent.  It is reached
    with a non-null old buffer only, and dereferences the new one. *)
Definition bufferSizeChanged (oldBuffer newBuffer : GraphicBuffer) : bool :=
  negb (GraphicBuffer_getWidth newBuffer =? uint32_t (width oldBuffer))
  || negb (GraphicBuffer_getHeight newBuffer =? uint32_t (height oldBuffer)).

(** [latchBuffer(recomputeVisibleRegions, latchTime, expectedPresentTime)].
    The value is the returned [bool] paired with [recomputeVisibleRegions]
    as the call leaves it. *)
Definition latchBuffer (recomputeVisibleRegions : bool)
    (latchTime expectedPresentTime : nsecs_t) : M Sub (bool * bool) :=
  let* (refreshRequired, recomputeVisibleRegions) :=
    run (latchSidebandStream recomputeVisibleRegions) in
  if refreshRequired then ret (refreshRequired, recomputeVisibleRegions) else
  let* ready := gets hasReadyFrame in
  if negb ready then ret (false, recomputeVisibleRegions) else
  let* refreshPending := gets mRefreshPending in
  if refreshPending then ret (false, recomputeVisibleRegions) else
  let* signaled := gets fenceHasSignaled in
  if negb signaled then
    modify (call Flinger_signalLayerUpdate) >>
    ret (false, recomputeVisibleRegions)
  else
  let* s := gets mDrawingState in
  let* oldOpacity := gets (isOpaque s) in
  let* oldBufferInfo := gets mBufferInfo in
  let* signaled := run (allTransactionsSignaled expectedPresentTime) in
  if negb signaled then
    modify (call (Flinger_setTransactionFlags eTraversalNeeded)) >>
    ret (false, recomputeVisibleRegions)
  else
  let* (err, recomputeVisibleRegions) :=
    run (updateTexImage recomputeVisibleRegions latchTime expectedPresentTime) in
  if negb (err =? NO_ERROR) then ret (false, recomputeVisibleRegions) else
  let* err := run updateActiveBuffer in
  if negb (err =? NO_ERROR) then ret (false, recomputeVisibleRegions) else
  let* err := run (updateFrameNumber latchTime) in
  if negb (err =? NO_ERROR) then ret (false, recomputeVisibleRegions) else
  modify gatherBufferInfo >>
  modify (setRefreshPending true) >>
  modify (λ l, setBufferInfo (BufferInfo_setFrameLatencyNeeded true (mBufferInfo l)) l) >>
  let recomputeVisibleRegions :=
    if bool_decide (mBuffer oldBufferInfo = None) then true
    else recomputeVisibleRegions in
  let* newBufferInfo := gets mBufferInfo in
  let recomputeVisibleRegions :=
    if Rect.neb (mCrop newBufferInfo) (mCrop oldBufferInfo)
       || negb (mTransform newBufferInfo =? mTransform oldBufferInfo)
       || negb (mScaleMode newBufferInfo =? mScaleMode oldBufferInfo)
       || negb (eqb (mTransformToDisplayInverse newBufferInfo)
                    (mTransformToDisplayInverse oldBufferInfo))
    then true else recomputeVisibleRegions in
  let* recomputeVisibleRegions :=
    match mBuffer oldBufferInfo with
    | None => ret recomputeVisibleRegions
    | Some oldBuffer =>
      match mBuffer newBufferInfo with
      | None => fault
      | Some newBuffer =>
        ret (if bufferSizeChanged oldBuffer newBuffer then true
             else recomputeVisibleRegions)
      end
    end in
  let* s := gets mDrawingState in
  let* newOpacity := gets (isOpaque s) in
  let recomputeVisibleRegions :=
    if negb (eqb oldOpacity newOpacity) then true else recomputeVisibleRegions in
  modify (λ l, setLocalSyncPoints
                 (dropLatchedSyncPoints (mCurrentFrameNumber l) (mLocalSyncPoints l)) l) >>
  ret (true, recomputeVisibleRegions).

(** [onPreComposition]: the composition step that clears
    [mRefreshPending].  The frame-event history it also feeds is telemetry
    and is left out. *)
Definition onPreComposition (refreshStartTime : nsecs_t) l : bool * Layer Sub :=
  let l := setRefreshPending false l in
  (hasReadyFrame l, l).

(** *** Notions the properties are stated with *)

(** The ledger order of the data model: ascending target frame numbers. *)
Definition ascending points : Prop :=
  StronglySorted (λ p q, SyncPoint.getFrameNumber p ≤ SyncPoint.getFrameNumber q) points.

(** A sync point is satisfied up to a frame number: both flags are set and
    its target is at or below the frame number. *)
Definition satisfied (frameNumber : Z) point : Prop :=
  SyncPoint.frameIsAvailable point = true
  ∧ SyncPoint.transactionIsApplied point = true
  ∧ SyncPoint.getFrameNumber point ≤ frameNumber.

#[global] Instance satisfied_dec frameNumber point : Decision (satisfied frameNumber point).
Proof. unfold satisfied. apply _. Defined.

(** The three conditions under which [notifyAvailableFrames] marks a sync
    point. *)
Definition notifiable (headFrameNumber : Z) (headFenceSignaled presentTimeIsCurrent : bool)
    point : bool :=
  (SyncPoint.getFrameNumber point <=? headFrameNumber)
  && headFenceSignaled && presentTimeIsCurrent.

(** The call [notifyAvailableFrames] makes for a sync point, if any. *)
Definition requesterCall (headFrameNumber : Z) (headFenceSignaled presentTimeIsCurrent : bool)
    point : option Call :=
  if notifiable headFrameNumber headFenceSignaled presentTimeIsCurrent point
  then (λ requester, Layer_setTransactionFlags requester eTransactionNeeded)
         <$> SyncPoint.getRequestedSyncLayer point
  else None.

(** The subclass members leave the sync-point list alone. *)
Definition virtuals_keep_sync_points : Prop :=
  (∀ r l, mLocalSyncPoints (latchSidebandStream r l).2 = mLocalSyncPoints l)
  ∧ (∀ r t e l, mLocalSyncPoints (updateTexImage r t e l).2 = mLocalSyncPoints l)
  ∧ (∀ l, mLocalSyncPoints (updateActiveBuffer l).2 = mLocalSyncPoints l)
  ∧ (∀ t l, mLocalSyncPoints (updateFrameNumber t l).2 = mLocalSyncPoints l)
  ∧ (∀ l, mLocalSyncPoints (gatherBufferInfo l) = mLocalSyncPoints l).

End BufferLayer.

(** ** Filtering *)

(** The part of an output layer's composition state that [needsFiltering]
    reads: the destination frame on the display and the source crop.  The
    state is declared outside the modelled source; the frame is a [Rect]
    and the crop a [FloatRect]. *)
Record OutputLayerCompositionState := {
  displayFrame : Rect.t;
  sourceCrop : FloatRect.t
}.

Section NeedsFiltering.
(** How a layer finds its output layer on a display is decided outside the
    modelled sources; a null result is [None]. *)
Context {DisplayDevice : Type}.
Variable findOutputLayerForDisplay : DisplayDevice → option OutputLayerCompositionState.

(** [needsFiltering(displayDevice)]; a null [displayDevice] is [None].  The
    [int32_t] extent of the display frame is converted to [float] for the
    comparison with the crop's. *)
Definition needsFiltering (displayDevice : option DisplayDevice) : bool :=
  match displayDevice with
  | None => false
  | Some displayDevice =>
    match findOutputLayerForDisplay displayDevice with
    | None => false
    | Some compositionState =>
      let displayFrame := displayFrame compositionState in
      let sourceCrop := sourceCrop compositionState in
      Float.neb (FloatRect.getHeight sourceCrop) (Float.of_int (Rect.getHeight displayFrame))
      || Float.neb (FloatRect.getWidth sourceCrop) (Float.of_int (Rect.getWidth displayFrame))
    end
  end.
End NeedsFiltering.

(** ** The texture projection *)

(** The end of [prepareClientComposition], for a layer that is drawn with
    its buffer.  First the extent the scale is taken against: the buffer
    size, or the layer bounds [win] when the buffer size is not valid. *)
Definition bufferExtent (win bufferSize : Rect.t) : Float.float * Float.float :=
  let bufferWidth := Float.of_int (Rect.getWidth bufferSize) in
  let bufferHeight := Float.of_int (Rect.getHeight bufferSize) in
  if negb (Rect.isValid bufferSize)
  then (Float.sub (Float.of_int (Rect.right win)) (Float.of_int (Rect.left win)),
        Float.sub (Float.of_int (Rect.bottom win)) (Float.of_int (Rect.top win)))
  else (bufferWidth, bufferHeight).

(** The flip of the y axis about the middle of the unit square, which the
    source writes at the head of its product. *)
Definition flipVertical : Mat4.mat4 :=
  Mat4.mmul (Mat4.mmul
    (Mat4.translate (Mat4.Vec4 Float.half Float.half Float.zero Float.one))
    (Mat4.scale (Mat4.Vec4 Float.one Float.minus_one Float.one Float.one)))
    (Mat4.translate (Mat4.Vec4 Float.minus_half Float.minus_half Float.zero Float.one)).

(** Then the scale and the translation of [win] against that extent, after
    the flip. *)
Definition scaleAndTranslate (win : Rect.t) (bufferWidth bufferHeight : Float.float)
    : Mat4.mat4 :=
  let scaleHeight :=
    Float.div (Float.sub (Float.of_int (Rect.bottom win)) (Float.of_int (Rect.top win)))
              bufferHeight in
  let scaleWidth :=
    Float.div (Float.sub (Float.of_int (Rect.right win)) (Float.of_int (Rect.left win)))
              bufferWidth in
  let translateY := Float.div (Float.of_int (Rect.top win)) bufferHeight in
  let translateX := Float.div (Float.of_int (Rect.left win)) bufferWidth in
  Mat4.mmul (Mat4.mmul flipVertical
    (Mat4.translate (Mat4.Vec4 translateX translateY Float.zero Float.one)))
    (Mat4.scale (Mat4.Vec4 scaleWidth scaleHeight Float.one Float.one)).

(** [layer.source.buffer.textureTransform], from the texture matrix of the
    consumer, the layer bounds and the buffer size. *)
Definition textureTransform (textureMatrix : Mat4.mat4) (win bufferSize : Rect.t)
    : Mat4.mat4 :=
  let '(bufferWidth, bufferHeight) := bufferExtent win bufferSize in
  let tr := scaleAndTranslate win bufferWidth bufferHeight in
  Mat4.mmul textureMatrix tr.

(** ** The override for unsignaled buffers *)

(** The function-local statics of [latchUnsignaledBuffers]. *)
Record LatchUnsignaledStatics := {
  propertyLoaded : bool;
  latch : bool
}.

Section LatchUnsignaledBuffers.
(** The system property store and [atoi] belong to the C library. *)
Variable property_get : string → string → string.
Variable atoi : string → Z.

Definition latchUnsignaledBuffers (st : LatchUnsignaledStatics)
    : bool * LatchUnsignaledStatics :=
  if negb (propertyLoaded st) then
    let value := property_get "debug.sf.latch_unsignaled" "0" in
    let latch := negb (atoi value =? 0) in
    (latch, {| propertyLoaded := true; latch := latch |})
  else (latch st, st).
End LatchUnsignaledBuffers.

(** ** The producer side, from the spec

    The two concrete subclasses are outside the modelled sources.  This
    module gives the virtual interface the behaviour the spec describes for
    the producer/queue collaborator. *)
Module Producer.

(** Modelled from the spec: a [BufferFrame] is what the producer enqueues:
    frame number, pixel resource, acquire fence (here: whether it has
    signaled), crop, transform, scaling mode, colorspace, desired present
    time. *)
Record BufferFrame := {
  frameNumber : Z;
  buffer : GraphicBuffer;
  acquireFenceSignaled : bool;
  crop : Rect.t;
  transform : Z;
  scalingMode : Z;
  dataspace : Z;
  desiredPresentTime : nsecs_t
}.

Definition withFrameNumber (n : Z) (f : BufferFrame) : BufferFrame :=
  {| frameNumber := n; buffer := buffer f;
     acquireFenceSignaled := acquireFenceSignaled f; crop := crop f;
     transform := transform f; scalingMode := scalingMode f;
     dataspace := dataspace f; desiredPresentTime := desiredPresentTime f |}.

Definition signalFence (f : BufferFrame) : BufferFrame :=
  {| frameNumber := frameNumber f; buffer := buffer f;
     acquireFenceSignaled := true; crop := crop f;
     transform := transform f; scalingMode := scalingMode f;
     dataspace := dataspace f; desiredPresentTime := desiredPresentTime f |}.

(** Modelled from the spec: the subclass state is the producer connection:
    the pending frames in arrival order, the counter that numbers them
    ("monotonic, per-layer unique"), the frame handed over by the last
    acquisition, the sideband and auto-refresh flags that client threads
    set, and the override policy as an explicit configuration value. *)
Record Queue := {
  pending : list BufferFrame;
  frameCounter : Z;
  acquired : option BufferFrame;
  sidebandStreamChanged : bool;
  sidebandStream : option NativeHandle;
  autoRefresh : bool;
  latchUnsignaled : bool
}.

Definition setPending (p : list BufferFrame) (a : option BufferFrame) (c : Z)
    (q : Queue) : Queue :=
  {| pending := p; frameCounter := c; acquired := a;
     sidebandStreamChanged := sidebandStreamChanged q;
     sidebandStream := sidebandStream q; autoRefresh := autoRefresh q;
     latchUnsignaled := latchUnsignaled q |}.

Definition setSideband (changed : bool) (h : option NativeHandle) (q : Queue) : Queue :=
  {| pending := pending q; frameCounter := frameCounter q; acquired := acquired q;
     sidebandStreamChanged := changed; sidebandStream := h;
     autoRefresh := autoRefresh q; latchUnsignaled := latchUnsignaled q |}.

Definition setAutoRefresh (b : bool) (q : Queue) : Queue :=
  {| pending := pending q; frameCounter := frameCounter q; acquired := acquired q;
     sidebandStreamChanged := sidebandStreamChanged q;
     sidebandStream := sidebandStream q;
     autoRefresh := b; latchUnsignaled := latchUnsignaled q |}.

(** Modelled from the spec: the producer enqueues content; the queue gives
    it the next frame number. *)
Definition queueBuffer (f : BufferFrame) (q : Queue) : Queue :=
  let n := frameCounter q + 1 in
  setPending (pending q ++ [withFrameNumber n f]) (acquired q) n q.

(** Modelled from the spec: [hasFrameUpdate], left to the subclasses, is
    the producer's [hasPendingFrame() -> bool]. *)
Definition hasPendingFrame (q : Queue) : bool :=
  match pending q with [] => false | _ :: _ => true end.

(** Modelled from the spec: [acquireNextBuffer() -> BufferFrame | error];
    with nothing pending the acquisition fails. *)
Definition acquireNextBuffer (q : Queue) : option (BufferFrame * Queue) :=
  match pending q with
  | [] => None
  | f :: rest => Some (f, setPending rest (Some f) (frameCounter q) q)
  end.

(** Modelled from the spec: [fenceHasSignaled], left to the subclasses.  A
    frame is never latched while its acquire fence is unsignaled, unless
    the override policy is active; with nothing pending there is no fence
    to wait for. *)
Definition headFenceHasSignaled (q : Queue) : bool :=
  latchUnsignaled q
  || match pending q with [] => true | f :: _ => acquireFenceSignaled f end.

(** Modelled from the spec: [add(SyncPoint)] inserts maintaining ascending
    order by target frame number. *)
Fixpoint addSyncPoint (point : SyncPoint.t) (points : list SyncPoint.t)
    : list SyncPoint.t :=
  match points with
  | [] => [point]
  | p :: rest =>
    if SyncPoint.getFrameNumber point <? SyncPoint.getFrameNumber p
    then point :: p :: rest
    else p :: addSyncPoint point rest
  end.

Section Virtuals.
Context `{Platform}.

(** Any status other than [NO_ERROR]. *)
Definition ACQUIRE_FAILED : status_t := NO_ERROR + 1.

(** Modelled from the spec: [getFrameNumber], left to the subclasses.  The
    head frame number is the producer's next-available frame number. *)
Definition headFrameNumber (l : Layer Queue) : Z :=
  match pending (sub l) with
  | [] => mCurrentFrameNumber l
  | f :: _ => frameNumber f
  end.

(** Modelled from the spec: [framePresentTimeIsCurrent], left to the
    subclasses.  The head frame is current once its desired present time
    is not after the expected present time. *)
Definition presentTimeIsCurrent (expectedPresentTime : nsecs_t) (l : Layer Queue) : bool :=
  match pending (sub l) with
  | [] => true
  | f :: _ => desiredPresentTime f <=? expectedPresentTime
  end.

(** Modelled from the spec: [latchSidebandStream], left to the subclasses.
    In sideband mode the layer is handled distinctly and the buffer path
    is not touched; the changed stream is taken over, the geometry is
    invalidated and a refresh is asked for. *)
Definition latchSideband (recomputeVisibleRegions : bool) (l : Layer Queue)
    : bool * bool * Layer Queue :=
  if sidebandStreamChanged (sub l)
  then (true, true,
        setSidebandStream (sidebandStream (sub l))
          (setSub (setSideband false (sidebandStream (sub l)) (sub l)) l))
  else (false, recomputeVisibleRegions, l).

(** Modelled from the spec: [updateTexImage], left to the subclasses.
    Step 7, acquire the pixel resource from the producer; a failed
    acquisition changes nothing. *)
Definition acquire (recomputeVisibleRegions : bool) (latchTime expectedPresentTime : nsecs_t)
    (l : Layer Queue) : status_t * bool * Layer Queue :=
  match acquireNextBuffer (sub l) with
  | None => (ACQUIRE_FAILED, recomputeVisibleRegions, l)
  | Some (_, q) => (NO_ERROR, recomputeVisibleRegions, setSub q l)
  end.

(** Modelled from the spec: [updateActiveBuffer], left to the subclasses.
    Step 8, install the acquired frame as the latched state: first its
    pixel resource. *)
Definition installBuffer (l : Layer Queue) : status_t * Layer Queue :=
  match acquired (sub l) with
  | None => (ACQUIRE_FAILED, l)
  | Some f => (NO_ERROR, setBufferInfo (BufferInfo_setBuffer (Some (buffer f)) (mBufferInfo l)) l)
  end.

(** Modelled from the spec: [updateFrameNumber], left to the subclasses.
    The latched state takes the frame number of the acquired frame. *)
Definition installFrameNumber (latchTime : nsecs_t) (l : Layer Queue)
    : status_t * Layer Queue :=
  match acquired (sub l) with
  | None => (ACQUIRE_FAILED, l)
  | Some f => (NO_ERROR, advanceFrameNumber (frameNumber f) l)
  end.

(** Modelled from the spec: [gatherBufferInfo], left to the subclasses.
    The latched state takes the rest of the acquired frame. *)
Definition installFrameInfo (l : Layer Queue) : Layer Queue :=
  match acquired (sub l) with
  | None => l
  | Some f =>
    let i := mBufferInfo l in
    setBufferInfo
      {| mDesiredPresentTime := desiredPresentTime f; mCrop := crop f;
         mTransform := transform f; mScaleMode := scalingMode f;
         mDataspace := dataspace f; mApi := mApi i;
         mPixelFormat := match mBuffer i with Some b => format b | None => mPixelFormat i end;
         mTransformToDisplayInverse := mTransformToDisplayInverse i;
         mBuffer := mBuffer i; mFrameLatencyNeeded := mFrameLatencyNeeded i |} l
  end.

#[global] Instance virtuals : BufferLayerVirtuals Queue := {|
  fenceHasSignaled l := headFenceHasSignaled (sub l);
  framePresentTimeIsCurrent := presentTimeIsCurrent;
  getAutoRefresh l := autoRefresh (sub l);
  getSidebandStreamChanged l := sidebandStreamChanged (sub l);
  hasFrameUpdate l := hasPendingFrame (sub l);
  getFrameNumber _ := headFrameNumber;
  latchSidebandStream := latchSideband;
  updateTexImage := acquire;
  updateActiveBuffer := installBuffer;
  updateFrameNumber := installFrameNumber;
  gatherBufferInfo := installFrameInfo
|}.

(** What happens to a layer between and at refreshes: the producer queues
    a frame, a fence signals, a client thread sets the sideband stream or
    the auto-refresh flag, a dependent layer registers a sync point, and
    the composition thread notifies, composes and latches. *)
Inductive Event :=
| QueueBuffer (f : BufferFrame)
| SignalHeadFence
| SetSidebandStream (h : option NativeHandle)
| SetAutoRefresh (b : bool)
| AddSyncPoint (point : SyncPoint.t)
| NotifyAvailableFrames (expectedPresentTime : nsecs_t)
| PreComposition (refreshStartTime : nsecs_t)
| LatchBuffer (recomputeVisibleRegions : bool) (latchTime expectedPresentTime : nsecs_t).

(** The acquire fence of the head frame signals. *)
Definition signalHeadFence (q : Queue) : Queue :=
  match pending q with
  | [] => q
  | f :: rest => setPending (signalFence f :: rest) (acquired q) (frameCounter q) q
  end.

(** One event: the layer it leaves, and the frame number observed when the
    event is a [latchBuffer] that returns [true] after acquiring a buffer.
    [None] for the layer is a fault. *)
Definition step (e : Event) (l : Layer Queue) : option (option Z * Layer Queue) :=
  match e with
  | QueueBuffer f => Some (None, setSub (queueBuffer f (sub l)) l)
  | SignalHeadFence => Some (None, setSub (signalHeadFence (sub l)) l)
  | SetSidebandStream h => Some (None, setSub (setSideband true h (sub l)) l)
  | SetAutoRefresh b => Some (None, setSub (setAutoRefresh b (sub l)) l)
  | AddSyncPoint point =>
    Some (None, setLocalSyncPoints (addSyncPoint point (mLocalSyncPoints l)) l)
  | NotifyAvailableFrames expectedPresentTime =>
    Some (None, notifyAvailableFrames expectedPresentTime l)
  | PreComposition refreshStartTime =>
    Some (None, (onPreComposition refreshStartTime l).2)
  | LatchBuffer recomputeVisibleRegions latchTime expectedPresentTime =>
    match latchBuffer recomputeVisibleRegions latchTime expectedPresentTime l with
    | None => None
    | Some ((latched, _), l') =>
      let sideband := (latchSidebandStream recomputeVisibleRegions l).1.1 in
      Some (if latched && negb sideband then Some (mCurrentFrameNumber l') else None, l')
    end
  end.

(** The frame numbers observed along a run, oldest first; a fault ends the
    run. *)
Fixpoint observe (es : list Event) (l : Layer Queue) : list Z :=
  match es with
  | [] => []
  | e :: es =>
    match step e l with
    | None => []
    | Some (Some n, l') => n :: observe es l'
    | Some (None, l') => observe es l'
    end
  end.

(** The data-model invariant on frame numbers: pending frames are numbered
    in strictly ascending order, above the last latched frame number and
    up to the counter. *)
Definition frameNumbersOrdered (l : Layer Queue) : Prop :=
  mCurrentFrameNumber l ≤ frameCounter (sub l) ∧
  Forall (λ f, frameNumber f ≤ frameCounter (sub l)) (pending (sub l)) ∧
  StronglySorted Z.lt (mCurrentFrameNumber l :: map frameNumber (pending (sub l))).

End Virtuals.
End Producer.

(** ** Concrete values for examples *)

(** The platform's values, as the Android headers give them. *)
Definition android : Platform := {|
  NO_ERROR := 0;
  eLayerOpaque := 0x02;
  eTraversalNeeded := 0x02;
  eTransactionNeeded := 0x01;
  HAL_PIXEL_FORMAT_RGBA_8888 := 1;
  HAL_PIXEL_FORMAT_BGRA_8888 := 5;
  HAL_PIXEL_FORMAT_RGBA_FP16 := 0x16;
  HAL_PIXEL_FORMAT_RGBA_1010102 := 0x2B;
  NATIVE_WINDOW_SCALING_MODE_FREEZE := 0
|}.

Module Examples.
Import Producer.
#[local] Existing Instance android.

Definition emptyInfo : BufferInfo := {|
  mDesiredPresentTime := 0; mCrop := Rect.mk 0 0 0 0; mTransform := 0;
  mScaleMode := 0; mDataspace := 0; mApi := 0; mPixelFormat := 0;
  mTransformToDisplayInverse := false; mBuffer := None;
  mFrameLatencyNeeded := false
|}.

Definition emptyQueue : Queue := {|
  pending := []; frameCounter := 0; acquired := None;
  sidebandStreamChanged := false; sidebandStream := None;
  autoRefresh := false; latchUnsignaled := false
|}.

(** A layer that has never latched a frame. *)
Definition freshLayer : Layer Queue := {|
  mBufferInfo := emptyInfo; mSidebandStream := None;
  mCurrentFrameNumber := 0; mPreviousFrameNumber := 0;
  mRefreshPending := false; mOverrideScalingMode := -1;
  mLocalSyncPoints := []; mDrawingState := {| flags := 0 |};
  sub := emptyQueue; calls := []
|}.

(** A 64x48 frame in format RGBA_8888; the queue numbers it. *)
Definition frame (signaled : bool) : BufferFrame := {|
  frameNumber := 0; buffer := {| width := 64; height := 48; format := 1 |};
  acquireFenceSignaled := signaled; crop := Rect.mk 0 0 64 48;
  transform := 0; scalingMode := 0; dataspace := 0; desiredPresentTime := 0
|}.

(** The same content with another transform bitmask. *)
Definition frameWithTransform (t : Z) : BufferFrame := {|
  frameNumber := 0; buffer := {| width := 64; height := 48; format := 1 |};
  acquireFenceSignaled := true; crop := Rect.mk 0 0 64 48;
  transform := t; scalingMode := 0; dataspace := 0; desiredPresentTime := 0
|}.

(** The layer after the events [es], from the fresh layer. *)
Fixpoint after (es : list Event) (l : Layer Queue) : Layer Queue :=
  match es with
  | [] => l
  | e :: es => match step e l with Some (_, l') => after es l' | None => l end
  end.

(** *** Layers and values the concrete runs use *)

(** Scenario A: frame 1 is queued, its fence unsignaled. *)
Definition scenarioA : Layer Queue := after [QueueBuffer (frame false)] freshLayer.

(** Scenario B: the fence of frame 1 has signaled. *)
Definition scenarioB : Layer Queue := after [SignalHeadFence] scenarioA.

(** Scenario A under the override policy that latches unsignaled buffers. *)
Definition scenarioA_override : Layer Queue :=
  setSub {| pending := pending (sub scenarioA); frameCounter := frameCounter (sub scenarioA);
            acquired := None; sidebandStreamChanged := false; sidebandStream := None;
            autoRefresh := false; latchUnsignaled := true |} scenarioA.

(** Frame 1 is latched and composed, frame 2 is queued and signaled, and
    two layers wait for frame 2. *)
Definition twoWaiters : Layer Queue :=
  after [LatchBuffer false 10 20; PreComposition 30;
         AddSyncPoint (SyncPoint.mk 2 false false (Some 7));
         AddSyncPoint (SyncPoint.mk 2 false false (Some 8));
         QueueBuffer (frame true)] scenarioB.

(** Scenario C: frame 1 is latched and composed, frames 2 and 3 are queued,
    and one layer waits for frame 2. *)
Definition scenarioC : Layer Queue :=
  after [LatchBuffer false 10 20; PreComposition 30;
         AddSyncPoint (SyncPoint.mk 2 false false (Some 7));
         QueueBuffer (frame true); QueueBuffer (frame true)] scenarioB.

(** Frame 1 is queued and signaled; the waiter for frame 1 has been
    notified but has not applied its transaction. *)
Definition notifiedWaiter : Layer Queue :=
  after [AddSyncPoint (SyncPoint.mk 1 true false (Some 7))] scenarioB.

(** Frame 1 is queued and signaled; one waiter for frame 1 is done, one
    waits for frame 2. *)
Definition doneWaiter : Layer Queue :=
  after [AddSyncPoint (SyncPoint.mk 2 true true (Some 8));
         AddSyncPoint (SyncPoint.mk 1 true true (Some 7))] scenarioB.

(** A run with three latched frames, refused attempts in between. *)
Definition threeFrames : list Event :=
  [QueueBuffer (frame false); LatchBuffer false 10 20; SignalHeadFence;
   LatchBuffer false 10 20; QueueBuffer (frame true); LatchBuffer false 40 50;
   PreComposition 60; QueueBuffer (frame true); LatchBuffer false 70 80;
   SetSidebandStream (Some 5); LatchBuffer false 90 100; PreComposition 110;
   LatchBuffer false 120 130].

(** A display on which the layer is shown at twice its crop, and one on
    which it is shown 1:1. *)
Definition scaled : OutputLayerCompositionState :=
  {| displayFrame := Rect.mk 0 0 128 96;
     sourceCrop := FloatRect.mk (Float.of_int 0) (Float.of_int 0)
                     (Float.of_int 64) (Float.of_int 48) |}.

Definition unscaled : OutputLayerCompositionState :=
  {| displayFrame := Rect.mk 10 10 74 58;
     sourceCrop := FloatRect.mk (Float.of_int 0) (Float.of_int 0)
                     (Float.of_int 64) (Float.of_int 48) |}.

Definition outputLayerOn (display : nat) : option OutputLayerCompositionState :=
  match display with
  | 0%nat => Some scaled
  | 1%nat => Some unscaled
  | _ => None
  end.

(** The bounds of a 100x50 layer at the origin. *)
Definition bounds : Rect.t := Rect.mk 0 0 100 50.

End Examples.

(** * More of the layer

    The methods of [BufferLayer.cpp] beside the latch: repeated scans of
    the ledger, the buffer extent, the dataspace translation, the
    orientation matrices, the frame statistics after composition and the
    settings handed to the render engine. *)

(** ** Notions for the sync-point scans *)

(** The ledger as one pass of the loop of [allTransactionsSignaled]
    leaves it. *)
Definition scanned (headFrameNumber : Z) (points : list SyncPoint.t) : list SyncPoint.t :=
  (allTransactionsSignaled_loop headFrameNumber points false true).1.1.

(** A sync point as a scan or a notification may leave it: untouched, or
    with its frame-available flag set. *)
Definition raised (p p' : SyncPoint.t) : Prop :=
  p' = p ∨ p' = SyncPoint.setFrameAvailable p.

(** The entries of a ledger that a scan up to [headFrameNumber] would still
    have to mark. *)
Definition unavailableUpTo (headFrameNumber : Z) (points : list SyncPoint.t) : nat :=
  length (filter (λ p, SyncPoint.getFrameNumber p ≤ headFrameNumber
                       ∧ SyncPoint.frameIsAvailable p = false) points).

Section LedgerNotions.
Context `{Platform} {Sub : Type} `{!BufferLayerVirtuals Sub}.

(** The head frame number is a matter of the subclass and of the current
    frame number; it depends neither on the sync-point list nor on the
    calls made so far. *)
Definition head_ignores_sync_points : Prop :=
  ∀ (expectedPresentTime : nsecs_t) points cs (l : Layer Sub),
    getHeadFrameNumber expectedPresentTime (setLocalSyncPoints points (setCalls cs l))
      = getHeadFrameNumber expectedPresentTime l.


End LedgerNotions.

(** ** The override for unsignaled buffers, call after call *)

Section LatchUnsignaledBuffersCalls.
Variable atoi : string → Z.

(** Successive calls of [latchUnsignaledBuffers], each against the property
    store of its moment; the answers, oldest first, and the statics the
    last call leaves. *)
Fixpoint latchUnsignaledBuffers_calls (stores : list (string → string → string))
    (st : LatchUnsignaledStatics) : list bool * LatchUnsignaledStatics :=
  match stores with
  | [] => ([], st)
  | property_get :: stores =>
    let '(answer, st) := latchUnsignaledBuffers property_get atoi st in
    let '(answers, st) := latchUnsignaledBuffers_calls stores st in
    (answer :: answers, st)
  end.
End LatchUnsignaledBuffersCalls.

(** ** Buffer extent *)

(** Declared outside the modelled sources: the rotation bit of
    [ui::Transform], the members of the drawing state that [State] leaves
    out, the orientation of the primary display, and the constructor of
    [Rect] from an unsigned extent. *)
Class Surroundings := {
  ROT_90 : Z;
  State_sidebandStream : State → option NativeHandle;
  getActiveWidth : State → Z;
  getActiveHeight : State → Z;
  getPrimaryDisplayOrientationTransform : Z;
  Rect_of_extent : Z → Z → Rect.t
}.

Section BufferGeometry.
Context `{Platform} `{Surroundings} {Sub : Type} `{!BufferLayerVirtuals Sub}.
Implicit Types (l : Layer Sub) (s : State).

Definition getBufferSize s l : Rect.t :=
  if bool_decide (State_sidebandStream s ≠ None)
     || negb (getEffectiveScalingMode l =? NATIVE_WINDOW_SCALING_MODE_FREEZE)
  then Rect_of_extent (getActiveWidth s) (getActiveHeight s)
  else
    match mBuffer (mBufferInfo l) with
    | None => Rect.INVALID_RECT
    | Some buffer =>
      let bufWidth := GraphicBuffer_getWidth buffer in
      let bufHeight := GraphicBuffer_getHeight buffer in
      let '(bufWidth, bufHeight) :=
        if negb (Z.land (mTransform (mBufferInfo l)) ROT_90 =? 0)
        then (bufHeight, bufWidth) else (bufWidth, bufHeight) in
      let '(bufWidth, bufHeight) :=
        if getTransformToDisplayInverse l then
          let invTransform := getPrimaryDisplayOrientationTransform in
          if negb (Z.land invTransform ROT_90 =? 0)
          then (bufHeight, bufWidth) else (bufWidth, bufHeight)
        else (bufWidth, bufHeight) in
      Rect_of_extent bufWidth bufHeight
    end.

(** [FloatRect(0, 0, w, h)] from an unsigned extent. *)
Definition FloatRect_of_extent (w h : Z) : FloatRect.t :=
  FloatRect.mk (Float.of_int 0) (Float.of_int 0) (Float.of_int w) (Float.of_int h).

Definition computeSourceBounds (parentBounds : FloatRect.t) l : FloatRect.t :=
  let s := mDrawingState l in
  if bool_decide (State_sidebandStream s ≠ None)
     || negb (getEffectiveScalingMode l =? NATIVE_WINDOW_SCALING_MODE_FREEZE)
  then FloatRect_of_extent (getActiveWidth s) (getActiveHeight s)
  else
    match mBuffer (mBufferInfo l) with
    | None => parentBounds
    | Some buffer =>
      let bufWidth := GraphicBuffer_getWidth buffer in
      let bufHeight := GraphicBuffer_getHeight buffer in
      let '(bufWidth, bufHeight) :=
        if negb (Z.land (mTransform (mBufferInfo l)) ROT_90 =? 0)
        then (bufHeight, bufWidth) else (bufWidth, bufHeight) in
      let '(bufWidth, bufHeight) :=
        if getTransformToDisplayInverse l then
          let invTransform := getPrimaryDisplayOrientationTransform in
          if negb (Z.land invTransform ROT_90 =? 0)
          then (bufHeight, bufWidth) else (bufWidth, bufHeight)
        else (bufWidth, bufHeight) in
      FloatRect_of_extent bufWidth bufHeight
    end.

(** The number of quarter turns the two methods undo, as a parity: the
    buffer's own rotation, and the primary display's when the layer asks
    for the inverse display transform. *)
Definition quarterTurn l : bool :=
  xorb (negb (Z.land (mTransform (mBufferInfo l)) ROT_90 =? 0))
       (getTransformToDisplayInverse l
        && negb (Z.land getPrimaryDisplayOrientationTransform ROT_90 =? 0)).

End BufferGeometry.

(** ** Dataspaces *)

(** The values of [ui::Dataspace] the source names; the enumeration is
    declared outside the modelled sources. *)
Class Dataspaces := {
  SRGB : Z;
  SRGB_LINEAR : Z;
  JFIF : Z;
  BT601_625 : Z;
  BT601_525 : Z;
  BT709 : Z;
  V0_SRGB : Z;
  V0_SRGB_LINEAR : Z;
  V0_JFIF : Z;
  V0_BT601_625 : Z;
  V0_BT601_525 : Z;
  V0_BT709 : Z;
  BT2020_ITU_PQ : Z;
  NATIVE_WINDOW_API_MEDIA : Z
}.

Section Dataspace.
Context `{Dataspaces}.

(** The [switch] of [translateDataspace], case after case. *)
Definition translateDataspace (dataspace : Z) : Z :=
  if dataspace =? SRGB then V0_SRGB
  else if dataspace =? SRGB_LINEAR then V0_SRGB_LINEAR
  else if dataspace =? JFIF then V0_JFIF
  else if dataspace =? BT601_625 then V0_BT601_625
  else if dataspace =? BT601_525 then V0_BT601_525
  else if dataspace =? BT709 then V0_BT709
  else dataspace.

(** The dataspaces the source calls legacy, and the ones it calls modern. *)
Definition legacyDataspaces : list Z := [SRGB; SRGB_LINEAR; JFIF; BT601_625; BT601_525; BT709].
Definition modernDataspaces : list Z :=
  [V0_SRGB; V0_SRGB_LINEAR; V0_JFIF; V0_BT601_625; V0_BT601_525; V0_BT709].

End Dataspace.

(** ** Orientation matrices *)

(** Modelled from the spec: the sixteen-value constructor of [mat4] fills
    the "4x4 transform matrix" column by column, as [Mat4] stores it. *)
Definition mat4_of_values (m00 m01 m02 m03 m10 m11 m12 m13
                           m20 m21 m22 m23 m30 m31 m32 m33 : Z) : Mat4.mat4 :=
  let f := Float.of_int in
  Mat4.Mat4 (Mat4.Vec4 (f m00) (f m01) (f m02) (f m03))
            (Mat4.Vec4 (f m10) (f m11) (f m12) (f m13))
            (Mat4.Vec4 (f m20) (f m21) (f m22) (f m23))
            (Mat4.Vec4 (f m30) (f m31) (f m32) (f m33)).

Definition flipH : Mat4.mat4 := mat4_of_values (-1) 0 0 0 0 1 0 0 0 0 1 0 1 0 0 1.
Definition flipV : Mat4.mat4 := mat4_of_values 1 0 0 0 0 (-1) 0 0 0 0 1 0 0 1 0 1.
Definition rot90 : Mat4.mat4 := mat4_of_values 0 1 0 0 (-1) 0 0 0 0 0 1 0 1 0 0 1.

(** The bits of a window transform and the matrix inverse of the math
    library are declared outside the modelled sources. *)
Class Orientations := {
  NATIVE_WINDOW_TRANSFORM_ROT_90 : Z;
  NATIVE_WINDOW_TRANSFORM_FLIP_H : Z;
  NATIVE_WINDOW_TRANSFORM_FLIP_V : Z;
  inverse : Mat4.mat4 → Mat4.mat4
}.

Section Orientation.
Context `{Orientations}.

(** The local [tr] of [inverseOrientation], as it stands before the
    inversion; a default-constructed [mat4] is the identity. *)
Definition orientation (transform : Z) : Mat4.mat4 :=
  let tr := Mat4.identity in
  let tr :=
    if negb (Z.land transform NATIVE_WINDOW_TRANSFORM_ROT_90 =? 0)
    then Mat4.mmul tr rot90 else tr in
  let tr :=
    if negb (Z.land transform NATIVE_WINDOW_TRANSFORM_FLIP_H =? 0)
    then Mat4.mmul tr flipH else tr in
  let tr :=
    if negb (Z.land transform NATIVE_WINDOW_TRANSFORM_FLIP_V =? 0)
    then Mat4.mmul tr flipV else tr in
  tr.

Definition inverseOrientation (transform : Z) : Mat4.mat4 :=
  inverse (orientation transform).

End Orientation.

(** The corners of the unit square, where normalised texture coordinates
    live, as points of the plane [z = 0]. *)
Definition unitSquareCorners : list Mat4.vec4 :=
  [Mat4.Vec4 Float.zero Float.zero Float.zero Float.one;
   Mat4.Vec4 Float.one Float.zero Float.zero Float.one;
   Mat4.Vec4 Float.zero Float.one Float.zero Float.one;
   Mat4.Vec4 Float.one Float.one Float.zero Float.one].

(** Equality of vectors as C++ [==] on their components sees it. *)
Definition vec4_eqb (a b : Mat4.vec4) : bool :=
  Float.eqb (Mat4.x a) (Mat4.x b) && Float.eqb (Mat4.y a) (Mat4.y b)
  && Float.eqb (Mat4.z a) (Mat4.z b) && Float.eqb (Mat4.w a) (Mat4.w b).

(** A matrix permutes the corners of the unit square: it sends each corner
    to a corner, and reaches each corner. *)
Definition permutesUnitSquare (m : Mat4.mat4) : bool :=
  forallb (λ c, existsb (vec4_eqb (Mat4.mul_vec m c)) unitSquareCorners) unitSquareCorners
  && forallb (λ c', existsb (λ c, vec4_eqb (Mat4.mul_vec m c) c') unitSquareCorners)
       unitSquareCorners.

(** ** Frame statistics after composition *)

(** A [FenceTime], as far as the layer looks at it: which fence it is, and
    whether it is valid. *)
Record FenceTime := {
  FenceTime_fence : Z;
  FenceTime_isValid : bool
}.

(** The calls of [onPostComposition] on the frame-event history, the frame
    tracker, the time statistics and the frame tracer.  The tracer calls
    carry the event [PRESENT_FENCE]. *)
Inductive FrameCall (CompositorTiming : Type) :=
| FrameEventHistory_addPostComposition (frameNumber : Z)
    (glDoneFence presentFence : FenceTime) (compositorTiming : CompositorTiming)
| FrameTracker_setDesiredPresentTime (desiredPresentTime : nsecs_t)
| TimeStats_setDesiredTime (layerID frameNumber : Z) (desiredPresentTime : nsecs_t)
| FrameTracker_setFrameReadyFence (frameReadyFence : FenceTime)
| FrameTracker_setFrameReadyTime (desiredPresentTime : nsecs_t)
| TimeStats_setPresentFence (layerID frameNumber : Z) (presentFence : FenceTime)
| FrameTracer_traceFence (layerID bufferId frameNumber : Z) (presentFence : FenceTime)
| FrameTracker_setActualPresentFence (presentFence : FenceTime)
| TimeStats_setPresentTime (layerID frameNumber : Z) (actualPresentTime : nsecs_t)
| FrameTracer_traceTimestamp (layerID bufferId frameNumber : Z) (actualPresentTime : nsecs_t)
| FrameTracker_setActualPresentTime (actualPresentTime : nsecs_t)
| FrameTracker_advanceFrame.

Arguments FrameEventHistory_addPostComposition {CompositorTiming} _ _ _ _.
Arguments FrameTracker_setDesiredPresentTime {CompositorTiming} _.
Arguments TimeStats_setDesiredTime {CompositorTiming} _ _ _.
Arguments FrameTracker_setFrameReadyFence {CompositorTiming} _.
Arguments FrameTracker_setFrameReadyTime {CompositorTiming} _.
Arguments TimeStats_setPresentFence {CompositorTiming} _ _ _.
Arguments FrameTracer_traceFence {CompositorTiming} _ _ _ _.
Arguments FrameTracker_setActualPresentFence {CompositorTiming} _.
Arguments TimeStats_setPresentTime {CompositorTiming} _ _ _.
Arguments FrameTracer_traceTimestamp {CompositorTiming} _ _ _ _.
Arguments FrameTracker_setActualPresentTime {CompositorTiming} _.
Arguments FrameTracker_advanceFrame {CompositorTiming}.

(** Outside [BufferInfo] as modelled, or outside the modelled sources: the
    fence time of the latched buffer, the layer's sequence number, the
    subclass's buffer id and the hardware composer's answers. *)
Class FrameStatistics (Sub DisplayId : Type) := {
  mFenceTime : BufferInfo → FenceTime;
  getSequence : Layer Sub → Z;
  getCurrentBufferId : Layer Sub → Z;
  isConnected : DisplayId → bool;
  getRefreshTimestamp : DisplayId → nsecs_t
}.

Section PostComposition.
Context `{Platform} {Sub : Type} `{!BufferLayerVirtuals Sub}.
Context {DisplayId CompositorTiming : Type} `{!FrameStatistics Sub DisplayId}.
Implicit Types (l : Layer Sub).

(** [onPostComposition]: the returned [bool], the calls it makes, oldest
    first, and the layer it leaves. *)
Definition onPostComposition (displayId : option DisplayId)
    (glDoneFence presentFence : FenceTime) (compositorTiming : CompositorTiming) l
    : bool * list (FrameCall CompositorTiming) * Layer Sub :=
  if negb (mFrameLatencyNeeded (mBufferInfo l)) then (false, [], l) else
  let history :=
    [FrameEventHistory_addPostComposition (mCurrentFrameNumber l) glDoneFence presentFence
       compositorTiming] in
  let desiredPresentTime := mDesiredPresentTime (mBufferInfo l) in
  let layerID := int32_t (getSequence l) in
  let desired :=
    [FrameTracker_setDesiredPresentTime desiredPresentTime;
     TimeStats_setDesiredTime layerID (mCurrentFrameNumber l) desiredPresentTime] in
  let frameReadyFence := mFenceTime (mBufferInfo l) in
  let ready :=
    if FenceTime_isValid frameReadyFence
    then [FrameTracker_setFrameReadyFence frameReadyFence]
    else [FrameTracker_setFrameReadyTime desiredPresentTime] in
  let present :=
    if FenceTime_isValid presentFence then
      [TimeStats_setPresentFence layerID (mCurrentFrameNumber l) presentFence;
       FrameTracer_traceFence layerID (getCurrentBufferId l) (mCurrentFrameNumber l)
         presentFence;
       FrameTracker_setActualPresentFence presentFence]
    else
      match displayId with
      | Some displayId =>
        if isConnected displayId then
          let actualPresentTime := getRefreshTimestamp displayId in
          [TimeStats_setPresentTime layerID (mCurrentFrameNumber l) actualPresentTime;
           FrameTracer_traceTimestamp layerID (getCurrentBufferId l) (mCurrentFrameNumber l)
             actualPresentTime;
           FrameTracker_setActualPresentTime actualPresentTime]
        else []
      | None => []
      end in
  (true, history ++ desired ++ ready ++ present ++ [FrameTracker_advanceFrame],
   setBufferInfo (BufferInfo_setFrameLatencyNeeded false (mBufferInfo l)) l).

End PostComposition.

(** What the frame tracker is told about the moment of presentation, about
    the moment the frame was ready, and that the frame is over. *)
Definition recordsPresent {CompositorTiming} (c : FrameCall CompositorTiming) : bool :=
  match c with
  | FrameTracker_setActualPresentFence _ | FrameTracker_setActualPresentTime _ => true
  | _ => false
  end.

Definition recordsReady {CompositorTiming} (c : FrameCall CompositorTiming) : bool :=
  match c with
  | FrameTracker_setFrameReadyFence _ | FrameTracker_setFrameReadyTime _ => true
  | _ => false
  end.

Definition advancesFrame {CompositorTiming} (c : FrameCall CompositorTiming) : bool :=
  match c with FrameTracker_advanceFrame => true | _ => false end.

(** The frame number a call names, if it names one. *)
Definition namedFrame {CompositorTiming} (c : FrameCall CompositorTiming) : option Z :=
  match c with
  | FrameEventHistory_addPostComposition n _ _ _ | TimeStats_setDesiredTime _ n _
  | TimeStats_setPresentFence _ n _ | FrameTracer_traceFence _ _ n _
  | TimeStats_setPresentTime _ n _ | FrameTracer_traceTimestamp _ _ n _ => Some n
  | _ => None
  end.

(** ** The settings for client composition *)

(** The members of [renderengine::LayerSettings] that
    [prepareClientComposition] writes: those of [source.buffer], and
    [alpha]. *)
Module LayerSettings.
Record t := mk {
  buffer : option GraphicBuffer;
  isOpaque : bool;
  fence : Z;
  textureName : Z;
  usePremultipliedAlpha : bool;
  isY410BT2020 : bool;
  useTextureFiltering : bool;
  textureTransform : Mat4.mat4;
  alpha : Float.float
}.

(** [source.buffer.buffer = nullptr; alpha = 1.0]. *)
Definition blackOut (layer : t) : t :=
  mk None (isOpaque layer) (fence layer) (textureName layer)
     (usePremultipliedAlpha layer) (isY410BT2020 layer) (useTextureFiltering layer)
     (textureTransform layer) Float.one.
End LayerSettings.

(** The members of [ClientCompositionTargetSettings] the method reads or
    writes. *)
Module TargetSettings.
Record t (Region : Type) := mk {
  clip : Region;
  needsFiltering : bool;
  isSecure : bool;
  supportsProtectedContent : bool;
  clearRegion : Region
}.
Arguments mk {Region} _ _ _ _ _.
Arguments clip {Region} _.
Arguments needsFiltering {Region} _.
Arguments isSecure {Region} _.
Arguments supportsProtectedContent {Region} _.
Arguments clearRegion {Region} _.

Definition setClearRegion {Region} (v : Region) (s : t Region) : t Region :=
  mk (clip s) (needsFiltering s) (isSecure s) (supportsProtectedContent s) v.
End TargetSettings.

(** Declared outside the modelled sources: regions and their operations;
    the layers of the drawing state in Z order, this layer among them, and
    their screen bounds; the base class's share of the method, which hands
    back its result and the target settings as it leaves them; the
    buffer's usage bits; the members of the layer and of [mBufferInfo] that
    [Layer] and [BufferInfo] leave out; the consumer's texture matrix; the
    drawing parent's orientation, [None] without a parent; the layer
    bounds and the buffer size, a virtual member. *)
Class Composition (Sub Region ScreenBounds : Type) := {
  Region_new : Region;
  Region_orSelf : Region → Region → Region;
  Region_orSelf_bounds : Region → ScreenBounds → Region;
  Region_subtract : Region → Region → Region;
  Region_isEmpty : Region → bool;
  layersInZOrder : list LayerId;
  this : LayerId;
  getScreenBounds : LayerId → ScreenBounds;
  Layer_prepareClientComposition :
    TargetSettings.t Region → Layer Sub → option LayerSettings.t * TargetSettings.t Region;
  getUsage : GraphicBuffer → Z;
  GRALLOC_USAGE_PROTECTED : Z;
  isSecure : Layer Sub → bool;
  mFence : BufferInfo → Z;
  mTextureName : Layer Sub → Z;
  getPremultipledAlpha : Layer Sub → bool;
  mNeedsFiltering : Layer Sub → bool;
  computeTransformMatrix : option GraphicBuffer → Rect.t → Z → bool → Mat4.mat4;
  drawingParentOrientation : Layer Sub → option Z;
  getBounds : Layer Sub → Rect.t;
  Layer_getBufferSize : State → Layer Sub → Rect.t
}.

Section ClientComposition.
Context `{Platform} `{Dataspaces} `{Surroundings} `{Orientations}.
Context {Sub : Type} `{!BufferLayerVirtuals Sub}.
Context {Region ScreenBounds : Type} `{!Composition Sub Region ScreenBounds}.
Implicit Types (l : Layer Sub) (s : State).

Definition isProtected l : bool :=
  match mBuffer (mBufferInfo l) with
  | None => false
  | Some buffer => negb (Z.land (getUsage buffer) GRALLOC_USAGE_PROTECTED =? 0)
  end.

(** [isHdrY410] dereferences [mBufferInfo.mBuffer] once the dataspace and
    the API match; on a null buffer that is a fault. *)
Definition isHdrY410 l : option bool :=
  if (mDataspace (mBufferInfo l) =? BT2020_ITU_PQ)
     && (mApi (mBufferInfo l) =? NATIVE_WINDOW_API_MEDIA)
  then
    match mBuffer (mBufferInfo l) with
    | None => None
    | Some buffer => Some (format buffer =? HAL_PIXEL_FORMAT_RGBA_1010102)
    end
  else Some false.

Definition getDrawingTransformMatrix (filteringEnabled : bool) l : Mat4.mat4 :=
  computeTransformMatrix (mBuffer (mBufferInfo l)) (mCrop (mBufferInfo l))
    (mTransform (mBufferInfo l)) filteringEnabled.

(** The traversal that looks for something below this layer: the lambda,
    with its captured [under] and [finished], over the layers in Z order. *)
Fixpoint traverseBelow (layers : list LayerId) (under : Region) (finished : bool)
    : Region * bool :=
  match layers with
  | [] => (under, finished)
  | layer :: rest =>
    if finished || bool_decide (layer = this)
    then traverseBelow rest under true
    else traverseBelow rest (Region_orSelf_bounds under (getScreenBounds layer)) finished
  end.

(** [prepareClientComposition(targetSettings)]: the returned optional and
    [targetSettings] as the call leaves it; [None] is a fault. *)
Definition prepareClientComposition (targetSettings : TargetSettings.t Region) l
    : option (option LayerSettings.t * TargetSettings.t Region) :=
  let '(result, targetSettings) := Layer_prepareClientComposition targetSettings l in
  match result with
  | None => Some (None, targetSettings)
  | Some layer =>
    match mBuffer (mBufferInfo l) with
    | None =>
      let '(under, _) := traverseBelow layersInZOrder Region_new false in
      let holes := Region_subtract (TargetSettings.clip targetSettings) under in
      let targetSettings :=
        if negb (Region_isEmpty holes)
        then TargetSettings.setClearRegion
               (Region_orSelf (TargetSettings.clearRegion targetSettings) holes)
               targetSettings
        else targetSettings in
      Some (None, targetSettings)
    | Some _ =>
      let blackOutLayer :=
        (isProtected l && negb (TargetSettings.supportsProtectedContent targetSettings))
        || (isSecure l && negb (TargetSettings.isSecure targetSettings)) in
      let s := mDrawingState l in
      if negb blackOutLayer then
        match isHdrY410 l with
        | None => None
        | Some hdrY410 =>
          let useFiltering :=
            TargetSettings.needsFiltering targetSettings || mNeedsFiltering l
            || isFixedSize l in
          let textureMatrix := getDrawingTransformMatrix useFiltering l in
          let textureMatrix :=
            if getTransformToDisplayInverse l then
              let transform := getPrimaryDisplayOrientationTransform in
              let tr := inverseOrientation transform in
              let tr :=
                match drawingParentOrientation l with
                | Some parentOrientation =>
                  Mat4.mmul tr (inverseOrientation parentOrientation)
                | None => tr
                end in
              Mat4.mmul textureMatrix tr
            else textureMatrix in
          let win := getBounds l in
          Some (Some (LayerSettings.mk
                        (mBuffer (mBufferInfo l))
                        (isOpaque s l)
                        (mFence (mBufferInfo l))
                        (mTextureName l)
                        (getPremultipledAlpha l)
                        hdrY410
                        useFiltering
                        (textureTransform textureMatrix win (Layer_getBufferSize s l))
                        (LayerSettings.alpha layer)),
                targetSettings)
        end
      else Some (Some (LayerSettings.blackOut layer), targetSettings)
    end
  end.

End ClientComposition.

(** ** Values for more examples *)

(** The dataspace values of the Android headers. *)
Definition androidDataspaces : Dataspaces := {|
  SRGB := 0x201;
  SRGB_LINEAR := 0x200;
  JFIF := 0x101;
  BT601_625 := 0x102;
  BT601_525 := 0x103;
  BT709 := 0x104;
  V0_SRGB := 142671872;
  V0_SRGB_LINEAR := 138477568;
  V0_JFIF := 146931712;
  V0_BT601_625 := 281149440;
  V0_BT601_525 := 281280512;
  V0_BT709 := 281083904;
  BT2020_ITU_PQ := 298188800;
  NATIVE_WINDOW_API_MEDIA := 3
|}.

Module MoreExamples.
Import Producer Examples.
#[local] Existing Instance android.

(** Scenario A with a layer waiting for frame 1: the fence of frame 1 has
    not signaled. *)
Definition waiterUnsignaled : Layer Queue :=
  after [AddSyncPoint (SyncPoint.mk 1 false false (Some 7))] scenarioA.

(** Scenario B after its latch: frame 1 is latched and not yet composed. *)
Definition latchedLayer : Layer Queue := after [LatchBuffer false 10 20] scenarioB.

(** A ledger with two entries to mark and one for a later frame. *)
Definition threeWaiters : list SyncPoint.t :=
  [SyncPoint.mk 1 false false (Some 7); SyncPoint.mk 2 false true (Some 8);
   SyncPoint.mk 5 false false (Some 9)].

(** A portrait device held upright: the transform bits of the native
    window, an upright primary display, a 100x50 active size. *)
Definition uprightSurroundings : Surroundings := {|
  ROT_90 := 4;
  State_sidebandStream _ := None;
  getActiveWidth _ := 100;
  getActiveHeight _ := 50;
  getPrimaryDisplayOrientationTransform := 0;
  Rect_of_extent := Rect.of_size
|}.

(** The frame statistics of a layer with sequence number 3 whose buffers
    come with a valid fence, on displays that are all connected. *)
Definition connectedStatistics : FrameStatistics Queue Z := {|
  mFenceTime _ := {| FenceTime_fence := 11; FenceTime_isValid := true |};
  getSequence _ := 3;
  getCurrentBufferId _ := 5;
  isConnected _ := true;
  getRefreshTimestamp _ := 1000
|}.

(** Regions as lists of cells of a coarse grid.  Layer 2 of three layers,
    each covering the cell of its number; the base class hands back blank
    settings with alpha one half; the layer is secure; its buffers are not
    protected. *)
Definition blankSettings : LayerSettings.t :=
  LayerSettings.mk None false 0 0 false false false Mat4.identity Float.half.

Definition secureLayerOfThree : Composition Queue (list Z) (list Z) := {|
  Region_new := [];
  Region_orSelf a b := a ++ b;
  Region_orSelf_bounds a b := a ++ b;
  Region_subtract a b := List.filter (λ c, negb (existsb (Z.eqb c) b)) a;
  Region_isEmpty a := match a with [] => true | _ => false end;
  layersInZOrder := [1; 2; 3];
  this := 2;
  getScreenBounds layer := [layer];
  Layer_prepareClientComposition targetSettings _ := (Some blankSettings, targetSettings);
  getUsage _ := 0;
  GRALLOC_USAGE_PROTECTED := 0x4000;
  isSecure _ := true;
  mFence _ := 0;
  mTextureName _ := 1;
  getPremultipledAlpha _ := true;
  mNeedsFiltering _ := false;
  computeTransformMatrix _ _ _ _ := Mat4.identity;
  drawingParentOrientation _ := None;
  getBounds _ := Rect.mk 0 0 64 48;
  Layer_getBufferSize _ _ := Rect.mk 0 0 64 48
|}.

(** The transform bits of the native window.  The layers of these examples
    do not follow the inverse display transform, so that the inverse of
    the math library is never asked for. *)
Definition nativeWindowBits : Orientations := {|
  NATIVE_WINDOW_TRANSFORM_ROT_90 := 4;
  NATIVE_WINDOW_TRANSFORM_FLIP_H := 1;
  NATIVE_WINDOW_TRANSFORM_FLIP_V := 2;
  inverse m := m
|}.

(** A target that is not secure, clipped to cells 1 to 3, and a secure
    one. *)
Definition insecureTarget : TargetSettings.t (list Z) :=
  TargetSettings.mk [1; 2; 3] false false true [].

Definition secureTarget : TargetSettings.t (list Z) :=
  TargetSettings.mk [1; 2; 3] false true true [].

(** A subclass that always has a signaled frame to hand over, and whose
    update of the active buffer leaves no buffer. *)
Definition losingConsumer : BufferLayerVirtuals unit := {|
  fenceHasSignaled _ := true;
  framePresentTimeIsCurrent _ _ := true;
  getAutoRefresh _ := false;
  getSidebandStreamChanged _ := false;
  hasFrameUpdate _ := true;
  getFrameNumber _ l := mCurrentFrameNumber l + 1;
  latchSidebandStream r l := (false, r, l);
  updateTexImage r _ _ l := (NO_ERROR, r, l);
  updateActiveBuffer l :=
    (NO_ERROR, setBufferInfo (BufferInfo_setBuffer None (mBufferInfo l)) l);
  updateFrameNumber _ l := (NO_ERROR, advanceFrameNumber (mCurrentFrameNumber l + 1) l);
  gatherBufferInfo l := l
|}.

(** A layer of that subclass that has a buffer. *)
Definition drawnLayer : Layer unit := {|
  mBufferInfo :=
    BufferInfo_setBuffer (Some {| width := 64; height := 48; format := 1 |}) emptyInfo;
  mSidebandStream := None;
  mCurrentFrameNumber := 1; mPreviousFrameNumber := 0;
  mRefreshPending := false; mOverrideScalingMode := -1;
  mLocalSyncPoints := []; mDrawingState := {| flags := 0 |};
  sub := tt; calls := []
|}.

End MoreExamples.

(** * Properties *)

(** Unfold the monad down to the hooks. *)
Tactic Notation "unfold_latch" :=
  unfold latchBuffer, bind, run, gets, modify, ret, fault.
Tactic Notation "unfold_latch" "in" hyp(H) :=
  unfold latchBuffer, bind, run, gets, modify, ret, fault in H.

Section Properties.
Context `{Platform} {Sub : Type} `{!BufferLayerVirtuals Sub}.
Implicit Types (l : Layer Sub) (point : SyncPoint.t) (points : list SyncPoint.t).

(** ** The sync-point scans *)

Lemma setLocalSyncPoints_same l : setLocalSyncPoints (mLocalSyncPoints l) l = l.
Proof. by destruct l. Qed.

Lemma setCalls_same l : setCalls (calls l) l = l.
Proof. by destruct l. Qed.

Lemma gtb_false_of_le (a b : Z) : a ≤ b → (a >? b) = false.
Proof. intros. rewrite Z.gtb_ltb. by apply Z.ltb_ge. Qed.

(** The scan stops at the first sync point that is at or below the head
    frame and not yet available, and marks it. *)
Lemma allTransactionsSignaled_loop_marks_first
    (headFrameNumber : Z) before point after (found applied : bool) :
  Forall (λ q, SyncPoint.getFrameNumber q ≤ headFrameNumber
               ∧ SyncPoint.frameIsAvailable q = true) before →
  SyncPoint.getFrameNumber point ≤ headFrameNumber →
  SyncPoint.frameIsAvailable point = false →
  allTransactionsSignaled_loop headFrameNumber (before ++ point :: after) found applied
    = (before ++ SyncPoint.setFrameAvailable point :: after, true, false).
Proof.
  intros Hbefore Hle Hunavailable. revert found applied.
  induction Hbefore as [|q before [Hq Havailable] _ IH]; intros found applied; cbn.
  - by rewrite (gtb_false_of_le _ _ Hle), Hunavailable.
  - by rewrite (gtb_false_of_le _ _ Hq), Havailable, IH.
Qed.

(** On an ascending list whose entries at or below the head frame are all
    available, the scan changes nothing and folds the applied flags of
    those entries. *)
Lemma allTransactionsSignaled_loop_all_available
    (headFrameNumber : Z) points (found applied : bool) :
  ascending points →
  Forall (λ q, SyncPoint.getFrameNumber q ≤ headFrameNumber →
               SyncPoint.frameIsAvailable q = true) points →
  allTransactionsSignaled_loop headFrameNumber points found applied
    = (points,
       found || existsb (λ q, SyncPoint.getFrameNumber q <=? headFrameNumber) points,
       applied && forallb (λ q, implb (SyncPoint.getFrameNumber q <=? headFrameNumber)
                                   (SyncPoint.transactionIsApplied q)) points).
Proof.
  intros Hsorted. revert found applied.
  induction Hsorted as [|q points Hsorted IH Hall]; intros found applied Havailable; cbn.
  - by rewrite orb_false_r, andb_true_r.
  - apply Forall_cons in Havailable as [Hq Havailable].
    destruct (Z.gtb_spec (SyncPoint.getFrameNumber q) headFrameNumber) as [Hgt|Hle].
    + assert ((SyncPoint.getFrameNumber q <=? headFrameNumber) = false) as ->
        by (apply Z.leb_gt; lia).
      assert (existsb (λ q, SyncPoint.getFrameNumber q <=? headFrameNumber) points = false)
        as ->.
      { apply not_true_is_false. intros (p & Hp & Hle)%existsb_exists.
        apply list_elem_of_In in Hp.
        apply Z.leb_le in Hle. rewrite Forall_forall in Hall.
        specialize (Hall p Hp). cbn in Hall. lia. }
      assert (forallb (λ q, implb (SyncPoint.getFrameNumber q <=? headFrameNumber)
                              (SyncPoint.transactionIsApplied q)) points = true) as ->.
      { apply forallb_forall. intros p Hp%list_elem_of_In. rewrite Forall_forall in Hall.
        specialize (Hall p Hp). cbn in Hall.
        assert ((SyncPoint.getFrameNumber p <=? headFrameNumber) = false) as ->
          by (apply Z.leb_gt; lia).
        done. }
      by rewrite orb_false_r, andb_true_r.
    + rewrite (Hq Hle). cbn. rewrite IH by done.
      assert ((SyncPoint.getFrameNumber q <=? headFrameNumber) = true) as ->
        by (apply Z.leb_le; lia).
      cbn. by rewrite orb_true_r, andb_assoc.
Qed.

(** A scan that reports success has changed nothing. *)
Lemma allTransactionsSignaled_loop_success
    (headFrameNumber : Z) points (found applied : bool) points' found' applied' :
  allTransactionsSignaled_loop headFrameNumber points found applied
    = (points', found', applied') →
  negb found' || applied' = true →
  points' = points.
Proof.
  revert found applied points' found' applied'.
  induction points as [|q points IH]; intros found applied points' found' applied'; cbn.
  - by intros [= <- <- <-].
  - destruct (SyncPoint.getFrameNumber q >? headFrameNumber); [by intros [= <- <- <-]|].
    destruct (SyncPoint.frameIsAvailable q); cbn.
    + destruct (allTransactionsSignaled_loop _ points _ _) as [[rest f] a] eqn:Hloop.
      intros [= <- <- <-] Hok. by rewrite (IH _ _ _ _ _ Hloop Hok).
    + by intros [= <- <- <-].
Qed.

Lemma allTransactionsSignaled_success (expectedPresentTime : nsecs_t) l l' :
  allTransactionsSignaled expectedPresentTime l = (true, l') → l' = l.
Proof.
  unfold allTransactionsSignaled.
  destruct (allTransactionsSignaled_loop _ _ _ _) as [[points found] applied] eqn:Hloop.
  intros [= Hok <-]. rewrite (allTransactionsSignaled_loop_success _ _ _ _ _ _ _ Hloop Hok).
  apply setLocalSyncPoints_same.
Qed.

(** The erasing loop keeps exactly the sync points that are not satisfied
    up to the current frame number. *)
Lemma dropLatchedSyncPoints_filter (currentFrameNumber : Z) points :
  dropLatchedSyncPoints currentFrameNumber points
    = filter (λ p, ¬ satisfied currentFrameNumber p) points.
Proof.
  induction points as [|p points IH]; [done|].
  rewrite filter_cons, <- IH. cbn [dropLatchedSyncPoints].
  case_decide as Hsat; unfold satisfied in Hsat;
    destruct (SyncPoint.frameIsAvailable p), (SyncPoint.transactionIsApplied p),
      (Z.leb_spec (SyncPoint.getFrameNumber p) currentFrameNumber);
    cbn; try done; exfalso;
    solve [ destruct Hsat as (? & ? & ?); (discriminate || lia)
          | apply Hsat; repeat split; (done || lia) ].
Qed.

(** ** The fence poll *)

(** C4, as amended: when the sideband latch asks for no refresh and, on the
    layer it leaves, a new frame is pending, no refresh is pending and the
    head frame's fence poll (which is where a subclass honours the
    override) reports unsignaled, [latchBuffer] returns [false], makes one
    call, [signalLayerUpdate], and changes nothing else: [mBufferInfo] in
    particular is as the sideband latch left it. *)
Theorem latchBuffer_fence_unsignaled
    (recomputeVisibleRegions : bool) (latchTime expectedPresentTime : nsecs_t)
    l (recompute1 : bool) l1 :
  latchSidebandStream recomputeVisibleRegions l = (false, recompute1, l1) →
  hasFrameUpdate l1 = true →
  mRefreshPending l1 = false →
  fenceHasSignaled l1 = false →
  latchBuffer recomputeVisibleRegions latchTime expectedPresentTime l
    = Some (false, recompute1, call Flinger_signalLayerUpdate l1)
  ∧ mBufferInfo (call Flinger_signalLayerUpdate l1) = mBufferInfo l1
  ∧ calls (call Flinger_signalLayerUpdate l1) = calls l1 ++ [Flinger_signalLayerUpdate].
Proof.
  intros Hside Hframe Hpending Hfence. split; [|done].
  unfold_latch. rewrite Hside. cbn.
  unfold hasReadyFrame. rewrite Hframe. cbn. rewrite Hpending. cbn.
  by rewrite Hfence.
Qed.

(** ** The sync-point check *)

(** The first sync point that is not frame-available splits the ledger. *)
Lemma first_unavailable points e :
  e ∈ points → SyncPoint.frameIsAvailable e = false →
  ∃ before point after,
    points = before ++ point :: after
    ∧ Forall (λ q, SyncPoint.frameIsAvailable q = true) before
    ∧ SyncPoint.frameIsAvailable point = false
    ∧ (point = e ∨ e ∈ after).
Proof.
  intros Hin Hunavailable. induction points as [|p points IH]; [by apply elem_of_nil in Hin|].
  destruct (SyncPoint.frameIsAvailable p) eqn:Hp.
  - apply elem_of_cons in Hin as [->|Hin]; [congruence|].
    destruct (IH Hin) as (before & point & after & -> & Hbefore & Hpoint & Hwhere).
    exists (p :: before), point, after. split_and!; try done. by constructor.
  - exists [], p, points. split_and!; try done.
    apply elem_of_cons in Hin as [->|Hin]; [by left|by right].
Qed.

(** The latch attempt that meets an unavailable sync point, with the ledger
    split at that sync point. *)
Lemma latchBuffer_marks_split
    (recomputeVisibleRegions : bool) (latchTime expectedPresentTime : nsecs_t)
    l (recompute1 : bool) l1 before point after :
  latchSidebandStream recomputeVisibleRegions l = (false, recompute1, l1) →
  hasReadyFrame l1 = true →
  mRefreshPending l1 = false →
  fenceHasSignaled l1 = true →
  mLocalSyncPoints l1 = before ++ point :: after →
  Forall (λ q, SyncPoint.getFrameNumber q ≤ getHeadFrameNumber expectedPresentTime l1
               ∧ SyncPoint.frameIsAvailable q = true) before →
  SyncPoint.getFrameNumber point ≤ getHeadFrameNumber expectedPresentTime l1 →
  SyncPoint.frameIsAvailable point = false →
  latchBuffer recomputeVisibleRegions latchTime expectedPresentTime l
    = Some (false, recompute1,
            call (Flinger_setTransactionFlags eTraversalNeeded)
              (setLocalSyncPoints (before ++ SyncPoint.setFrameAvailable point :: after) l1)).
Proof.
  intros Hside Hready Hpending Hfence Hledger Hbefore Hle Hunavailable.
  unfold_latch. rewrite Hside. cbn -[allTransactionsSignaled isOpaque].
  rewrite Hready. cbn -[allTransactionsSignaled isOpaque].
  rewrite Hpending, Hfence. cbn -[allTransactionsSignaled isOpaque].
  unfold allTransactionsSignaled. rewrite Hledger.
  by rewrite (allTransactionsSignaled_loop_marks_first _ _ _ _ _ _ Hbefore Hle Hunavailable).
Qed.

(** C1, as amended: in a latch attempt that reaches the sync-point check
    (the sideband latch asks for no refresh, a frame is ready, no refresh
    is pending, the head fence has signaled), if the ledger, kept in
    ascending order, holds an entry at or below the head frame number that
    is not frame-available, then [latchBuffer] sets the flag of the first
    entry that is not frame-available, which is at or below the head frame
    number too, and of no other entry; it returns [false] and latches
    nothing: the layer is as the sideband latch left it but for that flag
    and one [setTransactionFlags(eTraversalNeeded)] call.  Every entry
    remains in the ledger. *)
Theorem latchBuffer_marks_first_unavailable
    (recomputeVisibleRegions : bool) (latchTime expectedPresentTime : nsecs_t)
    l (recompute1 : bool) l1 entry :
  latchSidebandStream recomputeVisibleRegions l = (false, recompute1, l1) →
  hasReadyFrame l1 = true →
  mRefreshPending l1 = false →
  fenceHasSignaled l1 = true →
  ascending (mLocalSyncPoints l1) →
  entry ∈ mLocalSyncPoints l1 →
  SyncPoint.getFrameNumber entry ≤ getHeadFrameNumber expectedPresentTime l1 →
  SyncPoint.frameIsAvailable entry = false →
  ∃ before first after,
    mLocalSyncPoints l1 = before ++ first :: after
    ∧ Forall (λ q, SyncPoint.frameIsAvailable q = true) before
    ∧ SyncPoint.frameIsAvailable first = false
    ∧ SyncPoint.getFrameNumber first ≤ getHeadFrameNumber expectedPresentTime l1
    ∧ (first = entry ∨ entry ∈ after)
    ∧ latchBuffer recomputeVisibleRegions latchTime expectedPresentTime l
      = Some (false, recompute1,
              call (Flinger_setTransactionFlags eTraversalNeeded)
                (setLocalSyncPoints
                   (before ++ SyncPoint.setFrameAvailable first :: after) l1)).
Proof.
  intros Hside Hready Hpending Hfence Hsorted Hin Hle Hunavailable.
  destruct (first_unavailable _ _ Hin Hunavailable)
    as (before & first & after & Hledger & Hbefore & Hfirst & Hwhere).
  unfold ascending in Hsorted. rewrite Hledger in Hsorted.
  apply StronglySorted_app in Hsorted as (Hacross & _ & Hrest).
  apply StronglySorted_cons in Hrest as [Hafter _].
  assert (SyncPoint.getFrameNumber first ≤ getHeadFrameNumber expectedPresentTime l1)
    as Hfirst_le.
  { destruct Hwhere as [->|Hlater]; [done|].
    rewrite Forall_forall in Hafter. specialize (Hafter _ Hlater). cbn in Hafter. lia. }
  exists before, first, after. split_and!; try done.
  apply (latchBuffer_marks_split _ _ _ _ _ _ _ _ _ Hside Hready Hpending Hfence Hledger);
    try done.
  apply Forall_forall. intros q Hq. split; [|by eapply Forall_forall in Hbefore].
  specialize (Hacross q first Hq). cbn in Hacross.
  assert (first ∈ first :: after) as Hhead by apply list_elem_of_here. specialize (Hacross Hhead). lia.
Qed.

(** With every entry at or below the head frame available and one of them
    not applied, the check fails and changes nothing. *)
Lemma allTransactionsSignaled_defers (expectedPresentTime : nsecs_t) l :
  ascending (mLocalSyncPoints l) →
  (∀ q, q ∈ mLocalSyncPoints l →
        SyncPoint.getFrameNumber q ≤ getHeadFrameNumber expectedPresentTime l →
        SyncPoint.frameIsAvailable q = true) →
  (∃ q, q ∈ mLocalSyncPoints l
        ∧ SyncPoint.getFrameNumber q ≤ getHeadFrameNumber expectedPresentTime l
        ∧ SyncPoint.transactionIsApplied q = false) →
  allTransactionsSignaled expectedPresentTime l = (false, l).
Proof.
  intros Hsorted Havailable (q & Hq & Hle & Hunapplied).
  unfold allTransactionsSignaled.
  rewrite allTransactionsSignaled_loop_all_available;
    [|done|by apply Forall_forall].
  rewrite setLocalSyncPoints_same. f_equal. cbn.
  assert (existsb (λ q, SyncPoint.getFrameNumber q <=? getHeadFrameNumber expectedPresentTime l)
            (mLocalSyncPoints l) = true) as ->.
  { apply existsb_exists. exists q. split; [by apply list_elem_of_In|by apply Z.leb_le]. }
  cbn. apply not_true_is_false. intros Hall.
  rewrite forallb_forall in Hall. apply list_elem_of_In in Hq.
  specialize (Hall q Hq). apply Z.leb_le in Hle. rewrite Hle, Hunapplied in Hall. done.
Qed.

(** C5, as amended: when the sideband latch asks for no refresh and, in an
    ascending ledger, every entry at or below the head frame number is
    frame-available while one of them is not transaction-applied,
    [latchBuffer] returns [false]; it acquires nothing (the subclass state
    is untouched), leaves [mBufferInfo] and the current frame number as
    they were and removes no ledger entry.  When the attempt gets as far as
    the sync-point check, all it does is call
    [setTransactionFlags(eTraversalNeeded)]. *)
Theorem latchBuffer_defers_unapplied
    (recomputeVisibleRegions : bool) (latchTime expectedPresentTime : nsecs_t)
    l (recompute1 : bool) l1 :
  latchSidebandStream recomputeVisibleRegions l = (false, recompute1, l1) →
  ascending (mLocalSyncPoints l1) →
  (∀ q, q ∈ mLocalSyncPoints l1 →
        SyncPoint.getFrameNumber q ≤ getHeadFrameNumber expectedPresentTime l1 →
        SyncPoint.frameIsAvailable q = true) →
  (∃ q, q ∈ mLocalSyncPoints l1
        ∧ SyncPoint.getFrameNumber q ≤ getHeadFrameNumber expectedPresentTime l1
        ∧ SyncPoint.transactionIsApplied q = false) →
  ∃ l', latchBuffer recomputeVisibleRegions latchTime expectedPresentTime l
          = Some (false, recompute1, l')
        ∧ sub l' = sub l1
        ∧ mBufferInfo l' = mBufferInfo l1
        ∧ mCurrentFrameNumber l' = mCurrentFrameNumber l1
        ∧ mLocalSyncPoints l' = mLocalSyncPoints l1
        ∧ (hasReadyFrame l1 = true → mRefreshPending l1 = false →
           fenceHasSignaled l1 = true →
           l' = call (Flinger_setTransactionFlags eTraversalNeeded) l1).
Proof.
  intros Hside Hsorted Havailable Hunapplied.
  pose proof (allTransactionsSignaled_defers _ _ Hsorted Havailable Hunapplied) as Hsync.
  unfold_latch. rewrite Hside. cbn -[allTransactionsSignaled isOpaque].
  destruct (hasReadyFrame l1); cbn -[allTransactionsSignaled isOpaque];
    [|by eexists].
  destruct (mRefreshPending l1); [by eexists|].
  destruct (fenceHasSignaled l1); cbn -[allTransactionsSignaled isOpaque];
    [|by eexists].
  rewrite Hsync. cbn. by eexists.
Qed.

(** ** A successful latch *)

Lemma Rect_neb_true (a b : Rect.t) : a ≠ b → Rect.neb a b = true.
Proof.
  intros Hne. unfold Rect.neb, Rect.eqb. apply negb_true_iff, not_true_is_false.
  intros Heq. apply Hne. destruct a, b. cbn in Heq.
  repeat (apply andb_prop in Heq as [Heq ?%Z.eqb_eq]). apply Z.eqb_eq in Heq.
  by subst.
Qed.

(** The path of a [latchBuffer] that latches a buffer, up to the new frame
    number. *)
Ltac latch_path Hlatch Hside :=
  let c := ltac:(fun _ => cbn -[allTransactionsSignaled isOpaque] in Hlatch) in
  unfold latchBuffer, bind, run, gets, modify, ret, fault in Hlatch;
  rewrite Hside in Hlatch; c ();
  destruct (hasReadyFrame _) eqn:Hready in Hlatch; [|done]; c ();
  destruct (mRefreshPending _) eqn:Hpending in Hlatch; [done|];
  destruct (fenceHasSignaled _) eqn:Hfence in Hlatch; [|done]; c ();
  let ok := fresh "ok" in
  destruct (allTransactionsSignaled _ _) as [ok ?] eqn:Hsync in Hlatch;
  destruct ok; [|done]; c ();
  pose proof (allTransactionsSignaled_success _ _ _ Hsync) as ->;
  let err := fresh "err" in
  destruct (updateTexImage _ _ _ _) as [[err ?r2] ?l2] eqn:Htex in Hlatch;
  destruct (Z.eqb_spec err NO_ERROR) as [->|]; [|done]; c ();
  let err := fresh "err" in
  destruct (updateActiveBuffer _) as [err ?l3] eqn:Hactive in Hlatch;
  destruct (Z.eqb_spec err NO_ERROR) as [->|]; [|done]; c ();
  let err := fresh "err" in
  destruct (updateFrameNumber _ _) as [err ?l4] eqn:Hnumber in Hlatch;
  destruct (Z.eqb_spec err NO_ERROR) as [->|]; [|done]; c ().

(** What a [latchBuffer] that latches a buffer has done to the layer. *)
Lemma latchBuffer_latched
    (recomputeVisibleRegions : bool) (latchTime expectedPresentTime : nsecs_t)
    l (recompute1 : bool) l1 (recompute' : bool) l' :
  latchSidebandStream recomputeVisibleRegions l = (false, recompute1, l1) →
  latchBuffer recomputeVisibleRegions latchTime expectedPresentTime l
    = Some (true, recompute', l') →
  hasReadyFrame l1 = true ∧ mRefreshPending l1 = false ∧ fenceHasSignaled l1 = true
  ∧ allTransactionsSignaled expectedPresentTime l1 = (true, l1)
  ∧ ∃ recompute2 l2 l3 l4,
      updateTexImage recompute1 latchTime expectedPresentTime l1 = (NO_ERROR, recompute2, l2)
      ∧ updateActiveBuffer l2 = (NO_ERROR, l3)
      ∧ updateFrameNumber latchTime l3 = (NO_ERROR, l4)
      ∧ l' = setLocalSyncPoints
               (dropLatchedSyncPoints (mCurrentFrameNumber (gatherBufferInfo l4))
                  (mLocalSyncPoints (gatherBufferInfo l4)))
               (setBufferInfo
                  (BufferInfo_setFrameLatencyNeeded true (mBufferInfo (gatherBufferInfo l4)))
                  (setRefreshPending true (gatherBufferInfo l4))).
Proof.
  intros Hside Hlatch. latch_path Hlatch Hside.
  repeat split; try done.
  eexists _, _, _, _. repeat split; try done.
  destruct (mBuffer (mBufferInfo l1));
    [destruct (mBuffer (mBufferInfo (gatherBufferInfo l4))); [|done]|];
    cbn in Hlatch; by injection Hlatch as _ <-.
Qed.

(** C3: provided the subclass members leave the sync-point list alone, a
    [latchBuffer] that returns [true] adds no ledger entry and removes an
    entry only when it is satisfied up to the newly latched frame number
    (frame-available, transaction-applied, target at or below the current
    frame number): the entries that are not satisfied are the same, in the
    same order, before and after, so each of them remains.  When a buffer
    was latched (no sideband refresh), what remains is exactly the
    unsatisfied entries. *)
Theorem latchBuffer_drops_only_satisfied
    (recomputeVisibleRegions : bool) (latchTime expectedPresentTime : nsecs_t)
    l (recompute' : bool) l' :
  virtuals_keep_sync_points →
  latchBuffer recomputeVisibleRegions latchTime expectedPresentTime l
    = Some (true, recompute', l') →
  mLocalSyncPoints l' `sublist_of` mLocalSyncPoints l
  ∧ filter (λ p, ¬ satisfied (mCurrentFrameNumber l') p) (mLocalSyncPoints l')
    = filter (λ p, ¬ satisfied (mCurrentFrameNumber l') p) (mLocalSyncPoints l)
  ∧ (∀ p, p ∈ mLocalSyncPoints l → ¬ satisfied (mCurrentFrameNumber l') p →
          p ∈ mLocalSyncPoints l')
  ∧ ((latchSidebandStream recomputeVisibleRegions l).1.1 = false →
     mLocalSyncPoints l'
       = filter (λ p, ¬ satisfied (mCurrentFrameNumber l') p) (mLocalSyncPoints l)).
Proof.
  intros (Hsideband & Htex & Hactive & Hnumber & Hgather) Hlatch.
  destruct (latchSidebandStream recomputeVisibleRegions l) as [[refresh recompute1] l1]
    eqn:Hside.
  specialize (Hsideband recomputeVisibleRegions l). rewrite Hside in Hsideband.
  cbn in Hsideband. destruct refresh.
  - unfold_latch in Hlatch. rewrite Hside in Hlatch. cbn in Hlatch.
    injection Hlatch as _ <-. rewrite Hsideband. by repeat split.
  - destruct (latchBuffer_latched _ _ _ _ _ _ _ _ Hside Hlatch)
      as (_ & _ & _ & _ & recompute2 & l2 & l3 & l4 & Htex' & Hactive' & Hnumber' & ->).
    specialize (Htex recompute1 latchTime expectedPresentTime l1).
    specialize (Hactive l2). specialize (Hnumber latchTime l3).
    specialize (Hgather l4).
    rewrite Htex' in Htex. rewrite Hactive' in Hactive. rewrite Hnumber' in Hnumber.
    cbn in Htex, Hactive, Hnumber. cbn.
    rewrite Hgather, Hnumber, Hactive, Htex, Hsideband, dropLatchedSyncPoints_filter.
    split_and!; [apply sublist_filter|by apply list_filter_filter_l| |done].
    intros p Hp Hunsatisfied. by apply list_elem_of_filter.
Qed.

(** C7: on a successful latch of a buffer, [recomputeVisibleRegions] comes
    back [true] if there was no buffer before (the first frame ever
    latched), or if the crop, the transform, the scaling mode, the
    transform-to-display-inverse flag, the buffer's width or height, or the
    opacity differ between the snapshot taken before and the state
    installed by the latch. *)
Theorem latchBuffer_geometry_changed
    (recomputeVisibleRegions : bool) (latchTime expectedPresentTime : nsecs_t)
    l (recompute1 : bool) l1 (recompute' : bool) l' :
  latchSidebandStream recomputeVisibleRegions l = (false, recompute1, l1) →
  latchBuffer recomputeVisibleRegions latchTime expectedPresentTime l
    = Some (true, recompute', l') →
  mBuffer (mBufferInfo l1) = None
  ∨ mCrop (mBufferInfo l') ≠ mCrop (mBufferInfo l1)
  ∨ mTransform (mBufferInfo l') ≠ mTransform (mBufferInfo l1)
  ∨ mScaleMode (mBufferInfo l') ≠ mScaleMode (mBufferInfo l1)
  ∨ mTransformToDisplayInverse (mBufferInfo l') ≠ mTransformToDisplayInverse (mBufferInfo l1)
  ∨ (∃ oldBuffer newBuffer,
       mBuffer (mBufferInfo l1) = Some oldBuffer
       ∧ mBuffer (mBufferInfo l') = Some newBuffer
       ∧ (GraphicBuffer_getWidth newBuffer ≠ GraphicBuffer_getWidth oldBuffer
          ∨ GraphicBuffer_getHeight newBuffer ≠ GraphicBuffer_getHeight oldBuffer))
  ∨ isOpaque (mDrawingState l') l' ≠ isOpaque (mDrawingState l1) l1 →
  recompute' = true.
Proof.
  intros Hside Hlatch Hchanged. latch_path Hlatch Hside.
  set (g := gatherBufferInfo l4) in *.
  assert ((∃ a,
    match mBuffer (mBufferInfo l1) with
    | Some oldBuffer =>
      match mBuffer (mBufferInfo g) with
      | Some newBuffer => bufferSizeChanged oldBuffer newBuffer = false
      | None => False
      end
    | None => True
    end
    ∧ recompute' =
        (if negb (eqb (isOpaque (mDrawingState l1) l1) (isOpaque (mDrawingState l') l'))
         then true
         else if match mBuffer (mBufferInfo l1), mBuffer (mBufferInfo g) with
                 | Some oldBuffer, Some newBuffer => bufferSizeChanged oldBuffer newBuffer
                 | _, _ => false
                 end
         then true else a)
    ∧ a = (if Rect.neb (mCrop (mBufferInfo g)) (mCrop (mBufferInfo l1))
              || negb (mTransform (mBufferInfo g) =? mTransform (mBufferInfo l1))
              || negb (mScaleMode (mBufferInfo g) =? mScaleMode (mBufferInfo l1))
              || negb (eqb (mTransformToDisplayInverse (mBufferInfo g))
                           (mTransformToDisplayInverse (mBufferInfo l1)))
           then true
           else if bool_decide (mBuffer (mBufferInfo l1) = None) then true else r2)
    ∧ mBufferInfo l' = BufferInfo_setFrameLatencyNeeded true (mBufferInfo g))
    ∨ recompute' = true) as Hshape.
  { destruct (mBuffer (mBufferInfo l1)) as [oldBuffer|] eqn:Hold;
      [destruct (mBuffer (mBufferInfo g)) as [newBuffer|] eqn:Hnew; [|done]|];
      cbn -[isOpaque] in Hlatch; injection Hlatch as <- <-.
    - destruct (bufferSizeChanged oldBuffer newBuffer) eqn:Hsize.
      + right. by destruct (negb _).
      + left. eexists. by repeat split.
    - left. eexists. by repeat split. }
  destruct Hshape as [(a & Hsize & -> & -> & Hinfo)|]; [|done].
  rewrite Hinfo in Hchanged. cbn in Hchanged.
  destruct Hchanged as [Hfirst|[Hcrop|[Htransform|[Hscale|[Hinverse|[Hextent|Hopacity]]]]]].
  - rewrite Hfirst. cbn. by repeat case_match.
  - rewrite (Rect_neb_true _ _ Hcrop). cbn. by repeat case_match.
  - apply Z.eqb_neq in Htransform. rewrite Htransform. cbn.
    rewrite orb_true_r. cbn. by repeat case_match.
  - apply Z.eqb_neq in Hscale. rewrite Hscale. cbn.
    rewrite !orb_true_r. cbn. by repeat case_match.
  - apply eqb_false_iff in Hinverse. rewrite Hinverse. cbn.
    rewrite !orb_true_r. by repeat case_match.
  - destruct Hextent as (oldBuffer & newBuffer & Hold & Hnew & Hextent).
    rewrite Hold, Hnew in Hsize. exfalso. unfold bufferSizeChanged in Hsize.
    apply orb_false_elim in Hsize as [Hw%negb_false_iff%Z.eqb_eq Hh%negb_false_iff%Z.eqb_eq].
    unfold GraphicBuffer_getWidth, GraphicBuffer_getHeight in *.
    by destruct Hextent as [Hne|Hne]; apply Hne.
  - apply not_eq_sym, eqb_false_iff in Hopacity. by rewrite Hopacity.
Qed.

(** The sync-point check touches nothing but the sync-point list. *)
Lemma allTransactionsSignaled_frame (expectedPresentTime : nsecs_t) l :
  ∃ points, (allTransactionsSignaled expectedPresentTime l).2 = setLocalSyncPoints points l.
Proof.
  unfold allTransactionsSignaled.
  destruct (allTransactionsSignaled_loop _ _ _ _) as [[points found] applied].
  by exists points.
Qed.

(** Every way a [latchBuffer] can return [false] once the sideband latch
    has asked for no refresh. *)
Lemma latchBuffer_refused
    (recomputeVisibleRegions : bool) (latchTime expectedPresentTime : nsecs_t)
    l (recompute1 : bool) l1 (recompute' : bool) l' :
  latchSidebandStream recomputeVisibleRegions l = (false, recompute1, l1) →
  latchBuffer recomputeVisibleRegions latchTime expectedPresentTime l
    = Some (false, recompute', l') →
  l' = l1
  ∨ l' = call Flinger_signalLayerUpdate l1
  ∨ (∃ points, l' = call (Flinger_setTransactionFlags eTraversalNeeded)
                      (setLocalSyncPoints points l1))
  ∨ (∃ err, err ≠ NO_ERROR
            ∧ updateTexImage recompute1 latchTime expectedPresentTime l1
              = (err, recompute', l'))
  ∨ (∃ recompute2 l2 err,
       updateTexImage recompute1 latchTime expectedPresentTime l1 = (NO_ERROR, recompute2, l2)
       ∧ err ≠ NO_ERROR ∧ updateActiveBuffer l2 = (err, l'))
  ∨ (∃ recompute2 l2 l3 err,
       updateTexImage recompute1 latchTime expectedPresentTime l1 = (NO_ERROR, recompute2, l2)
       ∧ updateActiveBuffer l2 = (NO_ERROR, l3)
       ∧ err ≠ NO_ERROR ∧ updateFrameNumber latchTime l3 = (err, l')).
Proof.
  intros Hside Hlatch. unfold_latch in Hlatch. rewrite Hside in Hlatch.
  cbn -[allTransactionsSignaled isOpaque] in Hlatch.
  destruct (hasReadyFrame l1); cbn -[allTransactionsSignaled isOpaque] in Hlatch;
    [|injection Hlatch as _ <-; by left].
  destruct (mRefreshPending l1); [injection Hlatch as _ <-; by left|].
  destruct (fenceHasSignaled l1); cbn -[allTransactionsSignaled isOpaque] in Hlatch;
    [|injection Hlatch as _ <-; by right; left].
  destruct (allTransactionsSignaled_frame expectedPresentTime l1) as [points Hframe].
  destruct (allTransactionsSignaled expectedPresentTime l1) as [ok lx] eqn:Hsync.
  cbn in Hframe. subst lx.
  destruct ok; cbn -[isOpaque] in Hlatch;
    [|injection Hlatch as _ <-; right; right; left; by exists points].
  pose proof (allTransactionsSignaled_success _ _ _ Hsync) as Hsame.
  rewrite Hsame in Hlatch. clear Hsync Hsame points.
  destruct (updateTexImage recompute1 latchTime expectedPresentTime l1)
    as [[err recompute2] l2] eqn:Htex.
  destruct (Z.eqb_spec err NO_ERROR) as [->|Herr]; cbn -[isOpaque] in Hlatch;
    [|injection Hlatch as <- <-; do 3 right; left; by exists err].
  destruct (updateActiveBuffer l2) as [err l3] eqn:Hactive.
  destruct (Z.eqb_spec err NO_ERROR) as [->|Herr]; cbn -[isOpaque] in Hlatch;
    [|injection Hlatch as _ <-; do 4 right; left; by exists recompute2, l2, err].
  destruct (updateFrameNumber latchTime l3) as [err l4] eqn:Hnumber.
  destruct (Z.eqb_spec err NO_ERROR) as [->|Herr]; cbn -[isOpaque] in Hlatch;
    [|injection Hlatch as _ <-; do 5 right; by exists recompute2, l2, l3, err].
  destruct (mBuffer (mBufferInfo l1));
    [destruct (mBuffer (mBufferInfo (gatherBufferInfo l4))); [|done]|];
    cbn -[isOpaque] in Hlatch; done.
Qed.

(** ** The no-op check *)

(** C10: [hasReadyFrame] holds exactly when a frame update is pending, the
    sideband stream has changed or auto-refresh is on.  So a [latchBuffer]
    whose sideband latch has asked for no refresh and left the layer [l]
    stops at its no-op check only when none of the three holds on [l]; with
    any of them it goes on to the pending-refresh check and, past that, to
    the fence poll. *)
Theorem hasReadyFrame_three_cases l :
  (hasReadyFrame l = true
   ↔ hasFrameUpdate l = true ∨ getSidebandStreamChanged l = true ∨ getAutoRefresh l = true)
  ∧ ∀ (recomputeVisibleRegions : bool) (latchTime expectedPresentTime : nsecs_t)
      l0 (recompute1 : bool),
      latchSidebandStream recomputeVisibleRegions l0 = (false, recompute1, l) →
      (hasReadyFrame l = false →
       latchBuffer recomputeVisibleRegions latchTime expectedPresentTime l0
         = Some (false, recompute1, l))
      ∧ (hasFrameUpdate l = true ∨ getSidebandStreamChanged l = true
         ∨ getAutoRefresh l = true →
         (mRefreshPending l = true →
          latchBuffer recomputeVisibleRegions latchTime expectedPresentTime l0
            = Some (false, recompute1, l))
         ∧ (mRefreshPending l = false → fenceHasSignaled l = false →
            latchBuffer recomputeVisibleRegions latchTime expectedPresentTime l0
              = Some (false, recompute1, call Flinger_signalLayerUpdate l))).
Proof.
  assert (hasReadyFrame l = true
          ↔ hasFrameUpdate l = true ∨ getSidebandStreamChanged l = true
            ∨ getAutoRefresh l = true) as Hiff.
  { unfold hasReadyFrame. rewrite !orb_true_iff. tauto. }
  split; [done|]. intros recomputeVisibleRegions latchTime expectedPresentTime l0 recompute1 Hside.
  split.
  - intros Hnone. unfold_latch. rewrite Hside. cbn. by rewrite Hnone.
  - intros Hready%Hiff. split.
    + intros Hpending. unfold_latch. rewrite Hside. cbn. rewrite Hready. cbn.
      by rewrite Hpending.
    + intros Hpending Hfence. unfold_latch. rewrite Hside. cbn. rewrite Hready. cbn.
      rewrite Hpending. cbn. by rewrite Hfence.
Qed.

(** ** Notifying available frames *)

Lemma setCalls_setCalls (v w : list Call) l : setCalls v (setCalls w l) = setCalls v l.
Proof. done. Qed.

Lemma notifyAvailableFrames_loop_spec
    (headFrameNumber : Z) (headFenceSignaled presentTimeIsCurrent : bool) points l :
  notifyAvailableFrames_loop headFrameNumber headFenceSignaled presentTimeIsCurrent points l
    = ((λ p, if notifiable headFrameNumber headFenceSignaled presentTimeIsCurrent p
             then SyncPoint.setFrameAvailable p else p) <$> points,
       setCalls (calls l ++ omap (requesterCall headFrameNumber headFenceSignaled
                                    presentTimeIsCurrent) points) l).
Proof.
  revert l. induction points as [|p points IH]; intros l.
  - cbn [notifyAvailableFrames_loop fmap list_fmap omap list_omap].
    by rewrite app_nil_r, setCalls_same.
  - cbn [notifyAvailableFrames_loop fmap list_fmap omap list_omap].
    rewrite Z.geb_leb.
    change ((SyncPoint.getFrameNumber p <=? headFrameNumber) && headFenceSignaled
            && presentTimeIsCurrent)
      with (notifiable headFrameNumber headFenceSignaled presentTimeIsCurrent p).
    unfold requesterCall at 1.
    destruct (notifiable headFrameNumber headFenceSignaled presentTimeIsCurrent p);
      rewrite IH; [|done].
    destruct p as [n available applied [requester|]]; [|done].
    unfold call. cbn. by rewrite <- app_assoc.
Qed.

(** C6: [notifyAvailableFrames] sets the frame-available flag of a ledger
    entry exactly when the entry's target is at or below the head frame
    number, the head fence has signaled and the present time is current,
    and leaves every other entry as it is; for each entry it marks whose
    requester still resolves, in ledger order, it calls
    [setTransactionFlags(eTransactionNeeded)] on the requester; it changes
    nothing else. *)
Theorem notifyAvailableFrames_marks (expectedPresentTime : nsecs_t) l :
  let headFrameNumber := getHeadFrameNumber expectedPresentTime l in
  let headFenceSignaled := fenceHasSignaled l in
  let presentTimeIsCurrent := framePresentTimeIsCurrent expectedPresentTime l in
  notifyAvailableFrames expectedPresentTime l
    = setLocalSyncPoints
        ((λ p, if notifiable headFrameNumber headFenceSignaled presentTimeIsCurrent p
               then SyncPoint.setFrameAvailable p else p) <$> mLocalSyncPoints l)
        (setCalls
           (calls l ++ omap (requesterCall headFrameNumber headFenceSignaled
                               presentTimeIsCurrent) (mLocalSyncPoints l))
           l).
Proof.
  cbn zeta. unfold notifyAvailableFrames.
  by rewrite notifyAvailableFrames_loop_spec.
Qed.

End Properties.

(** ** Filtering *)

Section FilteringProperties.
Context {DisplayDevice : Type}.
Variable findOutputLayerForDisplay : DisplayDevice → option OutputLayerCompositionState.

Lemma needsFiltering_unknown_display :
  needsFiltering findOutputLayerForDisplay None = false.
Proof. done. Qed.

Lemma needsFiltering_no_output_layer (displayDevice : DisplayDevice) :
  findOutputLayerForDisplay displayDevice = None →
  needsFiltering findOutputLayerForDisplay (Some displayDevice) = false.
Proof. intros Hnone. cbn. by rewrite Hnone. Qed.

(** C9: for a known display device on which the layer has an output layer,
    [needsFiltering] is [true] exactly when the source crop's width or
    height differs from the display frame's; "differs" is the [!=] of the
    source, on the crop's [float] extent and the frame's integer extent. *)
Theorem needsFiltering_iff_extent_differs
    (displayDevice : DisplayDevice) (compositionState : OutputLayerCompositionState) :
  findOutputLayerForDisplay displayDevice = Some compositionState →
  needsFiltering findOutputLayerForDisplay (Some displayDevice) = true
  ↔ Float.neb (FloatRect.getWidth (sourceCrop compositionState))
              (Float.of_int (Rect.getWidth (displayFrame compositionState))) = true
    ∨ Float.neb (FloatRect.getHeight (sourceCrop compositionState))
                (Float.of_int (Rect.getHeight (displayFrame compositionState))) = true.
Proof.
  intros Hfound. cbn. rewrite Hfound, orb_true_iff. tauto.
Qed.

End FilteringProperties.

(** ** The texture projection *)

Lemma div_eucl_shiftl_self (m : positive) :
  Z.div_eucl (Z.shiftl (Z.pos m) 24) (Z.pos m) = (2 ^ 24, 0).
Proof.
  assert (∀ a b, Z.div_eucl a b = (a `div` b, a `mod` b)) as ->.
  { intros a b. unfold Z.div, Z.modulo. by destruct (Z.div_eucl a b). }
  rewrite Z.shiftl_mul_pow2 by lia.
  by rewrite (Z.mul_comm (Z.pos m)), Z.div_mul, Z.mod_mul by lia.
Qed.

(** A non-zero number divided by itself is exactly one. *)
Lemma Float_div_self (x : Float.float) :
  Float.is_finite_nonzero x = true → Float.div x x = Float.one.
Proof.
  destruct x as [| | |s m e]; try done. intros _.
  unfold Float.div, SFdiv, SFdiv_core_binary.
  replace (Zdigits2 (Z.pos m) + e - (Zdigits2 (Z.pos m) + e)) with 0 by lia.
  replace (e - e) with 0 by lia.
  change (Z.min (fexp Float.prec Float.emax 0) 0) with (-24).
  change (0 - -24) with 24. cbv iota beta zeta.
  rewrite div_eucl_shiftl_self.
  assert (new_location (Z.pos m) 0 = loc_Exact) as ->.
  { unfold new_location. by destruct (Z.even (Z.pos m)). }
  rewrite xorb_nilpotent. by vm_compute.
Qed.

(** C8, as amended: when the buffer size is not valid, the projection takes
    the extent of the layer bounds in its place; for bounds whose width and
    height are non-zero numbers both scale factors are then exactly one.
    The projection is computed from its arguments alone. *)
Theorem textureTransform_invalid_buffer_size
    (textureMatrix : Mat4.mat4) (win bufferSize : Rect.t) :
  Rect.isValid bufferSize = false →
  let winWidth := Float.sub (Float.of_int (Rect.right win)) (Float.of_int (Rect.left win)) in
  let winHeight := Float.sub (Float.of_int (Rect.bottom win)) (Float.of_int (Rect.top win)) in
  textureTransform textureMatrix win bufferSize
    = Mat4.mmul textureMatrix (scaleAndTranslate win winWidth winHeight)
  ∧ (Float.is_finite_nonzero winWidth = true →
     Float.is_finite_nonzero winHeight = true →
     textureTransform textureMatrix win bufferSize
       = Mat4.mmul textureMatrix
           (Mat4.mmul (Mat4.mmul flipVertical
              (Mat4.translate
                 (Mat4.Vec4 (Float.div (Float.of_int (Rect.left win)) winWidth)
                            (Float.div (Float.of_int (Rect.top win)) winHeight)
                            Float.zero Float.one)))
              (Mat4.scale (Mat4.Vec4 Float.one Float.one Float.one Float.one)))).
Proof.
  intros Hinvalid winWidth winHeight.
  assert (textureTransform textureMatrix win bufferSize
          = Mat4.mmul textureMatrix (scaleAndTranslate win winWidth winHeight)) as Heq.
  { unfold textureTransform, bufferExtent. by rewrite Hinvalid. }
  split; [done|]. intros Hwidth Hheight. rewrite Heq. unfold scaleAndTranslate.
  fold winWidth winHeight.
  rewrite (Float_div_self winWidth Hwidth), (Float_div_self winHeight Hheight).
  reflexivity.
Qed.

(** ** The override for unsignaled buffers *)

(** The property is read once: whatever the property store says later, the
    answer of the first call stands. *)
Lemma latchUnsignaledBuffers_cached
    (property_get property_get' : string → string → string) (atoi : string → Z)
    (st : LatchUnsignaledStatics) :
  let '(first, st1) := latchUnsignaledBuffers property_get atoi st in
  latchUnsignaledBuffers property_get' atoi st1 = (first, st1).
Proof.
  unfold latchUnsignaledBuffers.
  destruct (propertyLoaded st) eqn:Hloaded; cbn; [by rewrite Hloaded|done].
Qed.

(** ** Frame numbers across latches *)

Section ProducerProperties.
Context `{Platform}.
Import Producer.
Implicit Types (l : Layer Queue) (e : Event).

Lemma ACQUIRE_FAILED_ne : ACQUIRE_FAILED ≠ NO_ERROR.
Proof. unfold ACQUIRE_FAILED. lia. Qed.

(** The producer-side members leave the sync-point list alone. *)
Lemma producer_keeps_sync_points : virtuals_keep_sync_points (Sub := Queue).
Proof.
  unfold virtuals_keep_sync_points. cbn.
  unfold latchSideband, acquire, installBuffer, installFrameNumber, installFrameInfo,
    acquireNextBuffer.
  split_and!; intros; repeat case_match; done.
Qed.

(** Without the override, the fence poll reports the head frame's fence. *)
Lemma headFenceHasSignaled_no_override (q : Queue) f rest :
  latchUnsignaled q = false → pending q = f :: rest →
  headFenceHasSignaled q = acquireFenceSignaled f.
Proof. intros Hoverride Hpending. unfold headFenceHasSignaled. by rewrite Hoverride, Hpending. Qed.

(** A [latchBuffer] that latches a buffer takes the head of the queue and
    its frame number. *)
Lemma producer_latched
    (recomputeVisibleRegions : bool) (latchTime expectedPresentTime : nsecs_t)
    l (recompute' : bool) l' :
  sidebandStreamChanged (sub l) = false →
  latchBuffer recomputeVisibleRegions latchTime expectedPresentTime l
    = Some (true, recompute', l') →
  ∃ f rest, pending (sub l) = f :: rest
            ∧ pending (sub l') = rest
            ∧ frameCounter (sub l') = frameCounter (sub l)
            ∧ mCurrentFrameNumber l' = frameNumber f.
Proof.
  intros Hsideband Hlatch.
  assert (latchSidebandStream recomputeVisibleRegions l = (false, recomputeVisibleRegions, l))
    as Hside by (cbn; unfold latchSideband; by rewrite Hsideband).
  destruct (latchBuffer_latched _ _ _ _ _ _ _ _ Hside Hlatch)
    as (_ & _ & _ & _ & recompute2 & l2 & l3 & l4 & Htex & Hactive & Hnumber & ->).
  cbn in Htex, Hactive, Hnumber.
  unfold acquire, acquireNextBuffer in Htex.
  destruct (pending (sub l)) as [|f rest] eqn:Hpending;
    [injection Htex as Herr; by apply ACQUIRE_FAILED_ne in Herr|].
  injection Htex as _ <-. unfold installBuffer in Hactive. cbn in Hactive.
  injection Hactive as <-. unfold installFrameNumber in Hnumber. cbn in Hnumber.
  injection Hnumber as <-. by exists f, rest.
Qed.

(** A [latchBuffer] that returns [false] leaves the queue and the current
    frame number as they were. *)
Lemma producer_refused
    (recomputeVisibleRegions : bool) (latchTime expectedPresentTime : nsecs_t)
    l (recompute' : bool) l' :
  sidebandStreamChanged (sub l) = false →
  latchBuffer recomputeVisibleRegions latchTime expectedPresentTime l
    = Some (false, recompute', l') →
  sub l' = sub l ∧ mCurrentFrameNumber l' = mCurrentFrameNumber l.
Proof.
  intros Hsideband Hlatch.
  assert (latchSidebandStream recomputeVisibleRegions l = (false, recomputeVisibleRegions, l))
    as Hside by (cbn; unfold latchSideband; by rewrite Hsideband).
  destruct (latchBuffer_refused _ _ _ _ _ _ _ _ Hside Hlatch)
    as [->|[->|[[points ->]|[(err & Herr & Htex)
       |[(r2 & l2 & err & Htex & Herr & Hactive)
        |(r2 & l2 & l3 & err & Htex & Hactive & Herr & Hnumber)]]]]];
    [by split|by split|by split|..];
    cbn in Htex; unfold acquire, acquireNextBuffer in Htex;
    destruct (pending (sub l)) as [|f rest];
    try (injection Htex as Herr'; by apply ACQUIRE_FAILED_ne in Herr').
  - by injection Htex as _ _ <-.
  - injection Htex as Herr' _ _. by subst err.
  - injection Htex as _ <-. cbn in Hactive. unfold installBuffer in Hactive.
    cbn in Hactive. by injection Hactive as <-.
  - injection Htex as _ <-. cbn in Hactive. unfold installBuffer in Hactive.
    cbn in Hactive. injection Hactive as <-. cbn in Hnumber.
    unfold installFrameNumber in Hnumber. cbn in Hnumber. by injection Hnumber as <-.
Qed.

(** On the producer model [latchBuffer] always returns: the buffer it
    dereferences after a latch is the one just installed. *)
Lemma producer_latchBuffer_returns
    (recomputeVisibleRegions : bool) (latchTime expectedPresentTime : nsecs_t) l :
  is_Some (latchBuffer recomputeVisibleRegions latchTime expectedPresentTime l).
Proof.
  unfold_latch. cbn -[allTransactionsSignaled isOpaque]. unfold latchSideband.
  destruct (sidebandStreamChanged (sub l)); cbn -[allTransactionsSignaled isOpaque]; [done|].
  destruct (hasReadyFrame l); cbn -[allTransactionsSignaled isOpaque]; [|done].
  destruct (mRefreshPending l); [done|].
  destruct (headFenceHasSignaled (sub l)); cbn -[allTransactionsSignaled isOpaque]; [|done].
  destruct (allTransactionsSignaled_frame expectedPresentTime l) as [points Hframe].
  destruct (allTransactionsSignaled expectedPresentTime l) as [ok lx]. cbn in Hframe.
  subst lx. destruct ok; cbn -[isOpaque]; [|done].
  unfold acquire, acquireNextBuffer. cbn -[isOpaque].
  destruct (pending (sub l)) as [|f rest]; cbn -[isOpaque].
  - pose proof ACQUIRE_FAILED_ne as Hne. apply Z.eqb_neq in Hne. by rewrite Hne.
  - unfold installBuffer, installFrameNumber, installFrameInfo.
    repeat (rewrite Z.eqb_refl; cbn -[isOpaque]).
    by destruct (mBuffer (mBufferInfo l)).
Qed.

Lemma StronglySorted_lt_snoc (xs : list Z) (y : Z) :
  StronglySorted Z.lt xs → Forall (λ x, x < y) xs → StronglySorted Z.lt (xs ++ [y]).
Proof.
  intros Hsorted Hbelow. apply StronglySorted_app_2; [|done|repeat constructor].
  intros x1 x2 Hx1 ->%list_elem_of_singleton. by eapply Forall_forall in Hbelow.
Qed.

Lemma StronglySorted_lt_lower (a b : Z) (xs : list Z) :
  a ≤ b → StronglySorted Z.lt (b :: xs) → StronglySorted Z.lt (a :: xs).
Proof.
  intros Hle [Hall Hsorted]%StronglySorted_cons. apply StronglySorted_cons.
  split; [|done]. eapply Forall_impl; [done|]. cbn. lia.
Qed.

(** Each event keeps the frame numbers ordered and the current frame number
    from going back; a frame number is observed only when the current frame
    number has gone up to it. *)
Lemma step_frame_numbers e l (observed : option Z) l' :
  frameNumbersOrdered l →
  step e l = Some (observed, l') →
  frameNumbersOrdered l'
  ∧ mCurrentFrameNumber l ≤ mCurrentFrameNumber l'
  ∧ ∀ n, observed = Some n → n = mCurrentFrameNumber l' ∧ mCurrentFrameNumber l < n.
Proof.
  intros (Hcounter & Hbelow & Hsorted) Hstep. unfold frameNumbersOrdered.
  destruct e; cbn -[latchBuffer notifyAvailableFrames] in Hstep.
  - injection Hstep as <- <-. cbn. rewrite map_app. cbn. split_and!; try done; [lia| |].
    + apply Forall_app. split; [|repeat constructor; cbn; lia].
      eapply Forall_impl; [done|]. cbn. lia.
    + apply (StronglySorted_lt_snoc (_ :: _)); [done|].
      constructor; [lia|]. apply Forall_fmap. eapply Forall_impl; [done|]. cbn. lia.
  - injection Hstep as <- <-. cbn. unfold signalHeadFence.
    destruct (pending (sub l)) as [|f rest] eqn:Hpending; cbn; rewrite ?Hpending;
      split_and!; try done.
    apply Forall_cons in Hbelow as [Hf Hrest]. by constructor.
  - by injection Hstep as <- <-.
  - by injection Hstep as <- <-.
  - by injection Hstep as <- <-.
  - injection Hstep as <- <-. unfold notifyAvailableFrames.
    by rewrite notifyAvailableFrames_loop_spec.
  - by injection Hstep as <- <-.
  - destruct (latchBuffer _ _ _ l) as [[[latched recompute'] lx]|] eqn:Hlatch; [|done].
    injection Hstep as <- <-. unfold latchSideband.
    destruct (sidebandStreamChanged (sub l)) eqn:Hsideband.
    + rewrite andb_false_r. unfold_latch in Hlatch. cbn in Hlatch.
      unfold latchSideband in Hlatch. rewrite Hsideband in Hlatch. cbn in Hlatch.
      by injection Hlatch as _ _ <-.
    + rewrite andb_true_r. destruct latched.
      * destruct (producer_latched _ _ _ _ _ _ Hsideband Hlatch)
          as (f & rest & Hpending & -> & -> & ->).
        rewrite Hpending in Hbelow, Hsorted. cbn in Hsorted.
        apply Forall_cons in Hbelow as [Hf Hrest].
        apply StronglySorted_cons in Hsorted as [Hall Hsorted].
        apply Forall_cons in Hall as [Hlt Hall].
        split_and!; try done; [lia|]. intros n [= <-]. done.
      * destruct (producer_refused _ _ _ _ _ _ Hsideband Hlatch) as [-> ->].
        by split_and!.
Qed.

(** C2: across any run of a layer whose frame numbers are ordered, the
    frame numbers observed at the [latchBuffer] calls that return [true]
    after acquiring a buffer are strictly increasing, and lie above the
    frame number current at the start. *)
Theorem observed_frame_numbers_strictly_increase (es : list Event) l :
  frameNumbersOrdered l →
  StronglySorted Z.lt (mCurrentFrameNumber l :: observe es l).
Proof.
  revert l. induction es as [|e es IH]; intros l Hordered; cbn [observe].
  - repeat constructor.
  - destruct (step e l) as [[[n|] l']|] eqn:Hstep; [| |repeat constructor].
    + destruct (step_frame_numbers _ _ _ _ Hordered Hstep) as (Hordered' & _ & Hobserved).
      destruct (Hobserved n eq_refl) as [-> Hlt].
      specialize (IH _ Hordered'). apply StronglySorted_cons. split; [|done].
      apply StronglySorted_cons in IH as [Hall _].
      constructor; [done|]. eapply Forall_impl; [done|]. cbn. lia.
    + destruct (step_frame_numbers _ _ _ _ Hordered Hstep) as (Hordered' & Hle & _).
      by eapply StronglySorted_lt_lower, IH.
Qed.

End ProducerProperties.

(** * Concrete runs *)

Section Runs.
Import Producer Examples.
#[local] Existing Instance android.

(** ** C1 *)

(** C1, witness: scenario C.  The sync point for frame 2 is marked, the
    latch is refused and the entry stays. *)
Lemma latchBuffer_marks_first_unavailable_witness :
  let entry := SyncPoint.mk 2 false false (Some 7) in
  ∃ before first after,
    mLocalSyncPoints scenarioC = before ++ first :: after
    ∧ Forall (λ q, SyncPoint.frameIsAvailable q = true) before
    ∧ SyncPoint.frameIsAvailable first = false
    ∧ SyncPoint.getFrameNumber first ≤ getHeadFrameNumber 20 scenarioC
    ∧ (first = entry ∨ entry ∈ after)
    ∧ latchBuffer false 10 20 scenarioC
      = Some (false, false,
              call (Flinger_setTransactionFlags eTraversalNeeded)
                (setLocalSyncPoints
                   (before ++ SyncPoint.setFrameAvailable first :: after) scenarioC)).
Proof.
  apply (latchBuffer_marks_first_unavailable false 10 20 scenarioC false scenarioC
           (SyncPoint.mk 2 false false (Some 7)));
    first [reflexivity | by repeat constructor | (vm_compute; discriminate)].
Defined.

(** Scenario C, evaluated: the latch is refused, the sync point is marked
    and stays, the latched state is untouched. *)
Example latchBuffer_scenarioC :
  ∃ l', latchBuffer false 10 20 scenarioC = Some (false, false, l')
        ∧ mLocalSyncPoints l' = [SyncPoint.mk 2 true false (Some 7)]
        ∧ mBufferInfo l' = mBufferInfo scenarioC
        ∧ mCurrentFrameNumber l' = 1.
Proof. eexists. split; [vm_compute; reflexivity|]. split_and!; reflexivity. Qed.

(** C1, counterexample to the claim as stated: two entries at the head
    frame number are not frame-available; the attempt reaches the
    sync-point check, marks the first and returns [false], and the second
    is still not frame-available. *)
Lemma latchBuffer_marks_all_counterexample :
  let p1 := SyncPoint.mk 2 false false (Some 7) in
  let p2 := SyncPoint.mk 2 false false (Some 8) in
  mLocalSyncPoints twoWaiters = [p1; p2]
  ∧ getHeadFrameNumber 20 twoWaiters = 2
  ∧ latchSidebandStream false twoWaiters = (false, false, twoWaiters)
  ∧ hasReadyFrame twoWaiters = true
  ∧ mRefreshPending twoWaiters = false
  ∧ fenceHasSignaled twoWaiters = true
  ∧ ∃ l', latchBuffer false 10 20 twoWaiters = Some (false, false, l')
          ∧ mLocalSyncPoints l' = [SyncPoint.setFrameAvailable p1; p2]
          ∧ SyncPoint.frameIsAvailable p2 = false.
Proof.
  cbn zeta. split_and!; try reflexivity. eexists. split_and!; reflexivity.
Qed.

(** ** C2 *)

Example threeFrames_observed : observe threeFrames freshLayer = [1; 2; 3].
Proof. reflexivity. Qed.

(** C2, witness: the run above, from the fresh layer. *)
Lemma observed_frame_numbers_strictly_increase_witness :
  StronglySorted Z.lt (mCurrentFrameNumber freshLayer :: observe threeFrames freshLayer).
Proof.
  apply (observed_frame_numbers_strictly_increase threeFrames freshLayer).
  unfold frameNumbersOrdered. cbn. split_and!; [lia|constructor|repeat constructor].
Defined.

(** ** C3 *)

(** C3, witness: latching frame 1 drops the waiter for frame 1, which is
    done, and keeps the waiter for frame 2. *)
Lemma latchBuffer_drops_only_satisfied_witness :
  let l' := after [LatchBuffer false 10 20] doneWaiter in
  mLocalSyncPoints l' `sublist_of` mLocalSyncPoints doneWaiter
  ∧ filter (λ p, ¬ satisfied (mCurrentFrameNumber l') p) (mLocalSyncPoints l')
    = filter (λ p, ¬ satisfied (mCurrentFrameNumber l') p) (mLocalSyncPoints doneWaiter)
  ∧ (∀ p, p ∈ mLocalSyncPoints doneWaiter → ¬ satisfied (mCurrentFrameNumber l') p →
          p ∈ mLocalSyncPoints l')
  ∧ ((latchSidebandStream false doneWaiter).1.1 = false →
     mLocalSyncPoints l'
       = filter (λ p, ¬ satisfied (mCurrentFrameNumber l') p) (mLocalSyncPoints doneWaiter)).
Proof.
  apply (latchBuffer_drops_only_satisfied false 10 20 doneWaiter true
           (after [LatchBuffer false 10 20] doneWaiter) producer_keeps_sync_points).
  reflexivity.
Defined.

Example doneWaiter_latched :
  mLocalSyncPoints (after [LatchBuffer false 10 20] doneWaiter)
    = [SyncPoint.mk 2 true true (Some 8)].
Proof. reflexivity. Qed.

(** ** C4 *)

(** C4, witness: scenario A. *)
Lemma latchBuffer_fence_unsignaled_witness :
  latchBuffer false 10 20 scenarioA
    = Some (false, false, call Flinger_signalLayerUpdate scenarioA)
  ∧ mBufferInfo (call Flinger_signalLayerUpdate scenarioA) = mBufferInfo scenarioA
  ∧ calls (call Flinger_signalLayerUpdate scenarioA)
    = calls scenarioA ++ [Flinger_signalLayerUpdate].
Proof.
  apply (latchBuffer_fence_unsignaled false 10 20 scenarioA false scenarioA); reflexivity.
Defined.

(** C4, counterexample to the claim as stated: a frame is pending, no
    refresh is pending and its fence is unsignaled, but the sideband stream
    has changed; [latchBuffer] returns [true] and requests no wake. *)
Lemma latchBuffer_fence_unsignaled_sideband_counterexample :
  let l := after [SetSidebandStream (Some 5)] scenarioA in
  hasFrameUpdate l = true
  ∧ mRefreshPending l = false
  ∧ fenceHasSignaled l = false
  ∧ ∃ l', latchBuffer false 10 20 l = Some (true, true, l')
          ∧ calls l' = [].
Proof.
  cbn zeta. split_and!; try reflexivity. eexists. split; reflexivity.
Qed.

(** Under the override the frame of scenario A is latched although its
    fence has not signaled. *)
Example latchBuffer_override :
  fenceHasSignaled scenarioA_override = true
  ∧ (fst <$> latchBuffer false 10 20 scenarioA_override) = Some (true, true)
  ∧ (mCurrentFrameNumber ∘ snd <$> latchBuffer false 10 20 scenarioA_override) = Some 1.
Proof. split_and!; reflexivity. Qed.

(** ** C5 *)

(** C5, witness: the waiter for frame 1 has been notified but has not
    applied its transaction; the latch of frame 1 is deferred. *)
Lemma latchBuffer_defers_unapplied_witness :
  ∃ l', latchBuffer false 10 20 notifiedWaiter = Some (false, false, l')
        ∧ sub l' = sub notifiedWaiter
        ∧ mBufferInfo l' = mBufferInfo notifiedWaiter
        ∧ mCurrentFrameNumber l' = mCurrentFrameNumber notifiedWaiter
        ∧ mLocalSyncPoints l' = mLocalSyncPoints notifiedWaiter
        ∧ (hasReadyFrame notifiedWaiter = true → mRefreshPending notifiedWaiter = false →
           fenceHasSignaled notifiedWaiter = true →
           l' = call (Flinger_setTransactionFlags eTraversalNeeded) notifiedWaiter).
Proof.
  apply (latchBuffer_defers_unapplied false 10 20 notifiedWaiter false notifiedWaiter).
  - reflexivity.
  - repeat constructor.
  - intros q ->%list_elem_of_singleton _. reflexivity.
  - exists (SyncPoint.mk 1 true false (Some 7)).
    split_and!; [apply list_elem_of_singleton; reflexivity|vm_compute; discriminate|reflexivity].
Defined.

(** C5, counterexample to the claim as stated.  First, the entry at the
    head frame is available and not applied, but the sideband stream has
    changed: [latchBuffer] returns [true].  Second, the ledger is out of
    order, an entry above the head frame coming first: the scan stops at
    once and the buffer is latched. *)
Lemma latchBuffer_defers_unapplied_counterexample :
  let unapplied := SyncPoint.mk 1 true false (Some 7) in
  let later := SyncPoint.mk 5 true true (Some 8) in
  let sideband := after [SetSidebandStream (Some 5)] notifiedWaiter in
  let unordered := setLocalSyncPoints [later; unapplied] scenarioB in
  (mLocalSyncPoints sideband = [unapplied]
   ∧ getHeadFrameNumber 20 sideband = 1
   ∧ ∃ l', latchBuffer false 10 20 sideband = Some (true, true, l'))
  ∧ (getHeadFrameNumber 20 unordered = 1
     ∧ ∃ l', latchBuffer false 10 20 unordered = Some (true, true, l')
             ∧ mCurrentFrameNumber l' = 1
             ∧ mBufferInfo l' ≠ mBufferInfo unordered).
Proof.
  cbn zeta. split_and!; try reflexivity.
  - eexists. reflexivity.
  - eexists. split_and!; [vm_compute; reflexivity|reflexivity|]. vm_compute. discriminate.
Qed.

(** ** C6 *)

(** Scenario C, notified instead of latched: the one waiter is marked and
    its layer is flagged. *)
Example notifyAvailableFrames_scenarioC :
  let l' := notifyAvailableFrames 20 scenarioC in
  mLocalSyncPoints l' = [SyncPoint.mk 2 true false (Some 7)]
  ∧ calls l' = [Layer_setTransactionFlags 7 eTransactionNeeded].
Proof. split; reflexivity. Qed.

(** ** C7 *)

(** C7, witness: scenario B.  The first frame ever latched reports a
    geometry change. *)
Lemma latchBuffer_geometry_changed_witness :
  mBuffer (mBufferInfo scenarioB) = None
  ∧ match latchBuffer false 10 20 scenarioB with
    | Some (_, recomputeVisibleRegions, _) => recomputeVisibleRegions
    | None => false
    end = true.
Proof.
  split; [reflexivity|].
  apply (latchBuffer_geometry_changed false 10 20 scenarioB false scenarioB _
           (after [LatchBuffer false 10 20] scenarioB));
    [reflexivity|reflexivity|]. left. reflexivity.
Defined.

(** Scenario D: between two latched frames of equal crop the transform goes
    from none to a rotation by 90 degrees (bit 0x04); the second latch
    reports a geometry change. *)
Example latchBuffer_rotation :
  let l := after [LatchBuffer false 10 20; PreComposition 30;
                  QueueBuffer (frameWithTransform 4)] scenarioB in
  (fst <$> latchBuffer false 40 50 l) = Some (true, true).
Proof. reflexivity. Qed.

(** ** C8 *)

(** C8, witness: an invalid buffer size on the 100x50 bounds.  The
    projection is the flip alone: no translation, scale one. *)
Lemma textureTransform_invalid_buffer_size_witness :
  Rect.isValid Rect.INVALID_RECT = false
  ∧ textureTransform Mat4.identity bounds Rect.INVALID_RECT
    = Mat4.mmul Mat4.identity
        (Mat4.mmul (Mat4.mmul flipVertical
           (Mat4.translate
              (Mat4.Vec4 (Float.div (Float.of_int 0)
                                    (Float.sub (Float.of_int 100) (Float.of_int 0)))
                         (Float.div (Float.of_int 0)
                                    (Float.sub (Float.of_int 50) (Float.of_int 0)))
                         Float.zero Float.one)))
           (Mat4.scale (Mat4.Vec4 Float.one Float.one Float.one Float.one))).
Proof.
  split; [reflexivity|].
  apply (textureTransform_invalid_buffer_size Mat4.identity bounds Rect.INVALID_RECT);
    reflexivity.
Defined.

(** C8, counterexample to the claim as stated.  The previous projection is
    that of a 200x100 buffer on the bounds.  With an invalid buffer size
    the projection is a new one, not the previous one; with a zero-area
    buffer size it is not the previous one either: the horizontal scale
    factor is infinite and no entry of the projection is a number. *)
Lemma textureTransform_keeps_previous_counterexample :
  let previous := textureTransform Mat4.identity bounds (Rect.of_size 200 100) in
  let invalid := textureTransform Mat4.identity bounds Rect.INVALID_RECT in
  let zeroArea := textureTransform Mat4.identity bounds (Rect.of_size 0 0) in
  Mat4.all_finite previous = true
  ∧ Rect.isValid Rect.INVALID_RECT = false
  ∧ invalid ≠ previous
  ∧ Rect.getWidth (Rect.of_size 0 0) = 0
  ∧ zeroArea ≠ previous
  ∧ Float.div (Float.sub (Float.of_int (Rect.right bounds)) (Float.of_int (Rect.left bounds)))
              (Float.of_int (Rect.getWidth (Rect.of_size 0 0)))
    = S754_infinity false
  ∧ Mat4.all_finite zeroArea = false
  ∧ Mat4.x (Mat4.c0 zeroArea) = S754_nan.
Proof.
  cbn zeta. split_and!; try reflexivity; vm_compute; discriminate.
Qed.

(** ** C9 *)

(** C9, witness: the display that scales. *)
Lemma needsFiltering_iff_extent_differs_witness :
  needsFiltering outputLayerOn (Some 0%nat) = true
  ↔ Float.neb (Float.sub (Float.of_int 64) (Float.of_int 0)) (Float.of_int 128) = true
    ∨ Float.neb (Float.sub (Float.of_int 48) (Float.of_int 0)) (Float.of_int 96) = true.
Proof.
  apply (needsFiltering_iff_extent_differs outputLayerOn 0%nat scaled). reflexivity.
Defined.

Example needsFiltering_displays :
  needsFiltering outputLayerOn (Some 0%nat) = true
  ∧ needsFiltering outputLayerOn (Some 1%nat) = false
  ∧ needsFiltering outputLayerOn (Some 2%nat) = false
  ∧ needsFiltering outputLayerOn None = false.
Proof. split_and!; reflexivity. Qed.

(** ** C10 *)

(** C10, witness: scenario A with auto-refresh on.  The attempt gets past
    the no-op check and the pending-refresh check, and the fence poll asks
    for a wake. *)
Lemma hasReadyFrame_three_cases_witness :
  let l := after [SetAutoRefresh true] scenarioA in
  (hasReadyFrame l = true
   ↔ hasFrameUpdate l = true ∨ getSidebandStreamChanged l = true ∨ getAutoRefresh l = true)
  ∧ getAutoRefresh l = true
  ∧ latchBuffer false 10 20 l = Some (false, false, call Flinger_signalLayerUpdate l).
Proof.
  cbn zeta.
  destruct (hasReadyFrame_three_cases (after [SetAutoRefresh true] scenarioA))
    as [Hiff Hlatch].
  split; [exact Hiff|]. split; [reflexivity|].
  apply (Hlatch false 10 20 (after [SetAutoRefresh true] scenarioA) false eq_refl);
    [right; right; reflexivity|reflexivity|reflexivity].
Defined.

(** With auto-refresh on and nothing pending the attempt gets past the
    no-op check and as far as the acquisition, which fails. *)
Example latchBuffer_auto_refresh :
  let l := after [SetAutoRefresh true] freshLayer in
  hasFrameUpdate l = false
  ∧ hasReadyFrame l = true
  ∧ latchBuffer false 10 20 l = Some (false, false, l).
Proof. split_and!; reflexivity. Qed.

End Runs.

(** * Further properties *)

(** ** The sync-point scans, call after call *)

Lemma Forall2_raised_refl (points : list SyncPoint.t) : Forall2 raised points points.
Proof. induction points; constructor; [by left|done]. Qed.

(** A scan leaves every entry in place and at most sets availability
    flags. *)
Lemma allTransactionsSignaled_loop_raised
    (headFrameNumber : Z) (points : list SyncPoint.t) (found applied : bool) :
  Forall2 raised points
    (allTransactionsSignaled_loop headFrameNumber points found applied).1.1.
Proof.
  revert found applied. induction points as [|p points IH]; intros found applied; cbn.
  - constructor.
  - destruct (SyncPoint.getFrameNumber p >? headFrameNumber); cbn;
      [apply Forall2_raised_refl|].
    destruct (SyncPoint.frameIsAvailable p); cbn.
    + specialize (IH true (applied && SyncPoint.transactionIsApplied p)).
      destruct (allTransactionsSignaled_loop _ points _ _) as [[rest f] a].
      constructor; [by left|done].
    + constructor; [by right|apply Forall2_raised_refl].
Qed.

(** A scan either changes nothing, or it has marked one sync point, the
    first that was not available, and reports failure. *)
Lemma allTransactionsSignaled_loop_one_mark
    (headFrameNumber : Z) (points : list SyncPoint.t) (found applied : bool) :
  let r := allTransactionsSignaled_loop headFrameNumber points found applied in
  r.1.1 = points
  ∨ (r.1.2 = true ∧ r.2 = false
     ∧ ∃ before point after,
         points = before ++ point :: after
         ∧ Forall (λ q, SyncPoint.getFrameNumber q ≤ headFrameNumber
                        ∧ SyncPoint.frameIsAvailable q = true) before
         ∧ SyncPoint.getFrameNumber point ≤ headFrameNumber
         ∧ SyncPoint.frameIsAvailable point = false
         ∧ r.1.1 = before ++ SyncPoint.setFrameAvailable point :: after).
Proof.
  revert found applied. induction points as [|p points IH]; intros found applied; cbn.
  - by left.
  - destruct (Z.gtb_spec (SyncPoint.getFrameNumber p) headFrameNumber) as [Hgt|Hle]; cbn;
      [by left|].
    destruct (SyncPoint.frameIsAvailable p) eqn:Hp; cbn.
    + specialize (IH true (applied && SyncPoint.transactionIsApplied p)).
      destruct (allTransactionsSignaled_loop _ points _ _) as [[rest f] a]. cbn in *.
      destruct IH as [->|(-> & -> & before & point & after & -> & ? & ? & ? & ->)];
        [by left|right].
      split_and!; try done. exists (p :: before), point, after.
      split_and!; try done. by constructor.
    + right. split_and!; try done. exists [], p, points. by split_and!.
Qed.

(** In a ledger kept in ascending order, [allTransactionsSignaled]
    returns [true] exactly when every sync point at or below the head frame
    number is both frame-available and transaction-applied. *)
Lemma allTransactionsSignaled_ok_iff
    `{Platform} {Sub : Type} `{!BufferLayerVirtuals Sub}
    (expectedPresentTime : nsecs_t) (l : Layer Sub) :
  ascending (mLocalSyncPoints l) →
  (allTransactionsSignaled expectedPresentTime l).1 = true
  ↔ ∀ p, p ∈ mLocalSyncPoints l →
         SyncPoint.getFrameNumber p ≤ getHeadFrameNumber expectedPresentTime l →
         SyncPoint.frameIsAvailable p = true ∧ SyncPoint.transactionIsApplied p = true.
Proof.
  intros Hsorted. set (head := getHeadFrameNumber expectedPresentTime l).
  assert ((∃ e, e ∈ mLocalSyncPoints l ∧ SyncPoint.getFrameNumber e ≤ head
                ∧ SyncPoint.frameIsAvailable e = false)
          → (allTransactionsSignaled expectedPresentTime l).1 = false) as Hmarks.
  { intros (e & Hin & Hle & Hunavailable).
    destruct (first_unavailable _ _ Hin Hunavailable)
      as (before & first & after & Hledger & Hbefore & Hfirst & Hwhere).
    unfold ascending in Hsorted. rewrite Hledger in Hsorted.
    apply StronglySorted_app in Hsorted as (Hacross & _ & Hrest).
    apply StronglySorted_cons in Hrest as [Hafter _].
    assert (SyncPoint.getFrameNumber first ≤ head) as Hfirst_le.
    { destruct Hwhere as [->|Hlater]; [done|].
      rewrite Forall_forall in Hafter. specialize (Hafter _ Hlater). cbn in Hafter. lia. }
    unfold allTransactionsSignaled. fold head. rewrite Hledger.
    rewrite (allTransactionsSignaled_loop_marks_first head before first after); try done.
    apply Forall_forall. intros q Hq. split; [|by eapply Forall_forall in Hbefore].
    specialize (Hacross q first Hq). cbn in Hacross.
    assert (first ∈ first :: after) as Hhead by apply list_elem_of_here.
    specialize (Hacross Hhead). lia. }
  assert ((∀ p, p ∈ mLocalSyncPoints l → SyncPoint.getFrameNumber p ≤ head →
                SyncPoint.frameIsAvailable p = true)
          → (allTransactionsSignaled expectedPresentTime l).1
            = negb (existsb (λ q, SyncPoint.getFrameNumber q <=? head) (mLocalSyncPoints l))
              || forallb (λ q, implb (SyncPoint.getFrameNumber q <=? head)
                                     (SyncPoint.transactionIsApplied q))
                   (mLocalSyncPoints l)) as Hfold.
  { intros Havailable. unfold allTransactionsSignaled. fold head.
    rewrite allTransactionsSignaled_loop_all_available; [done|done|by apply Forall_forall]. }
  split.
  - intros Hok.
    assert (∀ p, p ∈ mLocalSyncPoints l → SyncPoint.getFrameNumber p ≤ head →
                 SyncPoint.frameIsAvailable p = true) as Havailable.
    { intros p Hp Hle. destruct (SyncPoint.frameIsAvailable p) eqn:Hflag; [done|].
      rewrite Hmarks in Hok; [done|by exists p]. }
    intros p Hp Hle. split; [by apply Havailable|].
    rewrite (Hfold Havailable) in Hok. apply orb_true_iff in Hok as [Hnone|Hall].
    + apply negb_true_iff in Hnone. exfalso.
      assert (existsb (λ q, SyncPoint.getFrameNumber q <=? head) (mLocalSyncPoints l) = true)
        as Hsome; [|congruence].
      apply existsb_exists. exists p. split; [by apply list_elem_of_In|by apply Z.leb_le].
    + rewrite forallb_forall in Hall. apply list_elem_of_In in Hp.
      specialize (Hall p Hp). apply Z.leb_le in Hle. by rewrite Hle in Hall.
  - intros Hall. rewrite Hfold; [|intros p Hp Hle; by apply Hall].
    apply orb_true_iff. right. apply forallb_forall. intros p Hp%list_elem_of_In.
    destruct (Z.leb_spec (SyncPoint.getFrameNumber p) head) as [Hle|Hgt]; [|done].
    cbn. by apply Hall.
Qed.

Section LedgerProperties.
Context `{Platform} {Sub : Type} `{!BufferLayerVirtuals Sub}.
Implicit Types (l : Layer Sub) (point : SyncPoint.t) (points : list SyncPoint.t).

(** X1: in a ledger kept in ascending order, [allTransactionsSignaled]
    returns [true] exactly when every sync point at or below the head frame
    number is both frame-available and transaction-applied. *)
Theorem allTransactionsSignaled_true_exactly_when_satisfied
    (expectedPresentTime : nsecs_t) l :
  ascending (mLocalSyncPoints l) →
  (allTransactionsSignaled expectedPresentTime l).1 = true
  ↔ ∀ p, p ∈ mLocalSyncPoints l →
         SyncPoint.getFrameNumber p ≤ getHeadFrameNumber expectedPresentTime l →
         SyncPoint.frameIsAvailable p = true ∧ SyncPoint.transactionIsApplied p = true.
Proof. apply allTransactionsSignaled_ok_iff. Qed.

(** X2: whatever the order of the ledger, one call of
    [allTransactionsSignaled] either leaves the layer as it was, or returns
    [false] after setting the frame-available flag of exactly one sync
    point: the first one that lacked it, with every entry before it at or
    below the head frame number.  Nothing else of the layer changes; no
    entry is added, removed or moved. *)
Theorem allTransactionsSignaled_marks_at_most_one (expectedPresentTime : nsecs_t) l :
  let r := allTransactionsSignaled expectedPresentTime l in
  let head := getHeadFrameNumber expectedPresentTime l in
  r.2 = l
  ∨ (r.1 = false
     ∧ ∃ before point after,
         mLocalSyncPoints l = before ++ point :: after
         ∧ Forall (λ q, SyncPoint.getFrameNumber q ≤ head
                        ∧ SyncPoint.frameIsAvailable q = true) before
         ∧ SyncPoint.getFrameNumber point ≤ head
         ∧ SyncPoint.frameIsAvailable point = false
         ∧ r.2 = setLocalSyncPoints (before ++ SyncPoint.setFrameAvailable point :: after) l).
Proof.
  cbn zeta. unfold allTransactionsSignaled.
  pose proof (allTransactionsSignaled_loop_one_mark
                (getHeadFrameNumber expectedPresentTime l) (mLocalSyncPoints l) false true)
    as Hloop.
  destruct (allTransactionsSignaled_loop _ _ _ _) as [[points' found'] applied'].
  cbn in *. destruct Hloop as [->|(-> & -> & before & point & after & ? & ? & ? & ? & ->)].
  - left. apply setLocalSyncPoints_same.
  - right. split; [done|]. by exists before, point, after.
Qed.

(** X3: the scan of [allTransactionsSignaled] never looks beyond the first
    sync point whose target is above the head frame number: it does to the
    entries before that sync point what it would do to them alone, and
    hands the sync point and everything after it back untouched, whatever
    their flags and targets. *)
Theorem allTransactionsSignaled_stops_at_later_frame
    (headFrameNumber : Z) before point after (found applied : bool) :
  headFrameNumber < SyncPoint.getFrameNumber point →
  allTransactionsSignaled_loop headFrameNumber (before ++ point :: after) found applied
    = let r := allTransactionsSignaled_loop headFrameNumber before found applied in
      (r.1.1 ++ point :: after, r.1.2, r.2).
Proof.
  intros Hlater. revert found applied.
  induction before as [|p before IH]; intros found applied; cbn.
  - assert ((SyncPoint.getFrameNumber point >? headFrameNumber) = true) as ->; [|done].
    rewrite Z.gtb_ltb. by apply Z.ltb_lt.
  - destruct (SyncPoint.getFrameNumber p >? headFrameNumber); [done|].
    destruct (SyncPoint.frameIsAvailable p); cbn; [|done].
    rewrite IH.
    by destruct (allTransactionsSignaled_loop _ before _ _) as [[rest f] a].
Qed.

(** ** Scans until nothing is left to mark *)

Lemma raised_frame_number p p' :
  raised p p' → SyncPoint.getFrameNumber p' = SyncPoint.getFrameNumber p.
Proof. by intros [->| ->]. Qed.

Lemma raised_trans p p' p'' : raised p p' → raised p' p'' → raised p p''.
Proof. intros [->| ->] [->| ->]; by (left + right). Qed.

Lemma Forall2_raised_trans points points' points'' :
  Forall2 raised points points' → Forall2 raised points' points'' →
  Forall2 raised points points''.
Proof.
  intros H1. revert points''. induction H1 as [|p p' ps ps' Hp _ IH]; intros points'' H2.
  - by inversion H2.
  - inversion H2 as [|? p'' ? ps'' Hp' Hps']; subst.
    constructor; [by eapply raised_trans|by apply IH].
Qed.

(** Raising flags keeps the ledger in order. *)
Lemma ascending_raised points points' :
  Forall2 raised points points' → ascending points → ascending points'.
Proof.
  unfold ascending. intros Hraised. induction Hraised as [|p p' ps ps' Hp Hps IH].
  - done.
  - intros [Hbelow Hsorted]%StronglySorted_cons. apply StronglySorted_cons.
    split; [|by apply IH].
    rewrite (raised_frame_number _ _ Hp). clear IH Hsorted.
    induction Hps as [|q q' qs qs' Hq _ IH]; [done|].
    apply Forall_cons in Hbelow as [Hle Hbelow]. constructor; [|by apply IH].
    by rewrite (raised_frame_number _ _ Hq).
Qed.

(** Erasing entries keeps the ledger in order. *)
Lemma ascending_filter (P : SyncPoint.t → Prop) `{!∀ p, Decision (P p)} points :
  ascending points → ascending (filter P points).
Proof.
  unfold ascending. induction 1 as [|p ps Hsorted IH Hbelow]; [constructor|].
  rewrite filter_cons. case_decide; [|done].
  constructor; [done|]. apply Forall_forall. intros q [_ Hq]%list_elem_of_filter.
  by eapply Forall_forall in Hbelow.
Qed.

(** A scan with nothing to mark changes nothing, in any order of the
    ledger. *)
Lemma allTransactionsSignaled_loop_nothing_to_mark
    (headFrameNumber : Z) points (found applied : bool) :
  Forall (λ q, SyncPoint.getFrameNumber q ≤ headFrameNumber →
               SyncPoint.frameIsAvailable q = true) points →
  (allTransactionsSignaled_loop headFrameNumber points found applied).1.1 = points.
Proof.
  intros Havailable. revert found applied.
  induction Havailable as [|p points Hp _ IH]; intros found applied; cbn; [done|].
  destruct (Z.gtb_spec (SyncPoint.getFrameNumber p) headFrameNumber) as [Hgt|Hle]; [done|].
  rewrite (Hp Hle). cbn.
  specialize (IH true (applied && SyncPoint.transactionIsApplied p)).
  destruct (allTransactionsSignaled_loop _ points _ _) as [[rest f] a]. cbn in *.
  by rewrite IH.
Qed.

(** In an ascending ledger, the first sync point that is not available
    comes, with everything before it, no later than any other. *)
Lemma first_unavailable_up_to (headFrameNumber : Z) points e :
  ascending points →
  e ∈ points → SyncPoint.getFrameNumber e ≤ headFrameNumber →
  SyncPoint.frameIsAvailable e = false →
  ∃ before first after,
    points = before ++ first :: after
    ∧ Forall (λ q, SyncPoint.getFrameNumber q ≤ headFrameNumber
                   ∧ SyncPoint.frameIsAvailable q = true) before
    ∧ SyncPoint.getFrameNumber first ≤ headFrameNumber
    ∧ SyncPoint.frameIsAvailable first = false.
Proof.
  intros Hsorted Hin Hle Hunavailable.
  destruct (first_unavailable _ _ Hin Hunavailable)
    as (before & first & after & Hledger & Hbefore & Hfirst & Hwhere).
  unfold ascending in Hsorted. rewrite Hledger in Hsorted.
  apply StronglySorted_app in Hsorted as (Hacross & _ & Hrest).
  apply StronglySorted_cons in Hrest as [Hafter _].
  assert (SyncPoint.getFrameNumber first ≤ headFrameNumber) as Hfirst_le.
  { destruct Hwhere as [->|Hlater]; [done|].
    rewrite Forall_forall in Hafter. specialize (Hafter _ Hlater). cbn in Hafter. lia. }
  exists before, first, after. split_and!; try done.
  apply Forall_forall. intros q Hq. split; [|by eapply Forall_forall in Hbefore].
  specialize (Hacross q first Hq). cbn in Hacross.
  assert (first ∈ first :: after) as Hhead by apply list_elem_of_here.
  specialize (Hacross Hhead). lia.
Qed.

Lemma unavailableUpTo_zero (headFrameNumber : Z) points :
  unavailableUpTo headFrameNumber points = 0%nat
  ↔ Forall (λ q, SyncPoint.getFrameNumber q ≤ headFrameNumber →
                 SyncPoint.frameIsAvailable q = true) points.
Proof.
  unfold unavailableUpTo. induction points as [|p points IH]; [done|].
  rewrite filter_cons, Forall_cons. case_decide as Hp; cbn.
  - split; [done|]. intros [Habsurd _]. destruct Hp as [Hle Hflag].
    rewrite (Habsurd Hle) in Hflag. done.
  - rewrite IH. split; [|by intros [_ ?]]. intros Hrest. split; [|done].
    intros Hle. destruct (SyncPoint.frameIsAvailable p) eqn:Hflag; [done|].
    by destruct Hp.
Qed.

Lemma unavailableUpTo_marked (headFrameNumber : Z) before point after :
  SyncPoint.getFrameNumber point ≤ headFrameNumber →
  SyncPoint.frameIsAvailable point = false →
  S (unavailableUpTo headFrameNumber (before ++ SyncPoint.setFrameAvailable point :: after))
    = unavailableUpTo headFrameNumber (before ++ point :: after).
Proof.
  intros Hle Hflag. unfold unavailableUpTo. rewrite !filter_app, !filter_cons.
  case_decide as Hmarked; [by destruct Hmarked|].
  case_decide as Hpoint; [|by destruct Hpoint].
  rewrite !length_app. cbn. lia.
Qed.

(** On an ascending ledger a scan either finds nothing to mark, or it
    leaves one entry less to mark. *)
Lemma scanned_progress (headFrameNumber : Z) points :
  ascending points →
  (unavailableUpTo headFrameNumber points = 0%nat ∧ scanned headFrameNumber points = points)
  ∨ S (unavailableUpTo headFrameNumber (scanned headFrameNumber points))
    = unavailableUpTo headFrameNumber points.
Proof.
  intros Hsorted. unfold scanned.
  destruct (decide (Forall (λ q, SyncPoint.getFrameNumber q ≤ headFrameNumber →
                                 SyncPoint.frameIsAvailable q = true) points))
    as [Havailable|Hsome].
  - left. split; [by apply unavailableUpTo_zero|].
    by apply allTransactionsSignaled_loop_nothing_to_mark.
  - right. apply not_Forall_Exists in Hsome; [|apply _].
    apply Exists_exists in Hsome as (e & Hin & Hnot). cbn in Hnot.
    assert (SyncPoint.getFrameNumber e ≤ headFrameNumber
            ∧ SyncPoint.frameIsAvailable e = false) as [Hle Hflag].
    { destruct (SyncPoint.frameIsAvailable e); [by destruct Hnot|].
      split; [|done]. destruct (decide (SyncPoint.getFrameNumber e ≤ headFrameNumber));
        [done|]. by destruct Hnot. }
    destruct (first_unavailable_up_to _ _ _ Hsorted Hin Hle Hflag)
      as (before & first & after & -> & Hbefore & Hfirst & Hunavailable).
    rewrite (allTransactionsSignaled_loop_marks_first _ before first after false true
               Hbefore Hfirst Hunavailable).
    by apply unavailableUpTo_marked.
Qed.

Lemma scanned_raised (headFrameNumber : Z) points :
  Forall2 raised points (scanned headFrameNumber points).
Proof. apply allTransactionsSignaled_loop_raised. Qed.

Lemma repeated_scans (headFrameNumber : Z) (n : nat) points :
  ascending points →
  (unavailableUpTo headFrameNumber points ≤ n)%nat →
  unavailableUpTo headFrameNumber (Nat.iter n (scanned headFrameNumber) points) = 0%nat
  ∧ Forall2 raised points (Nat.iter n (scanned headFrameNumber) points).
Proof.
  revert points. induction n as [|n IH]; intros points Hsorted Hbound.
  - change (Nat.iter 0 (scanned headFrameNumber) points) with points.
    split; [lia|apply Forall2_raised_refl].
  - rewrite Nat.iter_succ_r.
    destruct (scanned_progress headFrameNumber points Hsorted) as [[Hzero ->]|Hless].
    + apply IH; [done|lia].
    + destruct (IH (scanned headFrameNumber points)) as [Hzero Hraised].
      * eapply ascending_raised; [apply scanned_raised|done].
      * lia.
      * split; [done|]. eapply Forall2_raised_trans; [apply scanned_raised|done].
Qed.

(** X4: latch attempts make progress on the ledger.  On a ledger in
    ascending order, as many scans of [allTransactionsSignaled] against the
    same head frame number as the ledger has entries leave every sync point
    at or below the head frame number frame-available; the scans have only
    set availability flags, and one more scan changes nothing. *)
Theorem allTransactionsSignaled_scans_mark_all (headFrameNumber : Z) points :
  ascending points →
  let points' := Nat.iter (length points) (scanned headFrameNumber) points in
  Forall2 raised points points'
  ∧ (∀ p, p ∈ points' → SyncPoint.getFrameNumber p ≤ headFrameNumber →
          SyncPoint.frameIsAvailable p = true)
  ∧ scanned headFrameNumber points' = points'.
Proof.
  intros Hsorted points'.
  destruct (repeated_scans headFrameNumber (length points) points Hsorted)
    as [Hzero Hraised]; [apply length_filter|].
  fold points' in Hzero, Hraised. apply unavailableUpTo_zero in Hzero.
  split_and!; [done| |by apply allTransactionsSignaled_loop_nothing_to_mark].
  intros p Hp. by eapply Forall_forall in Hzero.
Qed.

(** ** Notification *)

Lemma notifiable_never (headFrameNumber : Z) (headFenceSignaled presentTimeIsCurrent : bool)
    points :
  headFenceSignaled = false ∨ presentTimeIsCurrent = false →
  (λ p, if notifiable headFrameNumber headFenceSignaled presentTimeIsCurrent p
        then SyncPoint.setFrameAvailable p else p) <$> points = points
  ∧ omap (requesterCall headFrameNumber headFenceSignaled presentTimeIsCurrent) points = [].
Proof.
  intros Hnot.
  assert (∀ p, notifiable headFrameNumber headFenceSignaled presentTimeIsCurrent p = false)
    as Hnever.
  { intros p. unfold notifiable. destruct Hnot as [->| ->];
      by rewrite ?andb_false_r. }
  induction points as [|p points [IHmap IHcalls]]; [done|].
  cbn. unfold requesterCall. rewrite Hnever, IHmap. split; [done|]. apply IHcalls.
Qed.

(** X5: while the head frame's fence has not signaled, or its present time
    is not current, [notifyAvailableFrames] is a no-op: no sync point is
    marked, no requesting layer is called, the layer is left exactly as it
    was. *)
Theorem notifyAvailableFrames_without_signal (expectedPresentTime : nsecs_t) l :
  fenceHasSignaled l = false ∨ framePresentTimeIsCurrent expectedPresentTime l = false →
  notifyAvailableFrames expectedPresentTime l = l.
Proof.
  intros Hnot. unfold notifyAvailableFrames. rewrite notifyAvailableFrames_loop_spec.
  destruct (notifiable_never (getHeadFrameNumber expectedPresentTime l) _ _
              (mLocalSyncPoints l) Hnot) as [-> ->].
  rewrite app_nil_r, setCalls_same. apply setLocalSyncPoints_same.
Qed.

(** X6: notification and latch fit together.  When the head frame's fence
    has signaled and its present time is current, and the head frame number
    does not depend on the ledger, then after [notifyAvailableFrames] the
    scan of [allTransactionsSignaled] finds nothing to mark and changes
    nothing; on an ascending ledger it then returns [true] exactly when
    every sync point at or below the head frame number had its transaction
    applied. *)
Theorem notifyAvailableFrames_then_allTransactionsSignaled
    (expectedPresentTime : nsecs_t) l :
  head_ignores_sync_points →
  fenceHasSignaled l = true →
  framePresentTimeIsCurrent expectedPresentTime l = true →
  let l' := notifyAvailableFrames expectedPresentTime l in
  (allTransactionsSignaled expectedPresentTime l').2 = l'
  ∧ (ascending (mLocalSyncPoints l) →
     (allTransactionsSignaled expectedPresentTime l').1 = true
     ↔ ∀ p, p ∈ mLocalSyncPoints l →
            SyncPoint.getFrameNumber p ≤ getHeadFrameNumber expectedPresentTime l →
            SyncPoint.transactionIsApplied p = true).
Proof.
  intros Hhead Hfence Hcurrent l'.
  set (head := getHeadFrameNumber expectedPresentTime l).
  set (mark := λ p, if notifiable head true true p then SyncPoint.setFrameAvailable p else p).
  assert (l' = setLocalSyncPoints (mark <$> mLocalSyncPoints l)
                 (setCalls (calls l ++ omap (requesterCall head true true)
                                          (mLocalSyncPoints l)) l)) as Hl'.
  { unfold l', notifyAvailableFrames. rewrite notifyAvailableFrames_loop_spec.
    fold head. by rewrite Hfence, Hcurrent. }
  assert (getHeadFrameNumber expectedPresentTime l' = head) as Hhead'.
  { rewrite Hl'. apply Hhead. }
  assert (mLocalSyncPoints l' = mark <$> mLocalSyncPoints l) as Hledger by by rewrite Hl'.
  assert (∀ p, SyncPoint.getFrameNumber (mark p) = SyncPoint.getFrameNumber p
               ∧ SyncPoint.transactionIsApplied (mark p) = SyncPoint.transactionIsApplied p
               ∧ (SyncPoint.getFrameNumber p ≤ head →
                  SyncPoint.frameIsAvailable (mark p) = true)) as Hmark.
  { intros p. unfold mark, notifiable. rewrite !andb_true_r.
    destruct (Z.leb_spec (SyncPoint.getFrameNumber p) head); split_and!; try done. lia. }
  assert (Forall (λ q, SyncPoint.getFrameNumber q ≤ head →
                       SyncPoint.frameIsAvailable q = true) (mLocalSyncPoints l'))
    as Havailable.
  { rewrite Hledger. apply Forall_fmap, Forall_forall. intros p _. cbn.
    destruct (Hmark p) as (-> & _ & Hflag). done. }
  split.
  - unfold allTransactionsSignaled. rewrite Hhead'.
    pose proof (allTransactionsSignaled_loop_nothing_to_mark head _ false true Havailable)
      as Hsame.
    destruct (allTransactionsSignaled_loop _ _ _ _) as [[points found] applied].
    cbn in *. rewrite Hsame. apply setLocalSyncPoints_same.
  - intros Hsorted.
    assert (ascending (mLocalSyncPoints l')) as Hsorted'.
    { eapply ascending_raised; [|done]. rewrite Hledger.
      apply Forall2_fmap_r, Forall_Forall2_diag, Forall_forall. intros p _.
      unfold mark. cbn. destruct (notifiable head true true p); by (left + right). }
    rewrite (allTransactionsSignaled_ok_iff _ _ Hsorted'), Hhead', Hledger.
    split.
    + intros Hall p Hp Hle. destruct (Hmark p) as (Hnumber & Happlied & _).
      rewrite <- Happlied. apply (Hall (mark p)); [|by rewrite Hnumber].
      by apply list_elem_of_fmap_2.
    + intros Hall q (p & -> & Hp)%list_elem_of_fmap.
      destruct (Hmark p) as (Hnumber & Happlied & Hflag). rewrite Hnumber, Happlied.
      intros Hle. split; [by apply Hflag|by apply Hall].
Qed.

(** ** What a latch attempt does to the ledger *)

(** A [latchBuffer] that returns [false] leaves the ledger as it was, or
    as one scan leaves it. *)
Lemma latchBuffer_refused_ledger
    (recomputeVisibleRegions : bool) (latchTime expectedPresentTime : nsecs_t)
    l (recompute' : bool) l' :
  virtuals_keep_sync_points →
  latchBuffer recomputeVisibleRegions latchTime expectedPresentTime l
    = Some (false, recompute', l') →
  mLocalSyncPoints l' = mLocalSyncPoints l
  ∨ mLocalSyncPoints l'
    = scanned (getHeadFrameNumber expectedPresentTime
                 (latchSidebandStream recomputeVisibleRegions l).2)
        (mLocalSyncPoints l).
Proof.
  intros (Hsideband & Htex & Hactive & Hnumber & Hgather) Hlatch.
  destruct (latchSidebandStream recomputeVisibleRegions l) as [[refresh recompute1] l1]
    eqn:Hside.
  specialize (Hsideband recomputeVisibleRegions l). rewrite Hside in Hsideband.
  cbn in Hsideband. cbn [snd].
  unfold_latch in Hlatch. rewrite Hside in Hlatch.
  cbn -[allTransactionsSignaled isOpaque] in Hlatch.
  destruct refresh; [done|].
  destruct (hasReadyFrame l1); cbn -[allTransactionsSignaled isOpaque] in Hlatch;
    [|injection Hlatch as _ <-; by left].
  destruct (mRefreshPending l1); [injection Hlatch as _ <-; by left|].
  destruct (fenceHasSignaled l1); cbn -[allTransactionsSignaled isOpaque] in Hlatch;
    [|injection Hlatch as _ <-; by left].
  destruct (allTransactionsSignaled expectedPresentTime l1) as [ok lx] eqn:Hsync.
  destruct ok; cbn -[isOpaque] in Hlatch.
  - pose proof (allTransactionsSignaled_success _ _ _ Hsync) as ->. clear Hsync.
    destruct (updateTexImage recompute1 latchTime expectedPresentTime l1)
      as [[err recompute2] l2] eqn:Htex'.
    specialize (Htex recompute1 latchTime expectedPresentTime l1).
    rewrite Htex' in Htex. cbn in Htex.
    destruct (Z.eqb_spec err NO_ERROR) as [->|Herr]; cbn -[isOpaque] in Hlatch;
      [|injection Hlatch as _ <-; left; congruence].
    destruct (updateActiveBuffer l2) as [err l3] eqn:Hactive'.
    specialize (Hactive l2). rewrite Hactive' in Hactive. cbn in Hactive.
    destruct (Z.eqb_spec err NO_ERROR) as [->|Herr]; cbn -[isOpaque] in Hlatch;
      [|injection Hlatch as _ <-; left; congruence].
    destruct (updateFrameNumber latchTime l3) as [err l4] eqn:Hnumber'.
    specialize (Hnumber latchTime l3). rewrite Hnumber' in Hnumber. cbn in Hnumber.
    destruct (Z.eqb_spec err NO_ERROR) as [->|Herr]; cbn -[isOpaque] in Hlatch;
      [|injection Hlatch as _ <-; left; congruence].
    destruct (mBuffer (mBufferInfo l1));
      [destruct (mBuffer (mBufferInfo (gatherBufferInfo l4))); [|done]|];
      cbn -[isOpaque] in Hlatch; done.
  - injection Hlatch as _ <-. right. unfold allTransactionsSignaled in Hsync.
    unfold scanned. rewrite <- Hsideband.
    destruct (allTransactionsSignaled_loop _ _ _ _) as [[points found] applied].
    by injection Hsync as _ <-.
Qed.

(** X7: provided the subclass members leave the sync-point list alone, a
    [latchBuffer] that returns [false] removes, adds and moves no sync
    point, and changes none but by setting its frame-available flag: the
    ledger after corresponds to the ledger before entry by entry. *)
Theorem latchBuffer_refused_keeps_entries
    (recomputeVisibleRegions : bool) (latchTime expectedPresentTime : nsecs_t)
    l (recompute' : bool) l' :
  virtuals_keep_sync_points →
  latchBuffer recomputeVisibleRegions latchTime expectedPresentTime l
    = Some (false, recompute', l') →
  Forall2 raised (mLocalSyncPoints l) (mLocalSyncPoints l')
  ∧ length (mLocalSyncPoints l') = length (mLocalSyncPoints l)
  ∧ SyncPoint.getFrameNumber <$> mLocalSyncPoints l'
    = SyncPoint.getFrameNumber <$> mLocalSyncPoints l
  ∧ SyncPoint.transactionIsApplied <$> mLocalSyncPoints l'
    = SyncPoint.transactionIsApplied <$> mLocalSyncPoints l.
Proof.
  intros Hkeep Hlatch.
  assert (Forall2 raised (mLocalSyncPoints l) (mLocalSyncPoints l')) as Hraised.
  { destruct (latchBuffer_refused_ledger _ _ _ _ _ _ Hkeep Hlatch) as [-> | ->];
      [apply Forall2_raised_refl|apply scanned_raised]. }
  split; [done|]. split; [symmetry; by eapply Forall2_length|].
  clear Hkeep Hlatch. induction Hraised as [|p p' ps ps' Hp _ [IH1 IH2]]; [done|].
  cbn. rewrite IH1, IH2. by destruct Hp as [->| ->].
Qed.

(** X8: provided the subclass members leave the sync-point list alone,
    [latchBuffer] keeps the ledger in ascending order, whatever it
    returns. *)
Theorem latchBuffer_keeps_ledger_ascending
    (recomputeVisibleRegions : bool) (latchTime expectedPresentTime : nsecs_t)
    l (latched recompute' : bool) l' :
  virtuals_keep_sync_points →
  ascending (mLocalSyncPoints l) →
  latchBuffer recomputeVisibleRegions latchTime expectedPresentTime l
    = Some (latched, recompute', l') →
  ascending (mLocalSyncPoints l').
Proof.
  intros Hkeep Hsorted Hlatch. destruct latched.
  - destruct Hkeep as (Hsideband & Htex & Hactive & Hnumber & Hgather).
    destruct (latchSidebandStream recomputeVisibleRegions l) as [[refresh recompute1] l1]
      eqn:Hside.
    specialize (Hsideband recomputeVisibleRegions l). rewrite Hside in Hsideband.
    cbn in Hsideband. destruct refresh.
    + unfold_latch in Hlatch. rewrite Hside in Hlatch. cbn in Hlatch.
      injection Hlatch as _ <-. by rewrite Hsideband.
    + destruct (latchBuffer_latched _ _ _ _ _ _ _ _ Hside Hlatch)
        as (_ & _ & _ & _ & recompute2 & l2 & l3 & l4 & Htex' & Hactive' & Hnumber' & ->).
      specialize (Htex recompute1 latchTime expectedPresentTime l1).
      specialize (Hactive l2). specialize (Hnumber latchTime l3).
      specialize (Hgather l4).
      rewrite Htex' in Htex. rewrite Hactive' in Hactive. rewrite Hnumber' in Hnumber.
      cbn in Htex, Hactive, Hnumber. cbn.
      rewrite Hgather, Hnumber, Hactive, Htex, Hsideband, dropLatchedSyncPoints_filter.
      by apply ascending_filter.
  - eapply ascending_raised; [|done].
    destruct (latchBuffer_refused_ledger _ _ _ _ _ _ Hkeep Hlatch) as [-> | ->];
      [apply Forall2_raised_refl|apply scanned_raised].
Qed.

End LedgerProperties.

(** ** The latch and the composition cycle *)

Section CycleProperties.
Context `{Platform} {Sub : Type} `{!BufferLayerVirtuals Sub}.
Implicit Types (l : Layer Sub).




(** X10: a buffer is latched only when nothing stands in the way.  If
    [latchBuffer] returns [true] without a sideband refresh, then on the
    layer the sideband latch left a frame was ready, no refresh was
    pending, the head frame's fence poll reported signaled, the scan of the
    ledger changed nothing and, the ledger being in ascending order, every
    sync point at or below the head frame number was frame-available and
    transaction-applied. *)
Theorem latchBuffer_latches_only_when_clear
    (recomputeVisibleRegions : bool) (latchTime expectedPresentTime : nsecs_t)
    l (recompute1 : bool) l1 (recompute' : bool) l' :
  latchSidebandStream recomputeVisibleRegions l = (false, recompute1, l1) →
  latchBuffer recomputeVisibleRegions latchTime expectedPresentTime l
    = Some (true, recompute', l') →
  hasReadyFrame l1 = true
  ∧ mRefreshPending l1 = false
  ∧ fenceHasSignaled l1 = true
  ∧ allTransactionsSignaled expectedPresentTime l1 = (true, l1)
  ∧ (ascending (mLocalSyncPoints l1) →
     ∀ p, p ∈ mLocalSyncPoints l1 →
          SyncPoint.getFrameNumber p ≤ getHeadFrameNumber expectedPresentTime l1 →
          SyncPoint.frameIsAvailable p = true ∧ SyncPoint.transactionIsApplied p = true).
Proof.
  intros Hside Hlatch.
  destruct (latchBuffer_latched _ _ _ _ _ _ _ _ Hside Hlatch)
    as (Hready & Hpending & Hfence & Hsync & _).
  split_and!; try done. intros Hsorted.
  apply (allTransactionsSignaled_ok_iff expectedPresentTime l1 Hsorted).
  by rewrite Hsync.
Qed.

(** The flag a latched buffer hands back, from the snapshot taken before
    and the state the updates installed. *)
Lemma latchBuffer_latched_recompute
    (recomputeVisibleRegions : bool) (latchTime expectedPresentTime : nsecs_t)
    l (recompute1 : bool) l1 (recompute' : bool) l' (recompute2 : bool) l2 :
  latchSidebandStream recomputeVisibleRegions l = (false, recompute1, l1) →
  latchBuffer recomputeVisibleRegions latchTime expectedPresentTime l
    = Some (true, recompute', l') →
  updateTexImage recompute1 latchTime expectedPresentTime l1 = (NO_ERROR, recompute2, l2) →
  recompute'
    = (if negb (eqb (isOpaque (mDrawingState l1) l1) (isOpaque (mDrawingState l') l'))
       then true
       else if match mBuffer (mBufferInfo l1), mBuffer (mBufferInfo l') with
               | Some oldBuffer, Some newBuffer => bufferSizeChanged oldBuffer newBuffer
               | _, _ => false
               end
       then true
       else if Rect.neb (mCrop (mBufferInfo l')) (mCrop (mBufferInfo l1))
               || negb (mTransform (mBufferInfo l') =? mTransform (mBufferInfo l1))
               || negb (mScaleMode (mBufferInfo l') =? mScaleMode (mBufferInfo l1))
               || negb (eqb (mTransformToDisplayInverse (mBufferInfo l'))
                            (mTransformToDisplayInverse (mBufferInfo l1)))
       then true
       else if bool_decide (mBuffer (mBufferInfo l1) = None) then true
       else recompute2).
Proof.
  intros Hside Hlatch Htex. unfold_latch in Hlatch. rewrite Hside in Hlatch.
  cbn -[allTransactionsSignaled isOpaque] in Hlatch.
  destruct (hasReadyFrame l1); cbn -[allTransactionsSignaled isOpaque] in Hlatch; [|done].
  destruct (mRefreshPending l1); [done|].
  destruct (fenceHasSignaled l1); cbn -[allTransactionsSignaled isOpaque] in Hlatch; [|done].
  destruct (allTransactionsSignaled expectedPresentTime l1) as [ok lx] eqn:Hsync.
  destruct ok; cbn -[isOpaque] in Hlatch; [|done].
  pose proof (allTransactionsSignaled_success _ _ _ Hsync) as ->.
  rewrite Htex in Hlatch. cbn -[isOpaque] in Hlatch.
  rewrite Z.eqb_refl in Hlatch. cbn -[isOpaque] in Hlatch.
  destruct (updateActiveBuffer l2) as [err l3].
  destruct (Z.eqb_spec err NO_ERROR) as [->|]; cbn -[isOpaque] in Hlatch; [|done].
  destruct (updateFrameNumber latchTime l3) as [err l4].
  destruct (Z.eqb_spec err NO_ERROR) as [->|]; cbn -[isOpaque] in Hlatch; [|done].
  destruct (mBuffer (mBufferInfo l1)) as [oldBuffer|];
    [destruct (mBuffer (mBufferInfo (gatherBufferInfo l4))) as [newBuffer|] eqn:Hnew;
       [|done]|];
    cbn -[isOpaque] in Hlatch; injection Hlatch as <- <-; cbn -[isOpaque];
    rewrite ?Hnew;
    change (isOpaque ?s (setLocalSyncPoints ?points ?l0)) with (isOpaque s l0);
    by repeat case_match.
Qed.

(** The comparison of the new snapshot with the old one holds only if a
    member differs. *)
Lemma bufferInfo_differs (new old : BufferInfo) (rest : bool) :
  (if Rect.neb (mCrop new) (mCrop old)
      || negb (mTransform new =? mTransform old)
      || negb (mScaleMode new =? mScaleMode old)
      || negb (eqb (mTransformToDisplayInverse new) (mTransformToDisplayInverse old))
   then true else rest) = true →
  rest = true
  ∨ mCrop new ≠ mCrop old
  ∨ mTransform new ≠ mTransform old
  ∨ mScaleMode new ≠ mScaleMode old
  ∨ mTransformToDisplayInverse new ≠ mTransformToDisplayInverse old.
Proof.
  intros Hrest.
  destruct (Rect.neb (mCrop new) (mCrop old)) eqn:Hcrop.
  { right; left. intros Heq. rewrite Heq in Hcrop. unfold Rect.neb, Rect.eqb in Hcrop.
    by rewrite !Z.eqb_refl in Hcrop. }
  destruct (Z.eqb_spec (mTransform new) (mTransform old)); [|by right; right; left].
  destruct (Z.eqb_spec (mScaleMode new) (mScaleMode old)); [|by do 3 right; left].
  destruct (eqb (mTransformToDisplayInverse new) (mTransformToDisplayInverse old))
    eqn:Hinverse; [cbn in Hrest; by left|].
  do 4 right. by apply eqb_false_iff in Hinverse.
Qed.

(** X21: [latchBuffer] raises [recomputeVisibleRegions] for a reason only.
    When it latches a buffer and hands the flag back set, then the flag was
    set already when [updateTexImage] returned, or there was no buffer
    before, or the crop, the transform, the scaling mode, the
    transform-to-display-inverse flag, the buffer's width or height, or the
    opacity differ between the snapshot taken before and the state the
    latch installed.  Without any of these the flag comes back as
    [updateTexImage] left it. *)
Theorem latchBuffer_recompute_only_when_changed
    (recomputeVisibleRegions : bool) (latchTime expectedPresentTime : nsecs_t)
    l (recompute1 : bool) l1 (recompute' : bool) l' (recompute2 : bool) l2 :
  latchSidebandStream recomputeVisibleRegions l = (false, recompute1, l1) →
  latchBuffer recomputeVisibleRegions latchTime expectedPresentTime l
    = Some (true, recompute', l') →
  updateTexImage recompute1 latchTime expectedPresentTime l1 = (NO_ERROR, recompute2, l2) →
  recompute' = true →
  recompute2 = true
  ∨ mBuffer (mBufferInfo l1) = None
  ∨ mCrop (mBufferInfo l') ≠ mCrop (mBufferInfo l1)
  ∨ mTransform (mBufferInfo l') ≠ mTransform (mBufferInfo l1)
  ∨ mScaleMode (mBufferInfo l') ≠ mScaleMode (mBufferInfo l1)
  ∨ mTransformToDisplayInverse (mBufferInfo l') ≠ mTransformToDisplayInverse (mBufferInfo l1)
  ∨ (∃ oldBuffer newBuffer,
       mBuffer (mBufferInfo l1) = Some oldBuffer
       ∧ mBuffer (mBufferInfo l') = Some newBuffer
       ∧ (GraphicBuffer_getWidth newBuffer ≠ GraphicBuffer_getWidth oldBuffer
          ∨ GraphicBuffer_getHeight newBuffer ≠ GraphicBuffer_getHeight oldBuffer))
  ∨ isOpaque (mDrawingState l') l' ≠ isOpaque (mDrawingState l1) l1.
Proof.
  intros Hside Hlatch Htex Hset.
  rewrite (latchBuffer_latched_recompute _ _ _ _ _ _ _ _ _ _ Hside Hlatch Htex) in Hset.
  destruct (eqb (isOpaque (mDrawingState l1) l1) (isOpaque (mDrawingState l') l'))
    eqn:Hopacity; cbn -[isOpaque] in Hset.
  2: { do 7 right. apply eqb_false_iff in Hopacity. congruence. }
  destruct (mBuffer (mBufferInfo l1)) as [oldBuffer|] eqn:Hold; [|by right; left].
  rewrite bool_decide_eq_false_2 in Hset by done.
  pose proof (bufferInfo_differs (mBufferInfo l') (mBufferInfo l1)) as Hinfo.
  destruct (mBuffer (mBufferInfo l')) as [newBuffer|] eqn:Hnew.
  - destruct (bufferSizeChanged oldBuffer newBuffer) eqn:Hsize.
    + do 6 right; left. exists oldBuffer, newBuffer. split_and!; try done.
      unfold bufferSizeChanged in Hsize. unfold GraphicBuffer_getWidth, GraphicBuffer_getHeight.
      apply orb_true_iff in Hsize as [Hw%negb_true_iff%Z.eqb_neq|Hh%negb_true_iff%Z.eqb_neq];
        [by left|by right].
    + destruct (Hinfo _ Hset) as [?|[?|[?|[?|?]]]]; eauto 10.
  - destruct (Hinfo _ Hset) as [?|[?|[?|[?|?]]]]; eauto 10.
Qed.

(** X20: [latchBuffer] compares the extent of the new buffer with the old
    one's through [mBufferInfo.mBuffer] without a null check.  It runs
    into a null dereference exactly when the attempt gets through every
    check and every update, there was a buffer before, and the update left
    none; in every other case it returns. *)
Theorem latchBuffer_faults_exactly_when_buffer_lost
    (recomputeVisibleRegions : bool) (latchTime expectedPresentTime : nsecs_t) l :
  latchBuffer recomputeVisibleRegions latchTime expectedPresentTime l = None
  ↔ ∃ (recompute1 : bool) l1 (recompute2 : bool) l2 l3 l4,
      latchSidebandStream recomputeVisibleRegions l = (false, recompute1, l1)
      ∧ hasReadyFrame l1 = true
      ∧ mRefreshPending l1 = false
      ∧ fenceHasSignaled l1 = true
      ∧ allTransactionsSignaled expectedPresentTime l1 = (true, l1)
      ∧ updateTexImage recompute1 latchTime expectedPresentTime l1
        = (NO_ERROR, recompute2, l2)
      ∧ updateActiveBuffer l2 = (NO_ERROR, l3)
      ∧ updateFrameNumber latchTime l3 = (NO_ERROR, l4)
      ∧ is_Some (mBuffer (mBufferInfo l1))
      ∧ mBuffer (mBufferInfo (gatherBufferInfo l4)) = None.
Proof.
  split.
  - intros Hlatch. unfold_latch in Hlatch.
    destruct (latchSidebandStream recomputeVisibleRegions l) as [[refresh recompute1] l1]
      eqn:Hside.
    cbn -[allTransactionsSignaled isOpaque] in Hlatch. destruct refresh; [done|].
    destruct (hasReadyFrame l1) eqn:Hready;
      cbn -[allTransactionsSignaled isOpaque] in Hlatch; [|done].
    destruct (mRefreshPending l1) eqn:Hpending; [done|].
    destruct (fenceHasSignaled l1) eqn:Hfence;
      cbn -[allTransactionsSignaled isOpaque] in Hlatch; [|done].
    destruct (allTransactionsSignaled expectedPresentTime l1) as [ok lx] eqn:Hsync.
    destruct ok; cbn -[isOpaque] in Hlatch; [|done].
    pose proof (allTransactionsSignaled_success _ _ _ Hsync) as ->.
    destruct (updateTexImage recompute1 latchTime expectedPresentTime l1)
      as [[err recompute2] l2] eqn:Htex.
    destruct (Z.eqb_spec err NO_ERROR) as [->|Herr]; cbn -[isOpaque] in Hlatch; [|done].
    destruct (updateActiveBuffer l2) as [err l3] eqn:Hactive.
    destruct (Z.eqb_spec err NO_ERROR) as [->|Herr]; cbn -[isOpaque] in Hlatch; [|done].
    destruct (updateFrameNumber latchTime l3) as [err l4] eqn:Hnumber.
    destruct (Z.eqb_spec err NO_ERROR) as [->|Herr]; cbn -[isOpaque] in Hlatch; [|done].
    exists recompute1, l1, recompute2, l2, l3, l4.
    destruct (mBuffer (mBufferInfo l1)) as [oldBuffer|];
      [destruct (mBuffer (mBufferInfo (gatherBufferInfo l4))) as [newBuffer|] eqn:Hnew|];
      cbn -[isOpaque] in Hlatch; done.
  - intros (recompute1 & l1 & recompute2 & l2 & l3 & l4 & Hside & Hready & Hpending & Hfence
            & Hsync & Htex & Hactive & Hnumber & [oldBuffer Hold] & Hnew).
    unfold_latch. rewrite Hside. cbn -[allTransactionsSignaled isOpaque].
    rewrite Hready. cbn -[allTransactionsSignaled isOpaque].
    rewrite Hpending, Hfence. cbn -[allTransactionsSignaled isOpaque].
    rewrite Hsync. cbn -[isOpaque]. rewrite Htex. cbn -[isOpaque].
    rewrite Z.eqb_refl. cbn -[isOpaque]. rewrite Hactive. cbn -[isOpaque].
    rewrite Z.eqb_refl. cbn -[isOpaque]. rewrite Hnumber. cbn -[isOpaque].
    rewrite Z.eqb_refl. cbn -[isOpaque]. rewrite Hold. cbn -[isOpaque].
    by rewrite Hnew.
Qed.

(** X22: a buffer is latched whenever nothing stands in the way.  When
    the sideband latch asks for no refresh, a frame is ready, no refresh is
    pending, the head frame's fence poll reports signaled, the scan of the
    ledger succeeds, the three updates succeed, and the layer had no buffer
    before or has one after, [latchBuffer] returns [true]; it leaves the
    layer the updates built, with [mRefreshPending] and
    [mFrameLatencyNeeded] set and the satisfied sync points erased. *)
Theorem latchBuffer_latches_when_clear
    (recomputeVisibleRegions : bool) (latchTime expectedPresentTime : nsecs_t)
    l (recompute1 : bool) l1 (recompute2 : bool) l2 l3 l4 :
  latchSidebandStream recomputeVisibleRegions l = (false, recompute1, l1) →
  hasReadyFrame l1 = true →
  mRefreshPending l1 = false →
  fenceHasSignaled l1 = true →
  (allTransactionsSignaled expectedPresentTime l1).1 = true →
  updateTexImage recompute1 latchTime expectedPresentTime l1 = (NO_ERROR, recompute2, l2) →
  updateActiveBuffer l2 = (NO_ERROR, l3) →
  updateFrameNumber latchTime l3 = (NO_ERROR, l4) →
  mBuffer (mBufferInfo l1) = None ∨ is_Some (mBuffer (mBufferInfo (gatherBufferInfo l4))) →
  ∃ (recompute' : bool) l',
    latchBuffer recomputeVisibleRegions latchTime expectedPresentTime l
      = Some (true, recompute', l')
    ∧ l' = setLocalSyncPoints
             (filter (λ p, ¬ satisfied (mCurrentFrameNumber (gatherBufferInfo l4)) p)
                (mLocalSyncPoints (gatherBufferInfo l4)))
             (setBufferInfo
                (BufferInfo_setFrameLatencyNeeded true (mBufferInfo (gatherBufferInfo l4)))
                (setRefreshPending true (gatherBufferInfo l4))).
Proof.
  intros Hside Hready Hpending Hfence Hok Htex Hactive Hnumber Hbuffer.
  assert (allTransactionsSignaled expectedPresentTime l1 = (true, l1)) as Hsync.
  { destruct (allTransactionsSignaled expectedPresentTime l1) as [ok lx] eqn:Hsync.
    cbn in Hok. subst ok. by rewrite (allTransactionsSignaled_success _ _ _ Hsync). }
  rewrite <- dropLatchedSyncPoints_filter.
  unfold_latch. rewrite Hside. cbn -[allTransactionsSignaled isOpaque].
  rewrite Hready. cbn -[allTransactionsSignaled isOpaque].
  rewrite Hpending, Hfence. cbn -[allTransactionsSignaled isOpaque].
  rewrite Hsync. cbn -[isOpaque]. rewrite Htex. cbn -[isOpaque].
  rewrite Z.eqb_refl. cbn -[isOpaque]. rewrite Hactive. cbn -[isOpaque].
  rewrite Z.eqb_refl. cbn -[isOpaque]. rewrite Hnumber. cbn -[isOpaque].
  rewrite Z.eqb_refl. cbn -[isOpaque].
  destruct (mBuffer (mBufferInfo l1)) as [oldBuffer|] eqn:Hold.
  - destruct Hbuffer as [?|[newBuffer Hnew]]; [done|]. rewrite Hnew. cbn -[isOpaque].
    by eexists _, _.
  - cbn -[isOpaque]. by eexists _, _.
Qed.

End CycleProperties.

(** ** The override for unsignaled buffers *)

Lemma latchUnsignaledBuffers_calls_loaded (atoi : string → Z)
    (stores : list (string → string → string)) (st : LatchUnsignaledStatics) :
  propertyLoaded st = true →
  latchUnsignaledBuffers_calls atoi stores st = (replicate (length stores) (latch st), st).
Proof.
  intros Hloaded. induction stores as [|property_get stores IH]; [done|].
  cbn. unfold latchUnsignaledBuffers. rewrite Hloaded. cbn. by rewrite IH.
Qed.

(** X11: the property is read at most once per process.  In any run of
    calls of [latchUnsignaledBuffers], every call gives the answer of the
    first, however the property store changes in between. *)
Theorem latchUnsignaledBuffers_answers_as_first (atoi : string → Z)
    (property_get : string → string → string)
    (stores : list (string → string → string)) (st : LatchUnsignaledStatics) :
  (latchUnsignaledBuffers_calls atoi (property_get :: stores) st).1
    = replicate (S (length stores)) (latchUnsignaledBuffers property_get atoi st).1.
Proof.
  cbn. destruct (latchUnsignaledBuffers property_get atoi st) as [answer st1] eqn:Hfirst.
  assert (propertyLoaded st1 = true ∧ latch st1 = answer) as [Hloaded Hlatch].
  { unfold latchUnsignaledBuffers in Hfirst.
    destruct (propertyLoaded st) eqn:Hst; cbn in Hfirst; by injection Hfirst as <- <-. }
  rewrite (latchUnsignaledBuffers_calls_loaded atoi stores st1 Hloaded). cbn.
  by rewrite Hlatch.
Qed.

(** ** Buffer extent *)

Section GeometryProperties.
Context `{Platform} `{Surroundings} {Sub : Type} `{!BufferLayerVirtuals Sub}.
Implicit Types (l : Layer Sub) (s : State).

(** X12: [getBufferSize] on the drawing state and [computeSourceBounds]
    describe the same extent.  Either both give the layer's active size,
    or both give the buffer's width and height, exchanged exactly when an
    odd number of quarter turns is to be undone (the buffer's rotation, and
    the primary display's if the layer follows the inverse display
    transform: two quarter turns cancel); or there is no buffer, and the one
    gives the invalid rectangle where the other gives the parent's
    bounds. *)
Theorem computeSourceBounds_agrees_with_getBufferSize (parentBounds : FloatRect.t) l :
  let s := mDrawingState l in
  let size := getBufferSize s l in
  let bounds := computeSourceBounds parentBounds l in
  (size = Rect_of_extent (getActiveWidth s) (getActiveHeight s)
   ∧ bounds = FloatRect_of_extent (getActiveWidth s) (getActiveHeight s)
   ∧ (State_sidebandStream s ≠ None ∨ isFixedSize l = true))
  ∨ (State_sidebandStream s = None ∧ isFixedSize l = false
     ∧ ((mBuffer (mBufferInfo l) = None ∧ size = Rect.INVALID_RECT ∧ bounds = parentBounds)
        ∨ ∃ buffer,
            mBuffer (mBufferInfo l) = Some buffer
            ∧ let w := GraphicBuffer_getWidth buffer in
              let h := GraphicBuffer_getHeight buffer in
              if quarterTurn l
              then size = Rect_of_extent h w ∧ bounds = FloatRect_of_extent h w
              else size = Rect_of_extent w h ∧ bounds = FloatRect_of_extent w h)).
Proof.
  cbn zeta. unfold getBufferSize, computeSourceBounds, quarterTurn, isFixedSize.
  destruct (decide (State_sidebandStream (mDrawingState l) = None)) as [Hnone|Hsome].
  - rewrite bool_decide_eq_false_2 by (by intros []). cbn.
    destruct (getEffectiveScalingMode l =? NATIVE_WINDOW_SCALING_MODE_FREEZE); cbn.
    + right. split_and!; try done.
      destruct (mBuffer (mBufferInfo l)) as [buffer|]; [right|by left].
      exists buffer. split; [done|].
      destruct (Z.land (mTransform (mBufferInfo l)) ROT_90 =? 0),
        (getTransformToDisplayInverse l),
        (Z.land getPrimaryDisplayOrientationTransform ROT_90 =? 0); by cbn.
    + left. split_and!; try done. by right.
  - rewrite bool_decide_eq_true_2 by done. cbn. left. split_and!; try done. by left.
Qed.

End GeometryProperties.

(** ** Dataspaces *)

Section DataspaceProperties.
Context `{Dataspaces}.

(** Membership in a list that is written out. *)
Ltac elem_of_written := rewrite !elem_of_cons; auto 10.

Lemma translateDataspace_modern (dataspace : Z) :
  (dataspace ∉ legacyDataspaces) → translateDataspace dataspace = dataspace.
Proof.
  intros Hmodern. unfold translateDataspace.
  repeat match goal with
         | |- context [dataspace =? ?v] =>
           destruct (Z.eqb_spec dataspace v) as [->|_];
             [exfalso; apply Hmodern; unfold legacyDataspaces; elem_of_written|]
         end.
  done.
Qed.

Lemma translateDataspace_cases (dataspace : Z) :
  translateDataspace dataspace ∈ modernDataspaces
  ∨ ((dataspace ∉ legacyDataspaces) ∧ translateDataspace dataspace = dataspace).
Proof.
  unfold translateDataspace.
  repeat match goal with
         | |- context [dataspace =? ?v] =>
           destruct (Z.eqb_spec dataspace v) as [->|?];
             [left; unfold modernDataspaces; elem_of_written|]
         end.
  right. split; [|done]. unfold legacyDataspaces. rewrite !elem_of_cons, elem_of_nil.
  intros Hin. repeat (destruct Hin as [?|Hin]; [done|]). done.
Qed.

(** X13: provided no modern dataspace value is also a legacy value,
    [translateDataspace] never returns a legacy dataspace, leaves every
    other dataspace as it is, and translating twice is translating
    once. *)
Theorem translateDataspace_idempotent (dataspace : Z) :
  Forall (λ v, v ∉ legacyDataspaces) modernDataspaces →
  (translateDataspace dataspace ∉ legacyDataspaces)
  ∧ ((dataspace ∉ legacyDataspaces) → translateDataspace dataspace = dataspace)
  ∧ translateDataspace (translateDataspace dataspace) = translateDataspace dataspace.
Proof.
  intros Hdistinct.
  assert (translateDataspace dataspace ∉ legacyDataspaces) as Hout.
  { destruct (translateDataspace_cases dataspace) as [Hin|[Hnot ->]]; [|done].
    by eapply Forall_forall in Hdistinct. }
  split_and!; [done|apply translateDataspace_modern|by apply translateDataspace_modern].
Qed.

End DataspaceProperties.

(** ** Orientation matrices *)

(** X14: whatever the transform and whatever the values of the three
    transform bits, the matrix [inverseOrientation] builds before inverting
    it sends the corners of the unit square onto the corners of the unit
    square: each of the eight combinations of quarter turn and flips keeps
    normalised texture coordinates inside the texture. *)
Theorem orientation_permutes_unit_square `{Orientations} (transform : Z) :
  permutesUnitSquare (orientation transform) = true.
Proof.
  unfold orientation.
  destruct (negb (Z.land transform NATIVE_WINDOW_TRANSFORM_ROT_90 =? 0)),
    (negb (Z.land transform NATIVE_WINDOW_TRANSFORM_FLIP_H =? 0)),
    (negb (Z.land transform NATIVE_WINDOW_TRANSFORM_FLIP_V =? 0));
    vm_compute; reflexivity.
Qed.

(** ** Frame statistics after composition *)

Section PostCompositionProperties.
Context `{Platform} {Sub : Type} `{!BufferLayerVirtuals Sub}.
Context {DisplayId CompositorTiming : Type} `{!FrameStatistics Sub DisplayId}.
Implicit Types (l : Layer Sub).


(** X16: what [onPostComposition] tells the frame tracker.  When it
    returns [true] it has told the tracker exactly once when the frame was
    ready (the fence of the latched buffer if that is valid, the desired
    present time otherwise), at most once when it was presented (the
    present fence if valid, else the refresh timestamp of a connected
    display, else nothing), has advanced the tracker exactly once, and that
    last of all; every call that names a frame names the current frame
    number.  When it returns [false] it has made no call and changed
    nothing. *)
Theorem onPostComposition_records
    (displayId : option DisplayId) (glDoneFence presentFence : FenceTime)
    (compositorTiming : CompositorTiming) l :
  let r := onPostComposition displayId glDoneFence presentFence compositorTiming l in
  let log := r.1.2 in
  r.1.1 = mFrameLatencyNeeded (mBufferInfo l)
  ∧ (if r.1.1
     then length (List.filter recordsReady log) = 1%nat
          ∧ (length (List.filter recordsPresent log) ≤ 1)%nat
          ∧ length (List.filter advancesFrame log) = 1%nat
          ∧ last log = Some FrameTracker_advanceFrame
          ∧ (List.existsb recordsPresent log
             = FenceTime_isValid presentFence
               || match displayId with Some d => isConnected d | None => false end)
          ∧ Forall (λ c, ∀ n, namedFrame c = Some n → n = mCurrentFrameNumber l) log
          ∧ mFrameLatencyNeeded (mBufferInfo r.2) = false
     else log = [] ∧ r.2 = l).
Proof.
  cbn zeta. unfold onPostComposition.
  destruct (mFrameLatencyNeeded (mBufferInfo l)); cbn; [|done].
  split; [done|].
  destruct (FenceTime_isValid (mFenceTime (mBufferInfo l))),
    (FenceTime_isValid presentFence); cbn;
    try (destruct displayId as [d|]; [destruct (isConnected d)|]; cbn);
    split_and!; try done; try lia;
    repeat constructor; cbn; by intros ? [= <-].
Qed.

End PostCompositionProperties.

(** ** The settings for client composition *)

Section ClientCompositionProperties.
Context `{Platform} `{Dataspaces} `{Surroundings} `{Orientations}.
Context {Sub : Type} `{!BufferLayerVirtuals Sub}.
Context {Region ScreenBounds : Type} `{!Composition Sub Region ScreenBounds}.
Implicit Types (l : Layer Sub) (targetSettings : TargetSettings.t Region).

(** Once the traversal has met this layer it adds nothing. *)
Lemma traverseBelow_finished (layers : list LayerId) (under : Region) :
  traverseBelow layers under true = (under, true).
Proof. induction layers as [|layer layers IH]; [done|]. cbn. apply IH. Qed.

(** The traversal collects the screen bounds of the layers that come
    before this layer in Z order, and of no other. *)
Lemma traverseBelow_below (below above : list LayerId) (under : Region) :
  (this ∉ below) →
  traverseBelow (below ++ this :: above) under false
    = (foldl Region_orSelf_bounds under (getScreenBounds <$> below), true).
Proof.
  revert under. induction below as [|layer below IH]; intros under Hbelow; cbn.
  - rewrite bool_decide_eq_true_2 by done. apply traverseBelow_finished.
  - apply not_elem_of_cons in Hbelow as [Hne Hbelow].
    rewrite bool_decide_eq_false_2 by done. by apply IH.
Qed.

(** X17: [prepareClientComposition] never dereferences a null buffer.
    [isHdrY410] reads the pixel format through [mBufferInfo.mBuffer]
    without a check of its own, but it is called only after the method has
    returned early for a layer without a buffer: whatever the layer and the
    target, the method returns. *)
Theorem prepareClientComposition_returns targetSettings l :
  is_Some (prepareClientComposition targetSettings l).
Proof.
  unfold prepareClientComposition.
  destruct (Layer_prepareClientComposition targetSettings l) as [[layer|] target1];
    [|done].
  destruct (mBuffer (mBufferInfo l)) as [buffer|] eqn:Hbuffer.
  - destruct (negb _); [|done]. unfold isHdrY410. rewrite Hbuffer.
    by destruct (_ && _).
  - by destruct (traverseBelow _ _ _).
Qed.

(** X18: protected or secure content never reaches a target that is not
    fit for it.  Whenever [prepareClientComposition] returns settings, the
    target settings are as the base class left them; if the layer's buffer
    is protected and the target does not support protected content, or the
    layer is secure and the target is not, the settings carry no buffer and
    alpha one, so that black is drawn; and settings that do carry a buffer
    carry the layer's, for a layer that is protected only if the target
    supports it and secure only if the target is. *)
Theorem prepareClientComposition_blacks_out_unfit_target
    targetSettings l (settings : LayerSettings.t) targetSettings' :
  prepareClientComposition targetSettings l = Some (Some settings, targetSettings') →
  targetSettings' = (Layer_prepareClientComposition targetSettings l).2
  ∧ ((isProtected l = true ∧ TargetSettings.supportsProtectedContent targetSettings' = false)
     ∨ (isSecure l = true ∧ TargetSettings.isSecure targetSettings' = false) →
     LayerSettings.buffer settings = None ∧ LayerSettings.alpha settings = Float.one)
  ∧ (is_Some (LayerSettings.buffer settings) →
     LayerSettings.buffer settings = mBuffer (mBufferInfo l)
     ∧ (isProtected l = true →
        TargetSettings.supportsProtectedContent targetSettings' = true)
     ∧ (isSecure l = true → TargetSettings.isSecure targetSettings' = true)).
Proof.
  unfold prepareClientComposition.
  destruct (Layer_prepareClientComposition targetSettings l) as [[layer|] target1];
    [|done].
  destruct (mBuffer (mBufferInfo l)) as [buffer|] eqn:Hbuffer;
    [|by destruct (traverseBelow _ _ _)].
  destruct (isProtected l) eqn:Hprotected, (isSecure l) eqn:Hsecure,
    (TargetSettings.supportsProtectedContent target1) eqn:Hsupports,
    (TargetSettings.isSecure target1) eqn:Htarget; cbn;
    try (destruct (isHdrY410 l); [|done]);
    intros [= <- <-]; cbn; rewrite ?Hsupports, ?Htarget;
    (split; [done|]); split;
    solve [ intros [[? ?]|[? ?]]; done
          | intros [? [=]]
          | done
          | by intros _; split_and! ].
Qed.

(** X19: a layer that has no buffer yet is not drawn, and what it leaves
    uncovered is cleared.  With no buffer, [prepareClientComposition]
    returns no settings; the clear region of the target grows by the part
    of the clip that the layers below this one in Z order do not cover,
    when there is such a part; the layers at and above this one do not
    count. *)
Theorem prepareClientComposition_without_buffer
    targetSettings l (layer : LayerSettings.t) target1 (below above : list LayerId) :
  Layer_prepareClientComposition targetSettings l = (Some layer, target1) →
  mBuffer (mBufferInfo l) = None →
  layersInZOrder = below ++ this :: above →
  (this ∉ below) →
  let under := foldl Region_orSelf_bounds Region_new (getScreenBounds <$> below) in
  let holes := Region_subtract (TargetSettings.clip target1) under in
  prepareClientComposition targetSettings l
    = Some (None,
            if Region_isEmpty holes then target1
            else TargetSettings.setClearRegion
                   (Region_orSelf (TargetSettings.clearRegion target1) holes) target1).
Proof.
  intros Hbase Hbuffer Hlayers Hbelow. cbn zeta.
  unfold prepareClientComposition. rewrite Hbase, Hbuffer, Hlayers.
  rewrite (traverseBelow_below below above Region_new Hbelow).
  by destruct (Region_isEmpty _).
Qed.

End ClientCompositionProperties.

(** ** The producer keeps what the properties ask of a subclass *)

Section MoreProducerProperties.
Import Producer.
Context `{Platform}.

Lemma producer_head_ignores_sync_points : head_ignores_sync_points (Sub := Queue).
Proof. intros expectedPresentTime points cs l. reflexivity. Qed.


End MoreProducerProperties.

(** * More concrete runs *)

Section MoreRuns.
Import Producer Examples MoreExamples.
#[local] Existing Instance android.
#[local] Existing Instance androidDataspaces.
#[local] Existing Instance uprightSurroundings.
#[local] Existing Instance nativeWindowBits.
#[local] Existing Instance connectedStatistics.
#[local] Existing Instance secureLayerOfThree.

(** X1, witness: scenario C, where the waiter for frame 2 has not been
    notified. *)
Lemma allTransactionsSignaled_true_exactly_when_satisfied_witness :
  (allTransactionsSignaled 20 scenarioC).1 = true
  ↔ ∀ p, p ∈ mLocalSyncPoints scenarioC →
         SyncPoint.getFrameNumber p ≤ getHeadFrameNumber 20 scenarioC →
         SyncPoint.frameIsAvailable p = true ∧ SyncPoint.transactionIsApplied p = true.
Proof.
  apply (allTransactionsSignaled_true_exactly_when_satisfied 20 scenarioC).
  vm_compute. repeat constructor.
Defined.

(** X3, witness: with head frame 2, the scan marks the waiter for frame 2
    and hands the waiter for frame 5 and the misplaced one behind it back
    as they were. *)
Lemma allTransactionsSignaled_stops_at_later_frame_witness :
  let before := [SyncPoint.mk 1 true true None; SyncPoint.mk 2 false false (Some 7)] in
  let point := SyncPoint.mk 5 false false None in
  let after := [SyncPoint.mk 1 false false None] in
  allTransactionsSignaled_loop 2 (before ++ point :: after) false true
    = let r := allTransactionsSignaled_loop 2 before false true in
      (r.1.1 ++ point :: after, r.1.2, r.2).
Proof.
  apply (allTransactionsSignaled_stops_at_later_frame 2
           [SyncPoint.mk 1 true true None; SyncPoint.mk 2 false false (Some 7)]
           (SyncPoint.mk 5 false false None) [SyncPoint.mk 1 false false None] false true).
  cbn. lia.
Defined.

(** X4, witness: three waiters, head frame 2. *)
Lemma allTransactionsSignaled_scans_mark_all_witness :
  let points' := Nat.iter (length threeWaiters) (scanned 2) threeWaiters in
  Forall2 raised threeWaiters points'
  ∧ (∀ p, p ∈ points' → SyncPoint.getFrameNumber p ≤ 2 →
          SyncPoint.frameIsAvailable p = true)
  ∧ scanned 2 points' = points'.
Proof.
  apply (allTransactionsSignaled_scans_mark_all 2 threeWaiters).
  unfold ascending, threeWaiters. repeat constructor; cbn; lia.
Defined.

Example threeWaiters_scanned :
  Nat.iter 3 (scanned 2) threeWaiters
    = [SyncPoint.mk 1 true false (Some 7); SyncPoint.mk 2 true true (Some 8);
       SyncPoint.mk 5 false false (Some 9)].
Proof. reflexivity. Qed.

(** X5, witness: the fence of frame 1 has not signaled; the waiter for
    frame 1 is not notified. *)
Lemma notifyAvailableFrames_without_signal_witness :
  notifyAvailableFrames 20 waiterUnsignaled = waiterUnsignaled.
Proof.
  apply (notifyAvailableFrames_without_signal 20 waiterUnsignaled). left. reflexivity.
Defined.

(** X6, witness: scenario C. *)
Lemma notifyAvailableFrames_then_allTransactionsSignaled_witness :
  let l' := notifyAvailableFrames 20 scenarioC in
  (allTransactionsSignaled 20 l').2 = l'
  ∧ (ascending (mLocalSyncPoints scenarioC) →
     (allTransactionsSignaled 20 l').1 = true
     ↔ ∀ p, p ∈ mLocalSyncPoints scenarioC →
            SyncPoint.getFrameNumber p ≤ getHeadFrameNumber 20 scenarioC →
            SyncPoint.transactionIsApplied p = true).
Proof.
  apply (notifyAvailableFrames_then_allTransactionsSignaled 20 scenarioC
           producer_head_ignores_sync_points); reflexivity.
Defined.

(** X7, witness: the refused latch of scenario C. *)
Lemma latchBuffer_refused_keeps_entries_witness :
  let l' := after [LatchBuffer false 10 20] scenarioC in
  Forall2 raised (mLocalSyncPoints scenarioC) (mLocalSyncPoints l')
  ∧ length (mLocalSyncPoints l') = length (mLocalSyncPoints scenarioC)
  ∧ SyncPoint.getFrameNumber <$> mLocalSyncPoints l'
    = SyncPoint.getFrameNumber <$> mLocalSyncPoints scenarioC
  ∧ SyncPoint.transactionIsApplied <$> mLocalSyncPoints l'
    = SyncPoint.transactionIsApplied <$> mLocalSyncPoints scenarioC.
Proof.
  apply (latchBuffer_refused_keeps_entries false 10 20 scenarioC false
           (after [LatchBuffer false 10 20] scenarioC) producer_keeps_sync_points).
  vm_compute. reflexivity.
Defined.

(** X8, witness: the latch of frame 1 with one waiter done and one
    waiting for frame 2. *)
Lemma latchBuffer_keeps_ledger_ascending_witness :
  ascending (mLocalSyncPoints (after [LatchBuffer false 10 20] doneWaiter)).
Proof.
  apply (latchBuffer_keeps_ledger_ascending false 10 20 doneWaiter true true
           (after [LatchBuffer false 10 20] doneWaiter) producer_keeps_sync_points).
  - unfold ascending. vm_compute. repeat constructor; discriminate.
  - vm_compute. reflexivity.
Defined.


(** X10, witness: the latch of frame 1 with both waiters notified and
    applied. *)
Lemma latchBuffer_latches_only_when_clear_witness :
  hasReadyFrame doneWaiter = true
  ∧ mRefreshPending doneWaiter = false
  ∧ fenceHasSignaled doneWaiter = true
  ∧ allTransactionsSignaled 20 doneWaiter = (true, doneWaiter)
  ∧ (ascending (mLocalSyncPoints doneWaiter) →
     ∀ p, p ∈ mLocalSyncPoints doneWaiter →
          SyncPoint.getFrameNumber p ≤ getHeadFrameNumber 20 doneWaiter →
          SyncPoint.frameIsAvailable p = true ∧ SyncPoint.transactionIsApplied p = true).
Proof.
  apply (latchBuffer_latches_only_when_clear false 10 20 doneWaiter false doneWaiter true
           (after [LatchBuffer false 10 20] doneWaiter)); vm_compute; reflexivity.
Defined.

(** X22, witness: scenario B; frame 1 is latched. *)
Lemma latchBuffer_latches_when_clear_witness :
  let l4 := (updateFrameNumber 10
               (updateActiveBuffer (updateTexImage false 10 20 scenarioB).2).2).2 in
  ∃ (recompute' : bool) l',
    latchBuffer false 10 20 scenarioB = Some (true, recompute', l')
    ∧ l' = setLocalSyncPoints
             (filter (λ p, ¬ satisfied (mCurrentFrameNumber (gatherBufferInfo l4)) p)
                (mLocalSyncPoints (gatherBufferInfo l4)))
             (setBufferInfo
                (BufferInfo_setFrameLatencyNeeded true (mBufferInfo (gatherBufferInfo l4)))
                (setRefreshPending true (gatherBufferInfo l4))).
Proof.
  apply (latchBuffer_latches_when_clear false 10 20 scenarioB false scenarioB false
           (updateTexImage false 10 20 scenarioB).2
           (updateActiveBuffer (updateTexImage false 10 20 scenarioB).2).2);
    try (vm_compute; reflexivity).
  left. reflexivity.
Defined.

(** X21, witness: the first latch of scenario B; the flag comes back set
    because there was no buffer before. *)
Lemma latchBuffer_recompute_only_when_changed_witness :
  let l1 := scenarioB in
  let l' := latchedLayer in
  false = true
  ∨ mBuffer (mBufferInfo l1) = None
  ∨ mCrop (mBufferInfo l') ≠ mCrop (mBufferInfo l1)
  ∨ mTransform (mBufferInfo l') ≠ mTransform (mBufferInfo l1)
  ∨ mScaleMode (mBufferInfo l') ≠ mScaleMode (mBufferInfo l1)
  ∨ mTransformToDisplayInverse (mBufferInfo l') ≠ mTransformToDisplayInverse (mBufferInfo l1)
  ∨ (∃ oldBuffer newBuffer,
       mBuffer (mBufferInfo l1) = Some oldBuffer
       ∧ mBuffer (mBufferInfo l') = Some newBuffer
       ∧ (GraphicBuffer_getWidth newBuffer ≠ GraphicBuffer_getWidth oldBuffer
          ∨ GraphicBuffer_getHeight newBuffer ≠ GraphicBuffer_getHeight oldBuffer))
  ∨ isOpaque (mDrawingState l') l' ≠ isOpaque (mDrawingState l1) l1.
Proof.
  apply (latchBuffer_recompute_only_when_changed false 10 20 scenarioB false scenarioB true
           latchedLayer false (updateTexImage false 10 20 scenarioB).2);
    vm_compute; reflexivity.
Defined.

(** The fault is within reach: a subclass that drops the buffer of a layer
    that had one.  The first latch of a layer, which has no buffer to
    compare with, returns whatever the subclass does. *)
Example latchBuffer_lost_buffer :
  @latchBuffer android unit losingConsumer false 10 20 drawnLayer = None
  ∧ is_Some (@latchBuffer android unit losingConsumer false 10 20
               (setBufferInfo emptyInfo drawnLayer)).
Proof. split; [reflexivity|]. vm_compute. by eexists. Qed.

(** X13, witness: the values of the Android headers; legacy sRGB. *)
Lemma translateDataspace_idempotent_witness :
  (translateDataspace 0x201 ∉ legacyDataspaces)
  ∧ ((0x201 ∉ legacyDataspaces) → translateDataspace 0x201 = 0x201)
  ∧ translateDataspace (translateDataspace 0x201) = translateDataspace 0x201.
Proof.
  apply (translateDataspace_idempotent 0x201).
  unfold modernDataspaces, legacyDataspaces. cbn.
  repeat constructor; rewrite !elem_of_cons, elem_of_nil; intros Hin;
    repeat (destruct Hin as [Heq|Hin]; [discriminate Heq|]); done.
Defined.

Example translateDataspace_srgb : translateDataspace 0x201 = 142671872.
Proof. reflexivity. Qed.


Example latchedLayer_reported :
  let present := {| FenceTime_fence := 12; FenceTime_isValid := false |} in
  (onPostComposition (CompositorTiming := unit) (Some 0) present present tt latchedLayer).1.2
    = [FrameEventHistory_addPostComposition 1 present present tt;
       FrameTracker_setDesiredPresentTime 0;
       TimeStats_setDesiredTime 3 1 0;
       FrameTracker_setFrameReadyFence {| FenceTime_fence := 11; FenceTime_isValid := true |};
       TimeStats_setPresentTime 3 1 1000;
       FrameTracer_traceTimestamp 3 5 1 1000;
       FrameTracker_setActualPresentTime 1000;
       FrameTracker_advanceFrame].
Proof. reflexivity. Qed.

(** X18, witness: the secure layer with frame 1 latched, drawn for a
    target that is not secure: no buffer, alpha one. *)
Lemma prepareClientComposition_blacks_out_unfit_target_witness :
  let settings := LayerSettings.blackOut blankSettings in
  insecureTarget = (Layer_prepareClientComposition insecureTarget latchedLayer).2
  ∧ ((isProtected latchedLayer = true
      ∧ TargetSettings.supportsProtectedContent insecureTarget = false)
     ∨ (isSecure latchedLayer = true ∧ TargetSettings.isSecure insecureTarget = false) →
     LayerSettings.buffer settings = None ∧ LayerSettings.alpha settings = Float.one)
  ∧ (is_Some (LayerSettings.buffer settings) →
     LayerSettings.buffer settings = mBuffer (mBufferInfo latchedLayer)
     ∧ (isProtected latchedLayer = true →
        TargetSettings.supportsProtectedContent insecureTarget = true)
     ∧ (isSecure latchedLayer = true → TargetSettings.isSecure insecureTarget = true)).
Proof.
  apply (prepareClientComposition_blacks_out_unfit_target insecureTarget latchedLayer
           (LayerSettings.blackOut blankSettings) insecureTarget).
  vm_compute. reflexivity.
Defined.

(** The same layer drawn for a secure target carries its buffer. *)
Example prepareClientComposition_secure_target :
  ∃ settings,
    prepareClientComposition secureTarget latchedLayer = Some (Some settings, secureTarget)
    ∧ LayerSettings.buffer settings = Some {| width := 64; height := 48; format := 1 |}
    ∧ LayerSettings.alpha settings = Float.half.
Proof. eexists. split; [vm_compute; reflexivity|]. split; reflexivity. Qed.

(** X19, witness: layer 2 of three has no buffer yet; layer 1 is below
    it, and cells 2 and 3 of the clip are cleared. *)
Lemma prepareClientComposition_without_buffer_witness :
  prepareClientComposition insecureTarget freshLayer
    = Some (None, TargetSettings.mk [1; 2; 3] false false true [2; 3]).
Proof.
  assert (2 ∉ [1]) as Hbelow.
  { rewrite elem_of_cons, elem_of_nil. intros [Heq|[]]. discriminate Heq. }
  exact (prepareClientComposition_without_buffer insecureTarget freshLayer blankSettings
           insecureTarget [1] [3] eq_refl eq_refl eq_refl Hbelow).
Defined.

End MoreRuns.
